(** * Study-room reservation back end: reservations and check-in/check-out

    A shallow embedding of [back-end/routes/reservations.js],
    [back-end/routes/signin.js] and of the Mongoose schemas they save
    through ([models/Reservation.js], [models/Room.js], [models/SignIn.js]).

    The database is a record of finite maps from document ids to documents.
    A route handler is a function from the database (and the request) to the
    database it leaves behind and the response it sends.  [new Date()] and
    [Date.now()] are the argument [now], in milliseconds.

    JavaScript strings are Rocq strings, read as sequences of code units
    below 256.  The numbers the routes compute from strings ([Number], the
    duration of a reservation) are IEEE 754 doubles, as [spec_float] with 53
    bits of precision; counters, head counts and instants are mathematical
    integers.  The [createdAt]/[updatedAt] stamps that Mongoose maintains by
    itself are left out of the documents. *)

From Stdlib Require Import ZArith Lia Ascii String SpecFloat.
From stdpp Require Import base option list gmap strings pretty fin_maps sorting.

Local Open Scope string_scope.
Local Open Scope Z_scope.

(** ** JavaScript primitives used by the routes *)

Module Js.

(** [a <= b] and [a >= b] on strings: lexicographic order of code units. *)
Definition le (a b : string) : bool := String.leb a b.
Definition ge (a b : string) : bool := String.leb b a.

(** Truthiness of an optional string / number ([undefined], [""] and [0]
    are falsy). *)
Definition truthy_str (x : option string) : bool :=
  match x with
  | Some s => negb (String.eqb s "")
  | None => false
  end.

Definition truthy_num (x : option Z) : bool :=
  match x with
  | Some n => negb (n =? 0)
  | None => false
  end.

(** [x || d] for an optional string and for a number. *)
Definition str_or (x : option string) (d : string) : string :=
  match x with
  | Some s => if String.eqb s "" then d else s
  | None => d
  end.

Definition num_or (n d : Z) : Z := if n =? 0 then d else n.

(** White space removed by [String.prototype.trim]. *)
Definition is_space (a : ascii) : bool :=
  let n := Ascii.nat_of_ascii a in
  ((9 <=? n) && (n <=? 13) || (n =? 32) || (n =? 160))%nat.

Fixpoint trim_start (s : string) : string :=
  match s with
  | String a s' => if is_space a then trim_start s' else s
  | EmptyString => EmptyString
  end.

Definition trim (s : string) : string :=
  String.rev (trim_start (String.rev (trim_start s))).

(** [s.split(':')]. *)
Fixpoint split_go (sep : ascii) (cur : string) (s : string) : list string :=
  match s with
  | EmptyString => [String.rev cur]
  | String a s' =>
      if Ascii.eqb a sep then String.rev cur :: split_go sep EmptyString s'
      else split_go sep (String a cur) s'
  end.

Definition split (sep : ascii) (s : string) : list string :=
  split_go sep EmptyString s.

(** Numbers: doubles, with the arithmetic and the comparisons of IEEE 754
    (round to nearest, ties to even; every comparison with [NaN] is false). *)
Definition number : Type := spec_float.
Definition prec : Z := 53.
Definition emax : Z := 1024.

Definition NaN : number := S754_nan.
Definition isNaN (x : number) : bool :=
  match x with
  | S754_nan => true
  | _ => false
  end.

(** The double nearest to an integer. *)
Definition of_Z (z : Z) : number := binary_normalize prec emax z 0 false.

Definition add : number → number → number := SFadd prec emax.
Definition sub : number → number → number := SFsub prec emax.
Definition mul : number → number → number := SFmul prec emax.
Definition num_le : number → number → bool := SFleb.
Definition num_lt : number → number → bool := SFltb.

Global Instance number_eq_dec : EqDecision number.
Proof. solve_decision. Defined.

Arguments of_Z : simpl never.
Arguments add : simpl never.
Arguments sub : simpl never.
Arguments mul : simpl never.
Arguments num_le : simpl never.
Arguments num_lt : simpl never.

(** [Number(s)], the StringToNumber of the language: white space around the
    literal is skipped and the empty literal is [+0]; a literal is [0x], [0o]
    or [0b] followed by digits of that base, or an optional sign followed by
    [Infinity] or by decimal digits with an optional fraction and an
    optional exponent; anything else is [NaN].  The value of a literal is
    rounded to the nearest double. *)
Definition digit (base : Z) (a : ascii) : option Z :=
  let n := Z.of_nat (Ascii.nat_of_ascii a) in
  let v := if (48 <=? n) && (n <=? 57) then n - 48
           else if (97 <=? n) && (n <=? 102) then n - 87
           else if (65 <=? n) && (n <=? 70) then n - 55
           else base in
  if v <? base then Some v else None.

Fixpoint digits (base acc : Z) (s : string) : option Z :=
  match s with
  | EmptyString => Some acc
  | String a s' =>
      match digit base a with
      | Some d => digits base (base * acc + d) s'
      | None => None
      end
  end.

(** One digit at least, and nothing but digits. *)
Definition integer (base : Z) (s : string) : option Z :=
  match s with
  | EmptyString => None
  | _ => digits base 0 s
  end.

(** The decimal digits a string starts with: their value after [acc], their
    number after [n], and what follows them. *)
Fixpoint leading (acc n : Z) (s : string) : Z * Z * string :=
  match s with
  | EmptyString => (acc, n, s)
  | String a s' =>
      match digit 10 a with
      | Some d => leading (10 * acc + d) (n + 1) s'
      | None => (acc, n, s)
      end
  end.

Definition sign (s : string) : bool * string :=
  match s with
  | String a s' =>
      if Ascii.eqb a "-" then (true, s')
      else if Ascii.eqb a "+" then (false, s')
      else (false, s)
  | EmptyString => (false, s)
  end.

(** The exponent part, when there is one, up to the end of the literal. *)
Definition exponent (s : string) : option Z :=
  match s with
  | EmptyString => Some 0
  | String a s' =>
      if Ascii.eqb a "e" || Ascii.eqb a "E" then
        let '(neg, ds) := sign s' in
        match integer 10 ds with
        | Some x => Some (if neg then - x else x)
        | None => None
        end
      else None
  end.

(** An unsigned decimal literal as [(m, e)], standing for [m * 10 ^ e]. *)
Definition decimal (s : string) : option (Z * Z) :=
  let '(i, ni, r1) := leading 0 0 s in
  let '(m, nf, r2) :=
    match r1 with
    | String a r => if Ascii.eqb a "." then leading i 0 r else (i, 0, r1)
    | EmptyString => (i, 0, r1)
    end in
  if ni + nf =? 0 then None
  else match exponent r2 with
       | Some x => Some (m, x - nf)
       | None => None
       end.

(** The double nearest to [m * 10 ^ e], with the sign [neg]. *)
Definition round (neg : bool) (m e : Z) : number :=
  match m with
  | Zpos p =>
      if 0 <=? e then binary_round prec emax neg (p * Z.to_pos (10 ^ e)) 0
      else
        let '(q, e', l) := SFdiv_core_binary prec emax (Zpos p) 0 (10 ^ (- e)) 0 in
        binary_round_aux prec emax neg q e' l
  | _ => S754_zero neg
  end.

Definition prefixed (s : string) : option (Z * string) :=
  match s with
  | String z (String x r) =>
      if Ascii.eqb z "0" then
        if Ascii.eqb x "x" || Ascii.eqb x "X" then Some (16, r)
        else if Ascii.eqb x "o" || Ascii.eqb x "O" then Some (8, r)
        else if Ascii.eqb x "b" || Ascii.eqb x "B" then Some (2, r)
        else None
      else None
  | _ => None
  end.

Definition Number (s : string) : number :=
  let t := trim s in
  if String.eqb t "" then S754_zero false
  else match prefixed t with
       | Some (base, r) =>
           match integer base r with
           | Some n => of_Z n
           | None => NaN
           end
       | None =>
           let '(neg, u) := sign t in
           if String.eqb u "Infinity" then S754_infinity neg
           else match decimal u with
                | Some (m, e) => round neg m e
                | None => NaN
                end
       end.

(** [Math.round(n / d)] for integers [n] and a positive [d]: the nearest
    integer, halves going up. *)
Definition round_div (n d : Z) : Z := (2 * n + d) / (2 * d).

End Js.

(** ** Documents *)

Module Reservation.

Inductive Status := pending | confirmed | cancelled | completed | no_show.

Global Instance Status_eq_dec : EqDecision Status.
Proof. solve_decision. Defined.

Record t := mk {
  user : nat;
  room : nat;
  building : nat;
  reservationDate : Z;
  startTime : string;
  endTime : string;
  duration : Js.number;
  purpose : string;
  numberOfPeople : Z;
  status : Status;
  cancelReason : option string;
  cancelledAt : option Z;
  cancelledBy : option nat;
  notes : option string;
  checkInTime : option Z;
  checkOutTime : option Z
}.

(** [status: { $in: ['pending', 'confirmed'] }] and
    [['pending', 'confirmed'].includes(status)]. *)
Definition active (s : Status) : bool :=
  match s with
  | pending | confirmed => true
  | _ => false
  end.

Definition purposes : list string :=
  ["studying"; "group-project"; "meeting"; "exam-prep"; "other"].

(** The schema validators Mongoose runs before a save: the required strings
    are not empty, [purpose] is in its enum and [numberOfPeople] is at
    least 1. *)
Definition validate (r : t) : bool :=
  negb (String.eqb (startTime r) "") && negb (String.eqb (endTime r) "")
  && bool_decide (purpose r ∈ purposes)
  && (1 <=? numberOfPeople r).

End Reservation.

Module Room.

Inductive Status := available | occupied | maintenance.

Global Instance Status_eq_dec : EqDecision Status.
Proof. solve_decision. Defined.

(** The fields the reservation and sign-in routes read or write; the
    descriptive ones (number, floor, amenities, hours, images) are carried
    unchanged by every save below. *)
Record t := mk {
  building : nat;
  capacity : Z;
  occupancyStatus : Status;
  currentOccupancy : Z;
  lastUpdated : Z
}.

(** [capacity] has [min: 1] and [currentOccupancy] has [min: 0]. *)
Definition validate (r : t) : bool :=
  (1 <=? capacity r) && (0 <=? currentOccupancy r).

(** [roomSchema.pre('save')]. *)
Definition pre_save (now : Z) (r : t) : t :=
  let st :=
    if 0 <? currentOccupancy r then occupied
    else if negb (bool_decide (occupancyStatus r = maintenance)) then available
    else occupancyStatus r in
  {| building := building r;
     capacity := capacity r;
     occupancyStatus := st;
     currentOccupancy := currentOccupancy r;
     lastUpdated := now |}.

End Room.

Module SignIn.

Inductive Status := active | completed | abandoned.

Global Instance Status_eq_dec : EqDecision Status.
Proof. solve_decision. Defined.

Record t := mk {
  user : nat;
  reservation : nat;
  room : nat;
  building : nat;
  signInTime : Z;
  signOutTime : option Z;
  actualDuration : option Z;
  notes : string;
  status : Status
}.

(** [signInSchema.pre('save')]: a [Date] object is always truthy, so the
    test is on [signOutTime] being set. *)
Definition pre_save (r : t) : t :=
  match signOutTime r with
  | Some out =>
      {| user := user r; reservation := reservation r; room := room r;
         building := building r; signInTime := signInTime r;
         signOutTime := signOutTime r;
         actualDuration := Some (Js.round_div (out - signInTime r) 60000);
         notes := notes r; status := status r |}
  | None => r
  end.

End SignIn.

(** ** The database *)

Record Db := mkDb {
  reservations : gmap nat Reservation.t;
  signIns : gmap nat SignIn.t;
  rooms : gmap nat Room.t;
  buildings : gset nat
}.

(** [Model.find(query)]: the documents a query selects, with their ids. *)
Definition find {A} (q : nat → A → bool) (m : gmap nat A) : list (nat * A) :=
  filter (λ d, q d.1 d.2 = true) (map_to_list m).

(** [Model.findOne(query)]. *)
Definition findOne {A} (q : nat → A → bool) (m : gmap nat A) : option (nat * A) :=
  head (find q m).

(** The [_id] of a [new Model(...)]. *)
Definition newId {A} (m : gmap nat A) : nat := fresh (dom m).

(** Responses: [res.status(c).json({ message, data })]. *)
Inductive Response (A : Type) :=
| Success (code : Z) (data : A)
| Failure (code : Z) (message : string).
Arguments Success {A} code data.
Arguments Failure {A} code message.

(** The error classes, as HTTP status codes. *)
Definition ValidationError : Z := 400.
Definition Forbidden : Z := 403.
Definition NotFound : Z := 404.
Definition Conflict : Z := 409.
Definition InternalError : Z := 500.

(** ** routes/reservations.js *)

(** The test of the loop in [checkBookingConflict]. *)
Definition overlaps (startTime endTime : string) (existing : Reservation.t) : bool :=
  negb (Js.le endTime (Reservation.startTime existing)
        || Js.ge startTime (Reservation.endTime existing)).

(** The query of [checkBookingConflict]. *)
Definition conflictQuery (roomId : nat) (reservationDate : Z) (excludeId : option nat)
    (id : nat) (r : Reservation.t) : bool :=
  bool_decide (Reservation.room r = roomId)
  && bool_decide (Reservation.reservationDate r = reservationDate)
  && Reservation.active (Reservation.status r)
  && match excludeId with
     | Some ex => negb (bool_decide (id = ex))
     | None => true
     end.

(** The [for ... of] loop, returning at the first overlap. *)
Fixpoint conflictLoop (startTime endTime : string) (conflicts : list (nat * Reservation.t)) : bool :=
  match conflicts with
  | [] => false
  | (_, existing) :: rest =>
      if overlaps startTime endTime existing then true
      else conflictLoop startTime endTime rest
  end.

Definition checkBookingConflict (db : Db) (roomId : nat) (reservationDate : Z)
    (startTime endTime : string) (excludeId : option nat) : bool :=
  let conflicts := find (conflictQuery roomId reservationDate excludeId) (reservations db) in
  conflictLoop startTime endTime conflicts.

(** Setters for the assignments the routes make to a loaded reservation. *)
Module ReservationSet.
Import Reservation.

Definition startTime (v : string) (r : t) : t :=
  mk (user r) (room r) (building r) (reservationDate r) v (endTime r)
     (duration r) (purpose r) (numberOfPeople r) (status r) (cancelReason r)
     (cancelledAt r) (cancelledBy r) (notes r) (checkInTime r) (checkOutTime r).

Definition endTime (v : string) (r : t) : t :=
  mk (user r) (room r) (building r) (reservationDate r) (Reservation.startTime r) v
     (duration r) (purpose r) (numberOfPeople r) (status r) (cancelReason r)
     (cancelledAt r) (cancelledBy r) (notes r) (checkInTime r) (checkOutTime r).

Definition numberOfPeople (v : Z) (r : t) : t :=
  mk (user r) (room r) (building r) (reservationDate r) (Reservation.startTime r)
     (Reservation.endTime r) (duration r) (purpose r) v (status r) (cancelReason r)
     (cancelledAt r) (cancelledBy r) (notes r) (checkInTime r) (checkOutTime r).

(** [notes] and [cancelReason] are declared with [trim: true]. *)
Definition notes (v : string) (r : t) : t :=
  mk (user r) (room r) (building r) (reservationDate r) (Reservation.startTime r)
     (Reservation.endTime r) (duration r) (purpose r) (Reservation.numberOfPeople r)
     (status r) (cancelReason r) (cancelledAt r) (cancelledBy r)
     (Some (Js.trim v)) (checkInTime r) (checkOutTime r).

Definition status (v : Status) (r : t) : t :=
  mk (user r) (room r) (building r) (reservationDate r) (Reservation.startTime r)
     (Reservation.endTime r) (duration r) (purpose r) (Reservation.numberOfPeople r)
     v (cancelReason r) (cancelledAt r) (cancelledBy r) (Reservation.notes r)
     (checkInTime r) (checkOutTime r).

Definition cancellation (at_ : Z) (by_ : nat) (reason : string) (r : t) : t :=
  mk (user r) (room r) (building r) (reservationDate r) (Reservation.startTime r)
     (Reservation.endTime r) (duration r) (purpose r) (Reservation.numberOfPeople r)
     (Reservation.status r) (Some (Js.trim reason)) (Some at_) (Some by_)
     (Reservation.notes r) (checkInTime r) (checkOutTime r).

Definition checkTimes (cin : Z) (cout : option Z) (r : t) : t :=
  mk (user r) (room r) (building r) (reservationDate r) (Reservation.startTime r)
     (Reservation.endTime r) (duration r) (purpose r) (Reservation.numberOfPeople r)
     (Reservation.status r) (cancelReason r) (cancelledAt r) (cancelledBy r)
     (Reservation.notes r) (Some cin) cout.

End ReservationSet.

(** [doc.save()]: the validators run first; a document that fails them is
    not written and the handler's [catch] answers 500. *)
Definition saveReservation (id : nat) (r : Reservation.t) (db : Db) : option Db :=
  if Reservation.validate r
  then Some (mkDb (<[id := r]> (reservations db)) (signIns db) (rooms db) (buildings db))
  else None.

Definition saveRoom (now : Z) (id : nat) (r : Room.t) (db : Db) : option Db :=
  if Room.validate r
  then Some (mkDb (reservations db) (signIns db)
                  (<[id := Room.pre_save now r]> (rooms db)) (buildings db))
  else None.

Definition saveSignIn (id : nat) (r : SignIn.t) (db : Db) : Db :=
  mkDb (reservations db) (<[id := SignIn.pre_save r]> (signIns db))
       (rooms db) (buildings db).

(** [const [h, m] = t.split(':').map(Number)] and [h * 60 + m]; without a
    colon [m] is [undefined] and the sum is [NaN]. *)
Definition minutes (t : string) : Js.number :=
  match map Js.Number (Js.split ":" t) with
  | h :: m :: _ => Js.add (Js.mul h (Js.of_Z 60)) m
  | _ => Js.NaN
  end.

Definition durationOf (startTime endTime : string) : Js.number :=
  Js.sub (minutes endTime) (minutes startTime).

Module CreateBody.
Record t := mk {
  room : option nat;
  building : option nat;
  reservationDate : option Z;
  startTime : option string;
  endTime : option string;
  purpose : option string;
  numberOfPeople : option Z;
  notes : option string
}.
End CreateBody.

(** A required body field: [None] when the field is falsy. *)
Definition required_str (x : option string) : option string :=
  if Js.truthy_str x then x else None.

Definition required_num (x : option Z) : option Z :=
  if Js.truthy_num x then x else None.

(** [router.post('/')]: create a reservation for [userId]. *)
Definition createReservation (userId : nat) (body : CreateBody.t) (db : Db)
    : Db * Response (nat * Reservation.t) :=
  match CreateBody.room body, CreateBody.building body,
        CreateBody.reservationDate body,
        required_str (CreateBody.startTime body),
        required_str (CreateBody.endTime body),
        required_str (CreateBody.purpose body),
        required_num (CreateBody.numberOfPeople body) with
  | Some room, Some building, Some reservationDate,
    Some startTime, Some endTime, Some purpose, Some numberOfPeople =>
      match rooms db !! room with
      | None => (db, Failure NotFound "Room not found")
      | Some roomData =>
          if negb (bool_decide (building ∈ buildings db))
          then (db, Failure NotFound "Building not found")
          else if Room.capacity roomData <? numberOfPeople
          then (db, Failure ValidationError
                      ("Room capacity is " +:+ pretty (Room.capacity roomData)
                       +:+ ", requested " +:+ pretty numberOfPeople))
          else if checkBookingConflict db room reservationDate startTime endTime None
          then (db, Failure Conflict "Time slot is already booked")
          else
            let duration := durationOf startTime endTime in
            if Js.num_le duration (Js.of_Z 0)
            then (db, Failure ValidationError "End time must be after start time")
            else if Js.isNaN duration
            then
              (* [NaN <= 0] is false, and the save refuses a [NaN] duration:
                 Mongoose cannot cast it to the schema's Number *)
              (db, Failure InternalError "Error creating reservation")
            else
              let reservation :=
                Reservation.mk userId room building reservationDate
                  startTime endTime duration purpose numberOfPeople
                  Reservation.pending None None None
                  (Js.trim <$> CreateBody.notes body) None None in
              let id := newId (reservations db) in
              match saveReservation id reservation db with
              | Some db' => (db', Success 201 (id, reservation))
              | None => (db, Failure InternalError "Error creating reservation")
              end
      end
  | _, _, _, _, _, _, _ => (db, Failure ValidationError "Missing required fields")
  end.

Module Patch.
Record t := mk {
  startTime : option string;
  endTime : option string;
  numberOfPeople : option Z;
  notes : option string;
  status : option string
}.
End Patch.

(** [reservation.user.toString() !== req.user.userId && req.user.role !== 'admin'] *)
Definition unauthorized (owner userId : nat) (role : string) : bool :=
  negb (bool_decide (owner = userId)) && negb (String.eqb role "admin").

(** The block [if (startTime || endTime) { ... }] of the update route:
    [inl] is the early 409 return. *)
Definition updateTimes (db : Db) (id : nat) (p : Patch.t) (reservation : Reservation.t)
    : string + Reservation.t :=
  if Js.truthy_str (Patch.startTime p) || Js.truthy_str (Patch.endTime p) then
    let newStartTime := Js.str_or (Patch.startTime p) (Reservation.startTime reservation) in
    let newEndTime := Js.str_or (Patch.endTime p) (Reservation.endTime reservation) in
    if checkBookingConflict db (Reservation.room reservation)
         (Reservation.reservationDate reservation) newStartTime newEndTime (Some id)
    then inl "New time slot is already booked"
    else
      let r1 := match required_str (Patch.startTime p) with
                | Some s => ReservationSet.startTime s reservation
                | None => reservation
                end in
      let r2 := match required_str (Patch.endTime p) with
                | Some e => ReservationSet.endTime e r1
                | None => r1
                end in
      inr r2
  else inr reservation.

(** The assignments after the capacity check: notes, then status. *)
Definition updateNotesStatus (p : Patch.t) (reservation : Reservation.t) : Reservation.t :=
  let r1 := match required_str (Patch.notes p) with
            | Some n => ReservationSet.notes n reservation
            | None => reservation
            end in
  match Patch.status p with
  | Some status =>
      (* [['confirmed', 'cancelled'].includes(status)] *)
      if String.eqb status "confirmed"
      then ReservationSet.status Reservation.confirmed r1
      else if String.eqb status "cancelled"
      then ReservationSet.status Reservation.cancelled r1
      else r1
  | None => r1
  end.

(** [router.put('/:id')]. *)
Definition updateReservation (id : nat) (userId : nat) (role : string)
    (p : Patch.t) (db : Db) : Db * Response Reservation.t :=
  match reservations db !! id with
  | None => (db, Failure NotFound "Reservation not found")
  | Some reservation =>
      if unauthorized (Reservation.user reservation) userId role
      then (db, Failure Forbidden "Unauthorized")
      else if negb (bool_decide (Reservation.status reservation = Reservation.pending))
              && negb (bool_decide (Patch.status p = Some "confirmed"))
      then (db, Failure ValidationError "Can only modify pending reservations")
      else
        match updateTimes db id p reservation with
        | inl msg => (db, Failure Conflict msg)
        | inr r1 =>
            let save r :=
              match saveReservation id (updateNotesStatus p r) db with
              | Some db' => (db', Success 200 (updateNotesStatus p r))
              | None => (db, Failure InternalError "Error updating reservation")
              end in
            match required_num (Patch.numberOfPeople p) with
            | Some numberOfPeople =>
                match rooms db !! Reservation.room r1 with
                | None =>
                    (* [room.capacity] on [null] throws *)
                    (db, Failure InternalError "Error updating reservation")
                | Some room =>
                    if Room.capacity room <? numberOfPeople
                    then (db, Failure ValidationError
                                ("Room capacity is " +:+ pretty (Room.capacity room)))
                    else save (ReservationSet.numberOfPeople numberOfPeople r1)
                end
            | None => save r1
            end
        end
  end.

(** [router.delete('/:id')]. *)
Definition cancelReservation (id : nat) (userId : nat) (role : string)
    (reason : option string) (now : Z) (db : Db) : Db * Response Reservation.t :=
  match reservations db !! id with
  | None => (db, Failure NotFound "Reservation not found")
  | Some reservation =>
      if unauthorized (Reservation.user reservation) userId role
      then (db, Failure Forbidden "Unauthorized")
      else if negb (Reservation.active (Reservation.status reservation))
      then (db, Failure ValidationError
                  "Cannot cancel completed or already cancelled reservations")
      else
        let r :=
          ReservationSet.cancellation now userId (Js.str_or reason "")
            (ReservationSet.status Reservation.cancelled reservation) in
        match saveReservation id r db with
        | Some db' => (db', Success 200 r)
        | None => (db, Failure InternalError "Error cancelling reservation")
        end
  end.

(** ** routes/signin.js *)

Module CheckInBody.
Record t := mk {
  reservation : option nat;
  room : option nat;
  building : option nat;
  notes : option string
}.
End CheckInBody.

Module CheckInData.
Record t := mk { signInId : nat; signInTime : Z; roomOccupancy : Z }.
End CheckInData.

Module CheckOutData.
Record t := mk {
  signInId : nat;
  signOutTime : option Z;
  actualDuration : option Z;
  roomOccupancy : Z
}.
End CheckOutData.

Definition setOccupancy (n : Z) (r : Room.t) : Room.t :=
  Room.mk (Room.building r) (Room.capacity r) (Room.occupancyStatus r) n
          (Room.lastUpdated r).

(** The query [{ reservation, status: 'active' }]. *)
Definition activeSignInQuery (reservation : nat) (_ : nat) (s : SignIn.t) : bool :=
  bool_decide (SignIn.reservation s = reservation)
  && bool_decide (SignIn.status s = SignIn.active).

(** [router.post('/')]: check in. *)
Definition checkIn (userId : nat) (body : CheckInBody.t) (now : Z) (db : Db)
    : Db * Response CheckInData.t :=
  match CheckInBody.reservation body, CheckInBody.room body, CheckInBody.building body with
  | Some reservation, Some room, Some building =>
      match reservations db !! reservation with
      | None => (db, Failure NotFound "Reservation not found")
      | Some reservationData =>
          if negb (bool_decide (Reservation.user reservationData = userId))
          then (db, Failure Forbidden "Unauthorized")
          else if negb (Reservation.active (Reservation.status reservationData))
          then (db, Failure ValidationError
                      "Can only check in for pending or confirmed reservations")
          else
            match findOne (activeSignInQuery reservation) (signIns db) with
            | Some _ =>
                (db, Failure ValidationError "Already checked in for this reservation")
            | None =>
                let signIn :=
                  SignIn.mk userId reservation room building now None None
                    (Js.trim (Js.str_or (CheckInBody.notes body) "")) SignIn.active in
                let signInId := newId (signIns db) in
                let db1 := saveSignIn signInId signIn db in
                match rooms db1 !! room with
                | None =>
                    (* [roomData.currentOccupancy] on [null] throws *)
                    (db1, Failure InternalError "Error during check-in")
                | Some roomData =>
                    let roomData' :=
                      setOccupancy (Js.num_or (Room.currentOccupancy roomData) 0 + 1)
                        roomData in
                    match saveRoom now room roomData' db1 with
                    | Some db2 =>
                        (db2, Success 201
                                (CheckInData.mk signInId now
                                   (Room.currentOccupancy roomData')))
                    | None => (db1, Failure InternalError "Error during check-in")
                    end
                end
            end
      end
  | _, _, _ => (db, Failure ValidationError "Missing required fields")
  end.

(** The assignments of the check-out route to the sign-in record. *)
Definition signOut (now : Z) (notes : option string) (s : SignIn.t) : SignIn.t :=
  SignIn.mk (SignIn.user s) (SignIn.reservation s) (SignIn.room s)
    (SignIn.building s) (SignIn.signInTime s) (Some now) (SignIn.actualDuration s)
    (match required_str notes with
     | Some n => Js.trim n
     | None => SignIn.notes s
     end)
    SignIn.completed.

(** [router.post('/:id/checkout')]: check out. *)
Definition checkOut (userId : nat) (id : nat) (notes : option string) (now : Z)
    (db : Db) : Db * Response CheckOutData.t :=
  match signIns db !! id with
  | None => (db, Failure NotFound "Check-in record not found")
  | Some signIn0 =>
      if negb (bool_decide (SignIn.user signIn0 = userId))
      then (db, Failure Forbidden "Unauthorized")
      else if negb (bool_decide (SignIn.status signIn0 = SignIn.active))
      then (db, Failure ValidationError "Check-in is not active")
      else
        let signIn := SignIn.pre_save (signOut now notes signIn0) in
        let db1 := saveSignIn id (signOut now notes signIn0) db in
        match rooms db1 !! SignIn.room signIn with
        | None =>
            (* [room.currentOccupancy] on [null] throws *)
            (db1, Failure InternalError "Error during check-out")
        | Some room0 =>
            let room :=
              setOccupancy (Z.max 0 (Js.num_or (Room.currentOccupancy room0) 1 - 1))
                room0 in
            match saveRoom now (SignIn.room signIn) room db1 with
            | None => (db1, Failure InternalError "Error during check-out")
            | Some db2 =>
                let ok db' :=
                  (db', Success 200
                          (CheckOutData.mk id (SignIn.signOutTime signIn)
                             (SignIn.actualDuration signIn)
                             (Room.currentOccupancy room))) in
                match reservations db2 !! SignIn.reservation signIn with
                | Some reservation =>
                    let r :=
                      ReservationSet.checkTimes (SignIn.signInTime signIn)
                        (SignIn.signOutTime signIn)
                        (ReservationSet.status Reservation.completed reservation) in
                    match saveReservation (SignIn.reservation signIn) r db2 with
                    | Some db3 => ok db3
                    | None => (db2, Failure InternalError "Error during check-out")
                    end
                | None => ok db2
                end
            end
        end
  end.

(** ** Requests served one after another *)

Inductive Request :=
| CreateReservation (userId : nat) (body : CreateBody.t)
| UpdateReservation (id userId : nat) (role : string) (p : Patch.t)
| CancelReservation (id userId : nat) (role : string) (reason : option string)
| CheckIn (userId : nat) (body : CheckInBody.t)
| CheckOut (userId id : nat) (notes : option string).

(** The database after one request, served at time [now]. *)
Definition handle (now : Z) (req : Request) (db : Db) : Db :=
  match req with
  | CreateReservation userId body => (createReservation userId body db).1
  | UpdateReservation id userId role p => (updateReservation id userId role p db).1
  | CancelReservation id userId role reason =>
      (cancelReservation id userId role reason now db).1
  | CheckIn userId body => (checkIn userId body now db).1
  | CheckOut userId id notes => (checkOut userId id notes now db).1
  end.

Definition run (reqs : list (Z * Request)) (db : Db) : Db :=
  fold_left (λ db' r, handle r.1 r.2 db') reqs db.

(** Two distinct pending/confirmed reservations of one room on one date
    whose intervals overlap. *)
Definition doubleBooked (db : Db) (i j : nat) : Prop :=
  ∃ r1 r2,
    i ≠ j ∧ reservations db !! i = Some r1 ∧ reservations db !! j = Some r2 ∧
    Reservation.room r1 = Reservation.room r2 ∧
    Reservation.reservationDate r1 = Reservation.reservationDate r2 ∧
    Reservation.active (Reservation.status r1) = true ∧
    Reservation.active (Reservation.status r2) = true ∧
    overlaps (Reservation.startTime r1) (Reservation.endTime r1) r2 = true.

Definition noDoubleBooking (db : Db) : Prop := ∀ i j, ¬ doubleBooked db i j.

(** The occupancy status a saved room has, given the room as it was loaded:
    occupied with somebody in, otherwise available unless the room was in
    maintenance. *)
Definition derivedStatus (before after : Room.t) : Prop :=
  0 <= Room.currentOccupancy after ∧
  (0 < Room.currentOccupancy after → Room.occupancyStatus after = Room.occupied) ∧
  (Room.currentOccupancy after = 0 →
   Room.occupancyStatus after =
     if decide (Room.occupancyStatus before = Room.maintenance)
     then Room.maintenance else Room.available).

(** What a handler did to the rooms: nothing, or one save of one room. *)
Definition roomSaved (db db' : Db) : Prop :=
  rooms db' = rooms db
  ∨ ∃ id r r',
      rooms db !! id = Some r ∧ rooms db' = <[id := r']> (rooms db) ∧
      derivedStatus r r'.

(** The one kind of request that can bring a reservation back among the
    pending/confirmed ones without a conflict check: an update that carries
    no time, of a reservation that is neither pending nor confirmed. *)
Definition checkedUpdate (req : Request) (db : Db) : Prop :=
  match req with
  | UpdateReservation id _ _ p =>
      ∀ r, reservations db !! id = Some r →
           Reservation.active (Reservation.status r) = true
           ∨ Js.truthy_str (Patch.startTime p) || Js.truthy_str (Patch.endTime p) = true
  | _ => True
  end.

(** The "HH:MM" strings the routes document: two decimal digits, a colon and
    two decimal digits below 60. *)
Definition digitChar (n : nat) : ascii := ascii_of_nat (48 + n).
Arguments digitChar : simpl never.

Definition clock (a b c d : nat) : string :=
  String (digitChar a) (String (digitChar b)
    (String ":" (String (digitChar c) (String (digitChar d) EmptyString)))).

Definition wellFormed (t : string) : Prop :=
  ∃ a b c d : nat,
    (a < 10 ∧ b < 10 ∧ c < 10 ∧ d < 10 ∧ 10 * c + d < 60)%nat ∧ t = clock a b c d.

(** The calendar day of an instant, in UTC, and the instants that
    [new Date('YYYY-MM-DD')] gives: midnight, UTC. *)
Definition calendarDay (d : Z) : Z := d / 86400000.

Definition dateOnly (d : Z) : Prop := d mod 86400000 = 0.

(** A reservation written as the routes document their input: the date as
    YYYY-MM-DD and the times as HH:MM. *)
Definition asDocumented (r : Reservation.t) : Prop :=
  dateOnly (Reservation.reservationDate r)
  ∧ wellFormed (Reservation.startTime r)
  ∧ wellFormed (Reservation.endTime r).

(** Every stored reservation is written as documented. *)
Definition documented (db : Db) : Prop :=
  ∀ id r, reservations db !! id = Some r → asDocumented r.

(** Double booking as the rooms see it: two distinct pending/confirmed
    reservations of one room on one calendar day whose intervals of minutes,
    as the create route computes minutes, intersect. *)
Definition clash (db : Db) (i j : nat) : Prop :=
  ∃ r1 r2,
    i ≠ j ∧ reservations db !! i = Some r1 ∧ reservations db !! j = Some r2 ∧
    Reservation.room r1 = Reservation.room r2 ∧
    calendarDay (Reservation.reservationDate r1)
      = calendarDay (Reservation.reservationDate r2) ∧
    Reservation.active (Reservation.status r1) = true ∧
    Reservation.active (Reservation.status r2) = true ∧
    Js.num_lt (minutes (Reservation.startTime r2)) (minutes (Reservation.endTime r1))
      = true ∧
    Js.num_lt (minutes (Reservation.startTime r1)) (minutes (Reservation.endTime r2))
      = true.

Definition noClash (db : Db) : Prop := ∀ i j, ¬ clash db i j.

(** A request whose date and times, where it carries any, are written as
    documented. *)
Definition documentedRequest (req : Request) : Prop :=
  match req with
  | CreateReservation _ body =>
      (∀ d, CreateBody.reservationDate body = Some d → dateOnly d)
      ∧ (∀ t, CreateBody.startTime body = Some t → wellFormed t)
      ∧ (∀ t, CreateBody.endTime body = Some t → wellFormed t)
  | UpdateReservation _ _ _ p =>
      (∀ t, Patch.startTime p = Some t → wellFormed t)
      ∧ (∀ t, Patch.endTime p = Some t → wellFormed t)
  | _ => True
  end.

(** A run of requests in which every update is a checked one. *)
Fixpoint allChecked (reqs : list (Z * Request)) (db : Db) : Prop :=
  match reqs with
  | [] => True
  | r :: rest => checkedUpdate r.2 db ∧ allChecked rest (handle r.1 r.2 db)
  end.

(** ** A small campus, for running the routes *)

Module Sample.

(** Room 7 of building 3, four seats, empty. *)
Definition room7 : Room.t := Room.mk 3 4 Room.available 0 0.

Definition campus : Db := mkDb ∅ ∅ {[7%nat := room7]} {[3%nat]}.

(** 2024-01-01, as [new Date('2024-01-01')] in milliseconds. *)
Definition day : Z := 1704067200000.

Definition booking (startTime endTime : string) : CreateBody.t :=
  CreateBody.mk (Some 7%nat) (Some 3%nat) (Some day) (Some startTime) (Some endTime)
    (Some "studying") (Some 2) None.

Definition confirm : Patch.t := Patch.mk None None None None (Some "confirmed").

Definition arrival (reservation : nat) : CheckInBody.t :=
  CheckInBody.mk (Some reservation) (Some 7%nat) (Some 3%nat) None.

(** User 1 books 14:00-16:00 (reservation 0). *)
Definition booked : Db := handle 1000 (CreateReservation 1 (booking "14:00" "16:00")) campus.

(** ... and cancels it. *)
Definition cancelledOnce : Db := handle 2000 (CancelReservation 0 1 "student" None) booked.

(** User 2 books the freed slot (reservation 1). *)
Definition rebooked : Db :=
  handle 3000 (CreateReservation 2 (booking "14:00" "16:00")) cancelledOnce.

(** User 1 sets the cancelled reservation 0 back to confirmed. *)
Definition reconfirmed : Db := handle 4000 (UpdateReservation 0 1 "student" confirm) rebooked.

(** A patch that moves the reservation, resizes it, annotates it and sets it
    to confirmed, and one that only annotates it. *)
Definition moveAndConfirm : Patch.t :=
  Patch.mk (Some "16:00") (Some "18:00") (Some 3) (Some " window seat ") (Some "confirmed").

Definition annotate : Patch.t := Patch.mk None None None (Some "late") None.

(** User 1 checks in for reservation 0 right after booking it (sign-in 0). *)
Definition checkedIn : Db := handle 5000 (CheckIn 1 (arrival 0)) booked.

(** The database of [checkedIn] with the reservation document removed from
    its collection behind the routes' back. *)
Definition orphaned : Db :=
  mkDb ∅ (signIns checkedIn) (rooms checkedIn) (buildings checkedIn).

End Sample.

(** ** The listing routes of routes/reservations.js *)

(** The strings of the [status] enum of the reservation schema. *)
Definition statusName (s : Reservation.Status) : string :=
  match s with
  | Reservation.pending => "pending"
  | Reservation.confirmed => "confirmed"
  | Reservation.cancelled => "cancelled"
  | Reservation.completed => "completed"
  | Reservation.no_show => "no-show"
  end.

(** The filter of [router.get('/')]: the caller's reservations, of the given
    status and between the given dates when the query carries them. *)
Definition listQuery (userId : nat) (status : option string) (from to : option Z)
    (_ : nat) (r : Reservation.t) : bool :=
  bool_decide (Reservation.user r = userId)
  && match required_str status with
     | Some st => String.eqb (statusName (Reservation.status r)) st
     | None => true
     end
  && match from with
     | Some f => f <=? Reservation.reservationDate r
     | None => true
     end
  && match to with
     | Some t => Reservation.reservationDate r <=? t
     | None => true
     end.

(** [.sort({ reservationDate: 1, startTime: 1 })]. *)
Definition byDateThenStart (a b : nat * Reservation.t) : Prop :=
  Reservation.reservationDate a.2 < Reservation.reservationDate b.2
  ∨ (Reservation.reservationDate a.2 = Reservation.reservationDate b.2
     ∧ String.le (Reservation.startTime a.2) (Reservation.startTime b.2)).

Global Instance byDateThenStart_dec : RelDecision byDateThenStart.
Proof. intros a b. unfold byDateThenStart. apply _. Defined.

Global Instance byDateThenStart_total : Total byDateThenStart.
Proof.
  intros a b. unfold byDateThenStart.
  destruct (total String.le (Reservation.startTime a.2) (Reservation.startTime b.2));
    destruct (Z.lt_total (Reservation.reservationDate a.2)
                (Reservation.reservationDate b.2)) as [?|[?|?]]; auto.
Qed.

(** [router.get('/')]: the data and its count. *)
Definition listReservations (userId : nat) (status : option string)
    (from to : option Z) (db : Db) : Response (nat * list (nat * Reservation.t)) :=
  let reservations :=
    merge_sort byDateThenStart
      (find (listQuery userId status from to) (reservations db)) in
  Success 200 (length reservations, reservations).

(** The filter of [router.get('/room/:roomId')]; [nextDay] is what
    [endDate.setDate(endDate.getDate() + 1)] makes of a date. *)
Definition calendarQuery (nextDay : Z → Z) (roomId : nat) (date : option Z)
    (_ : nat) (r : Reservation.t) : bool :=
  bool_decide (Reservation.room r = roomId)
  && Reservation.active (Reservation.status r)
  && match date with
     | Some d =>
         (d <=? Reservation.reservationDate r)
         && (Reservation.reservationDate r <? nextDay d)
     | None => true
     end.

(** [.sort({ startTime: 1 })]. *)
Definition byStart (a b : nat * Reservation.t) : Prop :=
  String.le (Reservation.startTime a.2) (Reservation.startTime b.2).

Global Instance byStart_dec : RelDecision byStart.
Proof. intros a b. unfold byStart. apply _. Defined.

Global Instance byStart_total : Total byStart.
Proof. intros a b. unfold byStart. apply (total String.le). Qed.

(** [router.get('/room/:roomId')]: the calendar of a room. *)
Definition roomReservations (nextDay : Z → Z) (roomId : nat) (date : option Z)
    (db : Db) : Response (nat * list (nat * Reservation.t)) :=
  let reservations :=
    merge_sort byStart (find (calendarQuery nextDay roomId date) (reservations db)) in
  Success 200 (length reservations, reservations).

(** ** The other routes of routes/signin.js *)

Definition signInStatusName (s : SignIn.Status) : string :=
  match s with
  | SignIn.active => "active"
  | SignIn.completed => "completed"
  | SignIn.abandoned => "abandoned"
  end.

(** The filter of [router.get('/history')]. *)
Definition historyQuery (userId : nat) (status : option string) (from to : option Z)
    (_ : nat) (s : SignIn.t) : bool :=
  bool_decide (SignIn.user s = userId)
  && match required_str status with
     | Some st => String.eqb (signInStatusName (SignIn.status s)) st
     | None => true
     end
  && match from with
     | Some f => f <=? SignIn.signInTime s
     | None => true
     end
  && match to with
     | Some t => SignIn.signInTime s <=? t
     | None => true
     end.

(** [.sort({ signInTime: -1 })]. *)
Definition latestFirst (a b : nat * SignIn.t) : Prop :=
  SignIn.signInTime b.2 <= SignIn.signInTime a.2.

Global Instance latestFirst_dec : RelDecision latestFirst.
Proof. intros a b. unfold latestFirst. apply _. Defined.

Global Instance latestFirst_total : Total latestFirst.
Proof. intros a b. unfold latestFirst. lia. Qed.

(** [router.get('/history')]. *)
Definition signInHistory (userId : nat) (status : option string)
    (from to : option Z) (db : Db) : Response (nat * list (nat * SignIn.t)) :=
  let signIns :=
    merge_sort latestFirst (find (historyQuery userId status from to) (signIns db)) in
  Success 200 (length signIns, signIns).

(** [['active', 'completed', 'abandoned'].includes(status)], with the value. *)
Definition parseSignInStatus (s : string) : option SignIn.Status :=
  if String.eqb s "active" then Some SignIn.active
  else if String.eqb s "completed" then Some SignIn.completed
  else if String.eqb s "abandoned" then Some SignIn.abandoned
  else None.

Definition setSignInNotes (v : string) (s : SignIn.t) : SignIn.t :=
  SignIn.mk (SignIn.user s) (SignIn.reservation s) (SignIn.room s) (SignIn.building s)
    (SignIn.signInTime s) (SignIn.signOutTime s) (SignIn.actualDuration s)
    (Js.trim v) (SignIn.status s).

Definition setSignInStatus (v : SignIn.Status) (s : SignIn.t) : SignIn.t :=
  SignIn.mk (SignIn.user s) (SignIn.reservation s) (SignIn.room s) (SignIn.building s)
    (SignIn.signInTime s) (SignIn.signOutTime s) (SignIn.actualDuration s)
    (SignIn.notes s) v.

(** [router.put('/:id')] of the sign-in routes. *)
Definition updateSignIn (id userId : nat) (role : string) (notes status : option string)
    (db : Db) : Db * Response SignIn.t :=
  match signIns db !! id with
  | None => (db, Failure NotFound "Check-in record not found")
  | Some signIn =>
      if negb (bool_decide (SignIn.user signIn = userId)) && negb (String.eqb role "admin")
      then (db, Failure Forbidden "Unauthorized")
      else
        let s1 := match required_str notes with
                  | Some n => setSignInNotes n signIn
                  | None => signIn
                  end in
        let s2 := match required_str status with
                  | Some st =>
                      if String.eqb role "admin" then
                        match parseSignInStatus st with
                        | Some v => setSignInStatus v s1
                        | None => s1
                        end
                      else s1
                  | None => s1
                  end in
        (saveSignIn id s2 db, Success 200 (SignIn.pre_save s2))
  end.

Module RoomOccupancy.
Record t := mk {
  roomId : nat;
  currentOccupancy : Z;
  capacity : Z;
  occupancyStatus : Room.Status;
  activeUsers : list (nat * SignIn.t);
  count : nat
}.
End RoomOccupancy.

(** The query [{ room: req.params.roomId, status: 'active' }]. *)
Definition activeInRoomQuery (roomId : nat) (_ : nat) (s : SignIn.t) : bool :=
  bool_decide (SignIn.room s = roomId)
  && bool_decide (SignIn.status s = SignIn.active).

(** [router.get('/room/:roomId')] of the sign-in routes. *)
Definition roomOccupancy (roomId : nat) (db : Db) : Response RoomOccupancy.t :=
  let activeSignIns := find (activeInRoomQuery roomId) (signIns db) in
  match rooms db !! roomId with
  | None => Failure NotFound "Room not found"
  | Some room =>
      Success 200
        (RoomOccupancy.mk roomId (Room.currentOccupancy room) (Room.capacity room)
           (Room.occupancyStatus room) activeSignIns (length activeSignIns))
  end.

(** ** routes/rooms.js: the occupancy patch *)

(** [['available', 'occupied', 'maintenance'].includes(status)], with the value. *)
Definition parseRoomStatus (s : string) : option Room.Status :=
  if String.eqb s "available" then Some Room.available
  else if String.eqb s "occupied" then Some Room.occupied
  else if String.eqb s "maintenance" then Some Room.maintenance
  else None.

Definition setRoomStatus (v : Room.Status) (r : Room.t) : Room.t :=
  Room.mk (Room.building r) (Room.capacity r) v (Room.currentOccupancy r)
          (Room.lastUpdated r).

Definition setLastUpdated (v : Z) (r : Room.t) : Room.t :=
  Room.mk (Room.building r) (Room.capacity r) (Room.occupancyStatus r)
          (Room.currentOccupancy r) v.

Module OccupancyData.
Record t := mk {
  roomId : nat;
  occupancyStatus : Room.Status;
  currentOccupancy : Z;
  lastUpdated : Z
}.
End OccupancyData.

(** [router.patch('/:id/occupancy')]. *)
Definition patchOccupancy (id : nat) (currentOccupancy : option Z)
    (status : option string) (now : Z) (db : Db) : Db * Response OccupancyData.t :=
  match rooms db !! id with
  | None => (db, Failure NotFound "Room not found")
  | Some room0 =>
      let r1 := match currentOccupancy with
                | Some n => setOccupancy (Z.max 0 n) room0
                | None => room0
                end in
      let r2 := match required_str status with
                | Some st =>
                    match parseRoomStatus st with
                    | Some v => setRoomStatus v r1
                    | None => r1
                    end
                | None => r1
                end in
      let room := setLastUpdated now r2 in
      match saveRoom now id room db with
      | Some db' =>
          (db', Success 200
                  (OccupancyData.mk id
                     (Room.occupancyStatus (Room.pre_save now room))
                     (Room.currentOccupancy (Room.pre_save now room))
                     (Room.lastUpdated (Room.pre_save now room))))
      | None => (db, Failure InternalError "Error updating room occupancy")
      end
  end.

(** ** middleware/auth.js *)

(** What the middleware does with a request: answer it, or pass it on with
    the decoded user. *)
Inductive Auth (U : Type) :=
| Rejected (code : Z) (message : string)
| Next (user : U).
Arguments Rejected {U} code message.
Arguments Next {U} user.

(** [authMiddleware]; [verify] is [jwt.verify] with the server's secret,
    [None] when it throws. *)
Definition authMiddleware {U} (verify : string → option U)
    (authorization : option string) : Auth U :=
  let token :=
    match authorization with
    | Some header => Js.split " " header !! 1%nat
    | None => None
    end in
  match required_str token with
  | None => Rejected 401 "No token provided"
  | Some token =>
      match verify token with
      | Some decoded => Next decoded
      | None => Rejected 401 "Invalid or expired token"
      end
  end.

(** ** The reservation grid of the front end *)

Module Slot.
Record t := mk { building : string; room : string; date : string; time : string }.
End Slot.

(** [checkIfBooked]; [toDateString] is [Date.prototype.toDateString]. *)
Definition checkIfBooked {D} (toDateString : D → string) (reservations : list Slot.t)
    (building room : string) (date : D) (time : string) : bool :=
  existsb (λ r,
             String.eqb (Slot.building r) building
             && String.eqb (Slot.room r) room
             && String.eqb (Slot.date r) (toDateString date)
             && String.eqb (Slot.time r) time)
          reservations.

(** [reserveSlot]: the array after the [push]. *)
Definition reserveSlot {D} (toDateString : D → string) (reservations : list Slot.t)
    (building room : string) (date : D) (time : string) : list Slot.t :=
  reservations ++ [Slot.mk building room (toDateString date) time].

(** The click listener, on the cell of [room] and [time] in the table drawn
    for [building] and [date]: the cell has class [free] when the slot is not
    booked, and [confirm] is the user's answer to the dialog. *)
Definition clickCell {D} (toDateString : D → string) (confirm : bool)
    (reservations : list Slot.t) (building room : string) (date : D) (time : string)
    : list Slot.t :=
  if checkIfBooked toDateString reservations building room date time then reservations
  else if confirm then reserveSlot toDateString reservations building room date time
  else reservations.

(** ** What the requests keep *)

(** The answer to a request, when it is an error. *)
Definition failure {A} (r : Response A) : option (Z * string) :=
  match r with
  | Success _ _ => None
  | Failure code message => Some (code, message)
  end.

Definition answer (now : Z) (req : Request) (db : Db) : option (Z * string) :=
  match req with
  | CreateReservation userId body => failure (createReservation userId body db).2
  | UpdateReservation id userId role p => failure (updateReservation id userId role p db).2
  | CancelReservation id userId role reason =>
      failure (cancelReservation id userId role reason now db).2
  | CheckIn userId body => failure (checkIn userId body now db).2
  | CheckOut userId id notes => failure (checkOut userId id notes now db).2
  end.

(** At most one active sign-in per reservation. *)
Definition oneActiveSignIn (db : Db) : Prop :=
  ∀ i j s1 s2,
    signIns db !! i = Some s1 → signIns db !! j = Some s2 →
    SignIn.reservation s1 = SignIn.reservation s2 →
    SignIn.status s1 = SignIn.active → SignIn.status s2 = SignIn.active →
    i = j.

(** Every room passes its validators and counts its active sign-ins. *)
Definition occupancyTracked (db : Db) : Prop :=
  ∀ id room,
    rooms db !! id = Some room →
    Room.validate room = true
    ∧ Room.currentOccupancy room
      = Z.of_nat (length (find (activeInRoomQuery id) (signIns db))).

(** ** More of the small campus *)

Module Scenario.

(** Reservation 0 of [Sample.booked]. *)
Definition afternoon : Reservation.t :=
  Reservation.mk 1 7 3 Sample.day "14:00" "16:00" (Js.of_Z 120) "studying" 2
    Reservation.pending None None None None None None.

(** A second room, for one person and with one person in. *)
Definition room8 : Room.t := Room.mk 3 1 Room.occupied 1 0.

Definition twoRooms : Db :=
  mkDb (reservations Sample.booked) (signIns Sample.booked)
    (<[8%nat := room8]> (rooms Sample.booked)) (buildings Sample.booked).

(** The patch that moves a reservation to 16:00-18:00. *)
Definition move : Patch.t := Patch.mk (Some "16:00") (Some "18:00") None None None.

(** [Sample.checkedIn] after user 1 has checked out of sign-in 0. *)
Definition checkedOut : Db := handle 155000 (CheckOut 1 0 None) Sample.checkedIn.

(** The patch that moves a reservation to 16:00-19:00. *)
Definition stretch : Patch.t := Patch.mk (Some "16:00") (Some "19:00") None None None.

(** [Sample.checkedIn] after user 1 has cancelled reservation 0, the sign-in
    still being active. *)
Definition cancelledInside : Db :=
  handle 6000 (CancelReservation 0 1 "student" None) Sample.checkedIn.

End Scenario.

(** What an update leaves of a reservation: everything but the times, the
    head count, the notes and the status. *)
Definition sameBooking (r r' : Reservation.t) : Prop :=
  Reservation.user r' = Reservation.user r ∧
  Reservation.room r' = Reservation.room r ∧
  Reservation.building r' = Reservation.building r ∧
  Reservation.reservationDate r' = Reservation.reservationDate r ∧
  Reservation.duration r' = Reservation.duration r ∧
  Reservation.purpose r' = Reservation.purpose r ∧
  Reservation.cancelReason r' = Reservation.cancelReason r ∧
  Reservation.cancelledAt r' = Reservation.cancelledAt r ∧
  Reservation.cancelledBy r' = Reservation.cancelledBy r ∧
  Reservation.checkInTime r' = Reservation.checkInTime r ∧
  Reservation.checkOutTime r' = Reservation.checkOutTime r.

(** A string without the character [sep]. *)
Fixpoint noneOf (sep : ascii) (s : string) : bool :=
  match s with
  | EmptyString => true
  | String a s' => negb (Ascii.eqb a sep) && noneOf sep s'
  end.

(** Every stored reservation and every stored room passes the validators of
    its schema. *)
Definition allValid (db : Db) : Prop :=
  (∀ id r, reservations db !! id = Some r → Reservation.validate r = true)
  ∧ (∀ id room, rooms db !! id = Some room → Room.validate room = true).

(** * Properties *)

(** ** The conflict checker *)

Lemma elem_of_find {A} (q : nat → A → bool) (m : gmap nat A) id d :
  (id, d) ∈ find q m ↔ m !! id = Some d ∧ q id d = true.
Proof.
  unfold find. rewrite list_elem_of_filter, elem_of_map_to_list. simpl. tauto.
Qed.

Lemma conflictLoop_true startTime endTime conflicts :
  conflictLoop startTime endTime conflicts = true ↔
  ∃ d, d ∈ conflicts ∧ overlaps startTime endTime d.2 = true.
Proof.
  induction conflicts as [|[id existing] rest IH]; simpl.
  - split; [discriminate|]. intros (d & Hd & _). by apply elem_of_nil in Hd.
  - destruct (overlaps startTime endTime existing) eqn:Hov.
    + split; [|done]. intros _. exists (id, existing). split; [left|done].
    + rewrite IH. split.
      * intros (d & Hd & Ho). exists d. split; [by right|done].
      * intros (d & Hd & Ho). apply elem_of_cons in Hd as [->|Hd].
        -- simpl in Ho. congruence.
        -- by exists d.
Qed.

Lemma conflictQuery_true roomId date excludeId id r :
  conflictQuery roomId date excludeId id r = true ↔
  Reservation.room r = roomId ∧ Reservation.reservationDate r = date ∧
  Reservation.active (Reservation.status r) = true ∧ excludeId ≠ Some id.
Proof.
  unfold conflictQuery. rewrite !andb_true_iff, !bool_decide_eq_true.
  destruct excludeId as [ex|].
  - rewrite negb_true_iff, bool_decide_eq_false. split.
    + intros (((-> & ->) & Ha) & Hne). repeat split; congruence.
    + intros (-> & -> & Ha & Hne). repeat split; congruence.
  - split.
    + intros (((-> & ->) & Ha) & _). done.
    + intros (-> & -> & Ha & _). done.
Qed.

Lemma overlaps_true startTime endTime existing :
  overlaps startTime endTime existing = true ↔
  ¬ (Js.le endTime (Reservation.startTime existing) = true
     ∨ Js.ge startTime (Reservation.endTime existing) = true).
Proof.
  unfold overlaps. rewrite negb_true_iff, orb_false_iff.
  destruct (Js.le _ _), (Js.ge _ _); intuition congruence.
Qed.

Lemma checkBookingConflict_true db roomId date startTime endTime excludeId :
  checkBookingConflict db roomId date startTime endTime excludeId = true ↔
  ∃ id existing,
    reservations db !! id = Some existing ∧
    conflictQuery roomId date excludeId id existing = true ∧
    overlaps startTime endTime existing = true.
Proof.
  unfold checkBookingConflict. rewrite conflictLoop_true. split.
  - intros ([id existing] & Hd & Ho). apply elem_of_find in Hd as [Hl Hq].
    by exists id, existing.
  - intros (id & existing & Hl & Hq & Ho). exists (id, existing).
    split; [by apply elem_of_find|done].
Qed.

Lemma Js_le_refl s : Js.le s s = true.
Proof.
  unfold Js.le. pose proof (reflexivity (R := String.le) s) as H.
  unfold String.le in H. by destruct (String.leb s s).
Qed.

(** ** Doubles *)

Lemma num_lt_trans x y z :
  Js.num_lt x y = true → Js.num_lt y z = true → Js.num_lt x z = true.
Proof.
  unfold Js.num_lt, SFltb, SFcompare.
  destruct x as [sx|sx| |sx mx ex], y as [sy|sy| |sy my ey], z as [sz|sz| |sz mz ez];
    try done;
    repeat match goal with s : bool |- _ => destruct s end; try done;
    rewrite ?Pos.compare_cont_spec; simpl;
    destruct (Z.compare_spec ex ey), (Z.compare_spec ey ez), (Z.compare_spec ex ez);
    try done; try lia; subst;
    destruct (Pos.compare_spec mx my), (Pos.compare_spec my mz),
      (Pos.compare_spec mx mz); simpl; try done; lia.
Qed.

Lemma num_lt_irrefl x : Js.num_lt x x = false.
Proof.
  unfold Js.num_lt, SFltb, SFcompare.
  destruct x as [s|s| |s m e]; try done; destruct s; try done;
    rewrite Z.compare_refl, Pos.compare_cont_refl; done.
Qed.

(** Two numbers, neither [NaN]: [x <= y] is the negation of [y < x]. *)
Lemma num_le_lt x y :
  Js.isNaN x = false → Js.isNaN y = false → Js.num_le x y = negb (Js.num_lt y x).
Proof.
  unfold Js.num_le, Js.num_lt, SFleb, SFltb, SFcompare.
  destruct x as [sx|sx| |sx mx ex], y as [sy|sy| |sy my ey]; try done;
    repeat match goal with s : bool |- _ => destruct s end; try done;
    intros _ _; rewrite ?Pos.compare_cont_spec; simpl;
    rewrite (Z.compare_antisym ex ey), (Pos.compare_antisym mx my);
    destruct (ex ?= ey); simpl; try done; destruct (mx ?= my)%positive; done.
Qed.

Lemma num_lt_not_NaN x y :
  Js.num_lt x y = true → Js.isNaN x = false ∧ Js.isNaN y = false.
Proof. unfold Js.num_lt, SFltb, SFcompare. by destruct x, y. Qed.

Lemma num_le_not_NaN x y :
  Js.num_le x y = true → Js.isNaN x = false ∧ Js.isNaN y = false.
Proof. unfold Js.num_le, SFleb, SFcompare. by destruct x, y. Qed.

Lemma sub_not_NaN x y :
  Js.isNaN (Js.sub x y) = false → Js.isNaN x = false ∧ Js.isNaN y = false.
Proof. by destruct x, y. Qed.

(** The doubles of the integers up to 6000 are in the order of the
    integers. *)
Lemma of_Z_succ_all :
  Forall (λ n, Js.num_lt (Js.of_Z n) (Js.of_Z (n + 1)) = true) (seqZ 0 6000).
Proof. apply (bool_decide_unpack _). vm_compute. exact I. Qed.

Lemma of_Z_lt_1 m n :
  0 <= m → m < n → n <= 6000 → Js.num_lt (Js.of_Z m) (Js.of_Z n) = true.
Proof.
  intros Hm Hlt Hn.
  assert (∀ k : nat, m + 1 + Z.of_nat k <= 6000 →
            Js.num_lt (Js.of_Z m) (Js.of_Z (m + 1 + Z.of_nat k)) = true) as H.
  { pose proof of_Z_succ_all as Hall. rewrite Forall_forall in Hall.
    induction k as [|k IH]; intros Hk.
    - replace (m + 1 + Z.of_nat 0) with (m + 1) by lia.
      apply Hall, elem_of_seqZ. lia.
    - eapply num_lt_trans; [apply IH; lia|].
      replace (m + 1 + Z.of_nat (S k)) with (m + 1 + Z.of_nat k + 1) by lia.
      apply Hall, elem_of_seqZ. lia. }
  specialize (H (Z.to_nat (n - m - 1))).
  replace (m + 1 + Z.of_nat (Z.to_nat (n - m - 1))) with n in H by lia.
  apply H. lia.
Qed.

Lemma of_Z_lt m n :
  0 <= m <= 6000 → 0 <= n <= 6000 →
  Js.num_lt (Js.of_Z m) (Js.of_Z n) = true ↔ m < n.
Proof.
  intros Hm Hn. split; [|intros; apply of_Z_lt_1; lia].
  intros H. destruct (Z.lt_trichotomy m n) as [?|[->|Hgt]]; [done|..].
  - by rewrite num_lt_irrefl in H.
  - pose proof (of_Z_lt_1 n m ltac:(lia) Hgt ltac:(lia)) as H'.
    pose proof (num_lt_trans _ _ _ H H') as Hx. by rewrite num_lt_irrefl in Hx.
Qed.

Lemma of_Z_not_NaN n : 0 <= n <= 6000 → Js.isNaN (Js.of_Z n) = false.
Proof.
  intros Hn. destruct (decide (n = 0)) as [->|].
  - reflexivity.
  - eapply (num_lt_not_NaN (Js.of_Z 0)), of_Z_lt_1; lia.
Qed.

Lemma of_Z_le m n :
  0 <= m <= 6000 → 0 <= n <= 6000 →
  Js.num_le (Js.of_Z m) (Js.of_Z n) = true ↔ m <= n.
Proof.
  intros Hm Hn. rewrite num_le_lt by (by apply of_Z_not_NaN).
  rewrite negb_true_iff, <- not_true_iff_false, of_Z_lt by done. lia.
Qed.

(** A number that is not [NaN] is above 0 exactly when it is not [<= 0]. *)
Lemma num_le_0 x :
  Js.num_le x (Js.of_Z 0) = false ∧ Js.isNaN x = false
  ↔ Js.num_lt (Js.of_Z 0) x = true.
Proof.
  change (Js.of_Z 0) with (S754_zero false).
  unfold Js.num_le, Js.num_lt, SFleb, SFltb, SFcompare.
  destruct x as [s|s| |s m e]; try destruct s; simpl; intuition congruence.
Qed.

(** ** Times of day *)

(** On well-formed times the comparison of the strings is the comparison of
    the minutes they denote. *)
Lemma digitChar_compare x y :
  (x < 10)%nat → (y < 10)%nat →
  Ascii.compare (digitChar x) (digitChar y) = Nat.compare x y.
Proof.
  intros Hx Hy.
  do 10 (destruct x as [|x]; [do 10 (destruct y as [|y]; [reflexivity|]); lia|]). lia.
Qed.

Lemma digitChar_colon x : (x < 10)%nat → Ascii.eqb (digitChar x) ":" = false.
Proof. intros Hx. do 10 (destruct x as [|x]; [reflexivity|]). lia. Qed.

(** [Number] on two digits, and [h * 60 + m] on two such numbers. *)
Lemma Number_two_digits :
  Forall (λ a, Forall (λ b,
    Js.Number (String (digitChar a) (String (digitChar b) EmptyString))
    = Js.of_Z (Z.of_nat (10 * a + b))) (seq 0 10)) (seq 0 10).
Proof. apply (bool_decide_unpack _). vm_compute. exact I. Qed.

Lemma minutes_of_Z :
  Forall (λ h, Forall (λ m,
    Js.add (Js.mul (Js.of_Z h) (Js.of_Z 60)) (Js.of_Z m) = Js.of_Z (60 * h + m))
    (seqZ 0 100)) (seqZ 0 100).
Proof. apply (bool_decide_unpack _). vm_compute. exact I. Qed.

Lemma minutes_clock a b c d :
  (a < 10)%nat → (b < 10)%nat → (c < 10)%nat → (d < 10)%nat →
  minutes (clock a b c d) = Js.of_Z (Z.of_nat (60 * (10 * a + b) + (10 * c + d))).
Proof.
  intros Ha Hb Hc Hd. unfold minutes, clock, Js.split. cbn [Js.split_go].
  rewrite !digitChar_colon by done.
  change (Ascii.eqb ":" ":") with true. cbv iota.
  change (String.rev (String (digitChar b) (String (digitChar a) "")))
    with (String (digitChar a) (String (digitChar b) "")).
  change (String.rev (String (digitChar d) (String (digitChar c) "")))
    with (String (digitChar c) (String (digitChar d) "")).
  cbn [map].
  pose proof Number_two_digits as HN. pose proof minutes_of_Z as HM.
  rewrite Forall_forall in HN.
  rewrite (proj1 (Forall_forall _ _) (HN a ltac:(apply elem_of_seq; lia)) b)
    by (apply elem_of_seq; lia).
  rewrite (proj1 (Forall_forall _ _) (HN c ltac:(apply elem_of_seq; lia)) d)
    by (apply elem_of_seq; lia).
  rewrite Forall_forall in HM.
  rewrite (proj1 (Forall_forall _ _)
             (HM (Z.of_nat (10 * a + b)) ltac:(apply elem_of_seqZ; lia))
             (Z.of_nat (10 * c + d)))
    by (apply elem_of_seqZ; lia).
  f_equal. lia.
Qed.

Lemma le_clock a1 b1 c1 d1 a2 b2 c2 d2 :
  (a1 < 10)%nat → (b1 < 10)%nat → (c1 < 10)%nat → (d1 < 10)%nat →
  (a2 < 10)%nat → (b2 < 10)%nat → (c2 < 10)%nat → (d2 < 10)%nat →
  (10 * c1 + d1 < 60)%nat → (10 * c2 + d2 < 60)%nat →
  Js.le (clock a1 b1 c1 d1) (clock a2 b2 c2 d2) = true ↔
  (60 * (10 * a1 + b1) + (10 * c1 + d1) ≤ 60 * (10 * a2 + b2) + (10 * c2 + d2))%nat.
Proof.
  intros. unfold Js.le, String.leb, clock. cbn [String.compare].
  rewrite !digitChar_compare by done. change (Ascii.compare ":" ":") with Eq. cbv iota.
  destruct (Nat.compare_spec a1 a2);
    [destruct (Nat.compare_spec b1 b2);
     [destruct (Nat.compare_spec c1 c2); [destruct (Nat.compare_spec d1 d2)|..]|..]|..];
    (split; [intros; lia | first [done | intros; lia]]).
Qed.

Lemma wellFormed_clock a b c d :
  (a < 10)%nat → (b < 10)%nat → (c < 10)%nat → (d < 10)%nat → (10 * c + d < 60)%nat →
  wellFormed (clock a b c d).
Proof. intros. exists a, b, c, d. repeat split; done. Qed.

Lemma wellFormed_minutes t :
  wellFormed t → ∃ m, 0 <= m < 6000 ∧ minutes t = Js.of_Z m.
Proof.
  intros (a & b & c & d & (?&?&?&?&?) & ->).
  eexists. split; [|by apply minutes_clock]. lia.
Qed.

Lemma le_minutes s t :
  wellFormed s → wellFormed t →
  ∃ ms mt,
    0 <= ms < 6000 ∧ 0 <= mt < 6000 ∧
    minutes s = Js.of_Z ms ∧ minutes t = Js.of_Z mt ∧
    (Js.le s t = true ↔ ms <= mt).
Proof.
  intros (a1 & b1 & c1 & d1 & (?&?&?&?&?) & ->) (a2 & b2 & c2 & d2 & (?&?&?&?&?) & ->).
  eexists _, _. rewrite !minutes_clock by done.
  split; [|split; [|split; [done|split; [done|]]]]; [lia..|].
  rewrite le_clock by done. lia.
Qed.

(** ... and it is the comparison of those minutes as the numbers the create
    route computes. *)
Lemma num_le_minutes s t :
  wellFormed s → wellFormed t → Js.num_le (minutes s) (minutes t) = Js.le s t.
Proof.
  intros Ws Wt. destruct (le_minutes s t Ws Wt) as (ms & mt & ? & ? & -> & -> & Hle).
  apply eq_true_iff_eq. rewrite Hle. apply of_Z_le; lia.
Qed.

Lemma dateOnly_calendarDay d d' :
  dateOnly d → dateOnly d' → calendarDay d = calendarDay d' ↔ d = d'.
Proof.
  unfold dateOnly, calendarDay. intros H H'. split; [|by intros ->].
  intros E. rewrite (Z.div_mod d 86400000), (Z.div_mod d' 86400000) by done. lia.
Qed.

(** C2, as the code has it: for a date given as YYYY-MM-DD and times written
    HH:MM, against reservations of the room written so, the conflict checker
    answers [true] exactly when some reservation of the same room and the
    same calendar date, pending or confirmed and other than the excluded
    one, has an interval [[s2,e2)] of minutes with NOT([end <= s2] OR
    [start >= e2]); a proposal that ends where a reservation starts, or
    starts where it ends, does not overlap it. *)
Theorem checkBookingConflict_spec db roomId date startTime endTime excludeId :
  dateOnly date → wellFormed startTime → wellFormed endTime →
  (∀ id r, reservations db !! id = Some r → Reservation.room r = roomId →
           Reservation.active (Reservation.status r) = true → asDocumented r) →
  (checkBookingConflict db roomId date startTime endTime excludeId = true ↔
   ∃ id existing,
     reservations db !! id = Some existing ∧
     Reservation.room existing = roomId ∧
     calendarDay (Reservation.reservationDate existing) = calendarDay date ∧
     Reservation.active (Reservation.status existing) = true ∧
     excludeId ≠ Some id ∧
     ¬ (Js.num_le (minutes endTime) (minutes (Reservation.startTime existing)) = true
        ∨ Js.num_le (minutes (Reservation.endTime existing)) (minutes startTime) = true))
  ∧ (∀ existing,
       endTime = Reservation.startTime existing
       ∨ startTime = Reservation.endTime existing →
       overlaps startTime endTime existing = false).
Proof.
  intros Hdate Ws We Hdoc. split.
  - rewrite checkBookingConflict_true. split.
    + intros (id & existing & Hl & Hq & Ho). exists id, existing.
      apply conflictQuery_true in Hq as (Hr & Hd & Ha & Hx).
      destruct (Hdoc id existing Hl Hr Ha) as (_ & Ws2 & We2).
      apply overlaps_true in Ho. rewrite !num_le_minutes by done.
      repeat split; [done..|by rewrite Hd|done|done|exact Ho].
    + intros (id & existing & Hl & Hr & Hd & Ha & Hx & Ho). exists id, existing.
      destruct (Hdoc id existing Hl Hr Ha) as (Hd2 & Ws2 & We2).
      rewrite !num_le_minutes in Ho by done.
      split; [done|]. split; [|by apply overlaps_true].
      apply conflictQuery_true. repeat split; [done| |done|done].
      by apply dateOnly_calendarDay.
  - intros existing [-> | ->]; unfold overlaps.
    + by rewrite Js_le_refl.
    + unfold Js.ge. fold (Js.le (Reservation.endTime existing) (Reservation.endTime existing)).
      rewrite Js_le_refl. by rewrite orb_true_r.
Qed.

Lemma booked_reservations :
  reservations Sample.booked = {[0%nat := Scenario.afternoon]}.
Proof. vm_compute. reflexivity. Qed.

Lemma checkBookingConflict_spec_witness :
  checkBookingConflict Sample.booked 7 Sample.day "15:00" "17:00" None = true ↔
  ∃ id existing,
    reservations Sample.booked !! id = Some existing ∧
    Reservation.room existing = 7%nat ∧
    calendarDay (Reservation.reservationDate existing) = calendarDay Sample.day ∧
    Reservation.active (Reservation.status existing) = true ∧
    None ≠ Some id ∧
    ¬ (Js.num_le (minutes "17:00") (minutes (Reservation.startTime existing)) = true
       ∨ Js.num_le (minutes (Reservation.endTime existing)) (minutes "15:00") = true).
Proof.
  apply (checkBookingConflict_spec Sample.booked 7 Sample.day "15:00" "17:00" None).
  - reflexivity.
  - apply (wellFormed_clock 1 5 0 0); lia.
  - apply (wellFormed_clock 1 7 0 0); lia.
  - intros id r Hr _ _. rewrite booked_reservations in Hr.
    apply lookup_singleton_Some in Hr as [_ <-].
    split; [reflexivity|].
    split; [apply (wellFormed_clock 1 4 0 0); lia|apply (wellFormed_clock 1 6 0 0); lia].
Defined.

(** C2 as it is written fails in two ways.  With 14:00-16:00 booked in room
    7 on 2024-01-01, a proposal for the same room and hours dated one second
    past midnight of the same day is no conflict: the query matches the
    stored instant, not the calendar date.  And a proposal for 9:00-15:00 on
    that date, which starts before it ends and has NOT(end <= 14:00 OR
    start >= 16:00), is no conflict either: the loop compares the strings. *)
Lemma checkBookingConflict_misses :
  reservations Sample.booked !! 0%nat = Some Scenario.afternoon
  ∧ Reservation.room Scenario.afternoon = 7%nat
  ∧ Reservation.active (Reservation.status Scenario.afternoon) = true
  ∧ (calendarDay (Sample.day + 1000)
       = calendarDay (Reservation.reservationDate Scenario.afternoon)
     ∧ Js.num_lt (minutes "14:00") (minutes "16:00") = true
     ∧ Js.num_le (minutes "16:00") (minutes (Reservation.startTime Scenario.afternoon))
       = false
     ∧ Js.num_le (minutes (Reservation.endTime Scenario.afternoon)) (minutes "14:00")
       = false
     ∧ checkBookingConflict Sample.booked 7 (Sample.day + 1000) "14:00" "16:00" None
       = false)
  ∧ (calendarDay Sample.day
       = calendarDay (Reservation.reservationDate Scenario.afternoon)
     ∧ Js.num_lt (minutes "9:00") (minutes "15:00") = true
     ∧ Js.num_le (minutes "15:00") (minutes (Reservation.startTime Scenario.afternoon))
       = false
     ∧ Js.num_le (minutes (Reservation.endTime Scenario.afternoon)) (minutes "9:00")
       = false
     ∧ checkBookingConflict Sample.booked 7 Sample.day "9:00" "15:00" None = false).
Proof. repeat split; vm_compute; reflexivity. Qed.

(** With 14:00-16:00 booked in room 7: 16:00-17:00 is free, 15:00-17:00 is
    not, and five people do not fit the four seats. *)
Example touching_is_free :
  checkBookingConflict Sample.booked 7 Sample.day "16:00" "17:00" None = false.
Proof. vm_compute. reflexivity. Qed.

Example overlapping_is_refused :
  (createReservation 2 (Sample.booking "15:00" "17:00") Sample.booked).2
  = Failure Conflict "Time slot is already booked".
Proof. vm_compute. reflexivity. Qed.

Example five_in_four_seats :
  (createReservation 2
     (CreateBody.mk (Some 7%nat) (Some 3%nat) (Some Sample.day) (Some "17:00")
        (Some "18:00") (Some "meeting") (Some 5) None) Sample.booked).2
  = Failure ValidationError "Room capacity is 4, requested 5".
Proof. vm_compute. reflexivity. Qed.

(** X1: The loop's test on well-formed times: the two intervals of minutes
    intersect. *)
Theorem overlaps_minutes startTime endTime existing :
  wellFormed startTime → wellFormed endTime →
  wellFormed (Reservation.startTime existing) →
  wellFormed (Reservation.endTime existing) →
  ∃ s1 e1 s2 e2,
    (0 <= s1 < 6000 ∧ 0 <= e1 < 6000 ∧ 0 <= s2 < 6000 ∧ 0 <= e2 < 6000) ∧
    minutes startTime = Js.of_Z s1 ∧ minutes endTime = Js.of_Z e1 ∧
    minutes (Reservation.startTime existing) = Js.of_Z s2 ∧
    minutes (Reservation.endTime existing) = Js.of_Z e2 ∧
    (overlaps startTime endTime existing = true ↔ s2 < e1 ∧ s1 < e2).
Proof.
  intros W1 W2 W3 W4.
  destruct (le_minutes _ _ W2 W3) as (e1 & s2 & ? & ? & He1 & Hs2 & Hle1).
  destruct (le_minutes _ _ W4 W1) as (e2 & s1 & ? & ? & He2 & Hs1 & Hle2).
  exists s1, e1, s2, e2. split; [done|]. do 4 (split; [done|]).
  rewrite overlaps_true. unfold Js.ge. fold (Js.le (Reservation.endTime existing) startTime).
  rewrite Hle1, Hle2. lia.
Qed.

(** ** Saving *)

Lemma validate_true r :
  Reservation.validate r = true ↔
  Reservation.startTime r ≠ "" ∧ Reservation.endTime r ≠ "" ∧
  Reservation.purpose r ∈ Reservation.purposes ∧ 1 <= Reservation.numberOfPeople r.
Proof.
  unfold Reservation.validate.
  rewrite !andb_true_iff, !negb_true_iff, bool_decide_eq_true, Z.leb_le.
  rewrite !String.eqb_neq. tauto.
Qed.

Lemma saveReservation_valid id r db :
  Reservation.validate r = true →
  saveReservation id r db =
    Some (mkDb (<[id := r]> (reservations db)) (signIns db) (rooms db) (buildings db)).
Proof. intros H. unfold saveReservation. by rewrite H. Qed.

Lemma truthy_str_or x d : d ≠ "" → Js.str_or x d ≠ "".
Proof.
  intros Hd. destruct x as [s|]; simpl; [|done].
  destruct (String.eqb s "") eqn:E; [done|]. by apply String.eqb_neq.
Qed.

Lemma required_str_or x d :
  match required_str x with Some s => s | None => d end = Js.str_or x d.
Proof.
  unfold required_str. destruct x as [s|]; simpl; [|done].
  by destruct (String.eqb s "").
Qed.

(** ** Updating *)

Lemma updateTimes_free db id p r :
  (Js.truthy_str (Patch.startTime p) || Js.truthy_str (Patch.endTime p) = true →
   checkBookingConflict db (Reservation.room r) (Reservation.reservationDate r)
     (Js.str_or (Patch.startTime p) (Reservation.startTime r))
     (Js.str_or (Patch.endTime p) (Reservation.endTime r)) (Some id) = false) →
  ∃ r1, updateTimes db id p r = inr r1 ∧
    Reservation.startTime r1 = Js.str_or (Patch.startTime p) (Reservation.startTime r) ∧
    Reservation.endTime r1 = Js.str_or (Patch.endTime p) (Reservation.endTime r) ∧
    ReservationSet.endTime (Reservation.endTime r)
      (ReservationSet.startTime (Reservation.startTime r) r1) = r.
Proof.
  intros Hfree. unfold updateTimes.
  destruct (Js.truthy_str (Patch.startTime p) || Js.truthy_str (Patch.endTime p)) eqn:Ht.
  - rewrite (Hfree eq_refl). eexists. split; [done|].
    rewrite <- !required_str_or.
    destruct (required_str (Patch.startTime p)), (required_str (Patch.endTime p));
      destruct r; done.
  - eexists. split; [done|].
    apply orb_false_iff in Ht as [Hs He].
    destruct p as [[s|] [e|] ? ? ?]; simpl in *;
      repeat match goal with
             | H : negb ?b = false |- _ => apply negb_false_iff in H; rewrite H
             end; destruct r; done.
Qed.

Lemma authorized owner userId role :
  owner = userId ∨ role = "admin" → unauthorized owner userId role = false.
Proof.
  unfold unauthorized. intros [->| ->].
  - by rewrite bool_decide_eq_true_2.
  - by rewrite andb_false_r.
Qed.

Lemma updateNotesStatus_confirm p r :
  Patch.status p = Some "confirmed" →
  updateNotesStatus p r =
    ReservationSet.status Reservation.confirmed
      match required_str (Patch.notes p) with
      | Some n => ReservationSet.notes n r
      | None => r
      end.
Proof. intros H. unfold updateNotesStatus. by rewrite H. Qed.

(** C3: an update by the owner or an admin of a reservation that is not
    pending is refused with a ValidationError, the database unchanged,
    unless the patch sets status to 'confirmed'; with status 'confirmed' in
    the patch the gate is passed and, the new times being free and the new
    head count within the room's capacity, the times, head count and notes
    of the patch are written together with the status. *)
Theorem updateReservation_pending_gate id userId role p db r :
  reservations db !! id = Some r →
  Reservation.user r = userId ∨ role = "admin" →
  Reservation.status r ≠ Reservation.pending →
  (Patch.status p ≠ Some "confirmed" →
   updateReservation id userId role p db =
     (db, Failure ValidationError "Can only modify pending reservations"))
  ∧ (Patch.status p = Some "confirmed" →
     Reservation.validate r = true →
     (Js.truthy_str (Patch.startTime p) || Js.truthy_str (Patch.endTime p) = true →
      checkBookingConflict db (Reservation.room r) (Reservation.reservationDate r)
        (Js.str_or (Patch.startTime p) (Reservation.startTime r))
        (Js.str_or (Patch.endTime p) (Reservation.endTime r)) (Some id) = false) →
     (∀ n, required_num (Patch.numberOfPeople p) = Some n →
           1 <= n ∧ ∃ room, rooms db !! Reservation.room r = Some room
                            ∧ n <= Room.capacity room) →
     ∃ r',
       updateReservation id userId role p db =
         (mkDb (<[id := r']> (reservations db)) (signIns db) (rooms db) (buildings db),
          Success 200 r') ∧
       Reservation.startTime r' = Js.str_or (Patch.startTime p) (Reservation.startTime r) ∧
       Reservation.endTime r' = Js.str_or (Patch.endTime p) (Reservation.endTime r) ∧
       Reservation.numberOfPeople r' =
         default (Reservation.numberOfPeople r) (required_num (Patch.numberOfPeople p)) ∧
       Reservation.notes r' =
         match required_str (Patch.notes p) with
         | Some n => Some (Js.trim n)
         | None => Reservation.notes r
         end ∧
       Reservation.status r' = Reservation.confirmed).
Proof.
  intros Hr Hauth Hst. apply authorized in Hauth. split.
  - intros Hp. unfold updateReservation. rewrite Hr, Hauth.
    by rewrite !bool_decide_eq_false_2.
  - intros Hp Hv Hfree Hn. unfold updateReservation. rewrite Hr, Hauth.
    rewrite (bool_decide_eq_true_2 _ Hp), andb_false_r.
    destruct (updateTimes_free db id p r Hfree) as (r1 & -> & Hs1 & He1 & Hr1).
    apply validate_true in Hv as (Hvs & Hve & Hvp & Hvn).
    assert (Reservation.room r1 = Reservation.room r) as Hroom by (by rewrite <- Hr1).
    assert (Reservation.purpose r1 = Reservation.purpose r) as Hpur by (by rewrite <- Hr1).
    assert (Reservation.numberOfPeople r1 = Reservation.numberOfPeople r) as Hnum
      by (by rewrite <- Hr1).
    assert (Reservation.notes r1 = Reservation.notes r) as Hnotes by (by rewrite <- Hr1).
    assert (∀ r2, Reservation.startTime r2 = Reservation.startTime r1 →
                  Reservation.endTime r2 = Reservation.endTime r1 →
                  Reservation.purpose r2 = Reservation.purpose r1 →
                  1 <= Reservation.numberOfPeople r2 →
                  Reservation.validate (updateNotesStatus p r2) = true) as Hvalid.
    { intros r2 E1 E2 E3 E4. rewrite updateNotesStatus_confirm by done.
      apply validate_true.
      destruct (required_str (Patch.notes p)); simpl;
        rewrite E1, E2, E3, Hs1, He1, Hpur; auto using truthy_str_or. }
    destruct (required_num (Patch.numberOfPeople p)) as [n|] eqn:En.
    + destruct (Hn n eq_refl) as (Hn1 & room & Hroom' & Hcap).
      rewrite Hroom, Hroom'.
      destruct (Z.ltb_spec (Room.capacity room) n) as [?|_]; [lia|].
      rewrite saveReservation_valid by (apply Hvalid; simpl; done).
      eexists. split; [done|].
      rewrite updateNotesStatus_confirm by done.
      destruct (required_str (Patch.notes p)); simpl; by rewrite ?Hs1, ?He1, ?Hnotes.
    + rewrite saveReservation_valid by (apply Hvalid; simpl; first [done|lia]).
      eexists. split; [done|].
      rewrite updateNotesStatus_confirm by done.
      destruct (required_str (Patch.notes p)); simpl;
        by rewrite ?Hs1, ?He1, ?Hnotes, ?Hnum.
Qed.

Lemma updateReservation_pending_gate_witness :
  updateReservation 0 1 "student" Sample.annotate Sample.rebooked =
    (Sample.rebooked, Failure ValidationError "Can only modify pending reservations")
  ∧ ∃ r',
      updateReservation 0 1 "student" Sample.moveAndConfirm Sample.rebooked =
        (mkDb (<[0%nat := r']> (reservations Sample.rebooked)) (signIns Sample.rebooked)
           (rooms Sample.rebooked) (buildings Sample.rebooked), Success 200 r') ∧
      Reservation.startTime r' = "16:00" ∧
      Reservation.endTime r' = "18:00" ∧
      Reservation.numberOfPeople r' = 3 ∧
      Reservation.notes r' = Some "window seat" ∧
      Reservation.status r' = Reservation.confirmed.
Proof.
  split.
  - edestruct (updateReservation_pending_gate 0 1 "student" Sample.annotate Sample.rebooked)
      as [H _]; [vm_compute; reflexivity | left; reflexivity | discriminate |].
    apply H. discriminate.
  - edestruct (updateReservation_pending_gate 0 1 "student" Sample.moveAndConfirm
                 Sample.rebooked)
      as [_ H]; [vm_compute; reflexivity | left; reflexivity | discriminate |].
    apply H.
    + reflexivity.
    + vm_compute; reflexivity.
    + intros _. vm_compute; reflexivity.
    + intros n Hn. injection Hn as <-. split; [lia|].
      eexists. split; [vm_compute; reflexivity|]. simpl. lia.
Defined.

(** ** Cancelling *)

(** C8: a cancellation by the owner or an admin of a pending or confirmed
    reservation (one that passes the validators of its schema, as every saved
    reservation does) sets status to 'cancelled' and records the trimmed
    reason, the time and the caller; for any other status it is refused with
    a ValidationError and the database is unchanged. *)
Theorem cancelReservation_spec id userId role reason now db r :
  reservations db !! id = Some r →
  Reservation.user r = userId ∨ role = "admin" →
  (Reservation.active (Reservation.status r) = true →
   Reservation.validate r = true →
   ∃ r',
     cancelReservation id userId role reason now db =
       (mkDb (<[id := r']> (reservations db)) (signIns db) (rooms db) (buildings db),
        Success 200 r') ∧
     Reservation.status r' = Reservation.cancelled ∧
     Reservation.cancelReason r' = Some (Js.trim (Js.str_or reason "")) ∧
     Reservation.cancelledAt r' = Some now ∧
     Reservation.cancelledBy r' = Some userId ∧
     ReservationSet.cancellation now userId (Js.str_or reason "")
       (ReservationSet.status Reservation.cancelled r) = r')
  ∧ (Reservation.active (Reservation.status r) = false →
     cancelReservation id userId role reason now db =
       (db, Failure ValidationError
              "Cannot cancel completed or already cancelled reservations")).
Proof.
  intros Hr Hauth. apply authorized in Hauth. split.
  - intros Hact Hv. unfold cancelReservation. rewrite Hr, Hauth, Hact. simpl.
    rewrite saveReservation_valid.
    + eexists. repeat split; reflexivity.
    + apply validate_true in Hv. apply validate_true. by destruct r.
  - intros Hact. unfold cancelReservation. by rewrite Hr, Hauth, Hact.
Qed.

Lemma cancelReservation_spec_witness :
  (∃ r',
     cancelReservation 0 1 "student" (Some " ill ") 2000 Sample.booked =
       (mkDb (<[0%nat := r']> (reservations Sample.booked)) (signIns Sample.booked)
          (rooms Sample.booked) (buildings Sample.booked), Success 200 r') ∧
     Reservation.status r' = Reservation.cancelled ∧
     Reservation.cancelReason r' = Some "ill" ∧
     Reservation.cancelledAt r' = Some 2000 ∧
     Reservation.cancelledBy r' = Some 1%nat)
  ∧ cancelReservation 0 9 "admin" None 2500 Sample.cancelledOnce =
      (Sample.cancelledOnce,
       Failure ValidationError "Cannot cancel completed or already cancelled reservations").
Proof.
  split.
  - edestruct (cancelReservation_spec 0 1 "student" (Some " ill ") 2000 Sample.booked)
      as [H _]; [vm_compute; reflexivity | left; reflexivity |].
    destruct H as (r' & H1 & H2 & H3 & H4 & H5 & _); [reflexivity | vm_compute; reflexivity |].
    exists r'. repeat split; assumption.
  - edestruct (cancelReservation_spec 0 9 "admin" None 2500 Sample.cancelledOnce)
      as [_ H]; [vm_compute; reflexivity | right; reflexivity |].
    apply H. reflexivity.
Defined.

(** ** Creating *)

Lemma minutes_nonempty t : Js.isNaN (minutes t) = false → t ≠ "".
Proof. intros H ->. vm_compute in H. done. Qed.

Lemma durationOf_nonempty startTime endTime :
  Js.isNaN (durationOf startTime endTime) = false → startTime ≠ "" ∧ endTime ≠ "".
Proof.
  intros H. apply sub_not_NaN in H as [He Hs]. eauto using minutes_nonempty.
Qed.

Lemma required_str_Some s : s ≠ "" → required_str (Some s) = Some s.
Proof.
  intros H. unfold required_str. simpl.
  apply String.eqb_neq in H. by rewrite H.
Qed.

Lemma required_num_Some n : n ≠ 0 → required_num (Some n) = Some n.
Proof.
  intros H. unfold required_num. simpl.
  apply Z.eqb_neq in H. by rewrite H.
Qed.

(** C7, as the code has it: a request that carries every required field,
    whose room and building exist, whose head count is within capacity and
    whose end is not after its start is refused and nothing is written; the
    conflict checker runs before the duration test, so the answer is Conflict
    when the checker finds an overlap for the submitted times, and the
    ValidationError of the duration test otherwise. *)
Theorem createReservation_nonpositive userId body db
    room building date startTime endTime purpose numberOfPeople roomData :
  CreateBody.room body = Some room →
  CreateBody.building body = Some building →
  CreateBody.reservationDate body = Some date →
  CreateBody.startTime body = Some startTime →
  CreateBody.endTime body = Some endTime →
  CreateBody.purpose body = Some purpose → purpose ≠ "" →
  CreateBody.numberOfPeople body = Some numberOfPeople → numberOfPeople ≠ 0 →
  rooms db !! room = Some roomData →
  building ∈ buildings db →
  numberOfPeople <= Room.capacity roomData →
  Js.num_le (durationOf startTime endTime) (Js.of_Z 0) = true →
  createReservation userId body db =
    (db, if checkBookingConflict db room date startTime endTime None
         then Failure Conflict "Time slot is already booked"
         else Failure ValidationError "End time must be after start time").
Proof.
  intros H1 H2 H3 H4 H5 H6 Hp H7 Hn Hroom Hb Hcap Hle.
  unfold createReservation. rewrite H1, H2, H3, H4, H5, H6, H7.
  assert (startTime ≠ "" ∧ endTime ≠ "") as [Hs He].
  { apply durationOf_nonempty. by apply num_le_not_NaN in Hle as [? _]. }
  rewrite !required_str_Some, required_num_Some by done.
  rewrite Hroom, (bool_decide_eq_true_2 _ Hb). simpl.
  destruct (Z.ltb_spec (Room.capacity roomData) numberOfPeople) as [?|_]; [lia|].
  destruct (checkBookingConflict _ _ _ _ _ _); [done|].
  by rewrite Hle.
Qed.

Lemma createReservation_nonpositive_witness :
  createReservation 2 (Sample.booking "17:00" "16:30") Sample.booked =
    (Sample.booked, Failure ValidationError "End time must be after start time").
Proof.
  apply (createReservation_nonpositive 2 (Sample.booking "17:00" "16:30") Sample.booked
           7%nat 3%nat Sample.day "17:00" "16:30" "studying" 2 Sample.room7);
    first [reflexivity | discriminate | by apply bool_decide_eq_true_1
          | vm_compute; lia | vm_compute; reflexivity].
Defined.

(** With 14:00-16:00 booked, a request for 15:30-15:00 in the same room has
    an existing room and building, two people for four seats and a duration
    of -30 minutes, and is answered with Conflict, not ValidationError. *)
Lemma createReservation_inverted_is_conflict :
  rooms Sample.booked !! 7%nat = Some Sample.room7 ∧
  3%nat ∈ buildings Sample.booked ∧
  2 <= Room.capacity Sample.room7 ∧
  durationOf "15:30" "15:00" = Js.of_Z (-30) ∧
  Js.num_le (durationOf "15:30" "15:00") (Js.of_Z 0) = true ∧
  createReservation 2 (Sample.booking "15:30" "15:00") Sample.booked =
    (Sample.booked, Failure Conflict "Time slot is already booked") ∧
  Conflict ≠ ValidationError.
Proof.
  split; [vm_compute; reflexivity|].
  split; [apply (bool_decide_eq_true_1 (3%nat ∈ buildings Sample.booked));
          vm_compute; reflexivity|].
  split; [vm_compute; discriminate|].
  split; [vm_compute; reflexivity|].
  split; [vm_compute; reflexivity|].
  split; [vm_compute; reflexivity|discriminate].
Qed.

(** The duration is what [Number] reads: an end time with a space after it
    is accepted, with the duration of the time it spells, and an hour of -1
    is refused by the duration test. *)
Example create_with_a_space :
  ∃ db' r,
    createReservation 2 (Sample.booking "17:00" "18:00 ") Sample.booked
    = (db', Success 201 (1%nat, r))
    ∧ Reservation.endTime r = "18:00 "
    ∧ Reservation.duration r = Js.of_Z 60.
Proof. eexists _, _. split; [vm_compute; reflexivity|]. split; reflexivity. Qed.

Example create_with_negative_hour :
  createReservation 2 (Sample.booking "17:00" "-1:00") Sample.booked
  = (Sample.booked, Failure ValidationError "End time must be after start time").
Proof. vm_compute. reflexivity. Qed.

Example create_without_colon :
  createReservation 2 (Sample.booking "17" "18") Sample.booked
  = (Sample.booked, Failure InternalError "Error creating reservation").
Proof. vm_compute. reflexivity. Qed.

(** ** Checking in *)

Lemma findOne_is_Some {A} (q : nat → A → bool) (m : gmap nat A) id d :
  m !! id = Some d → q id d = true → is_Some (findOne q m).
Proof.
  intros Hm Hq. unfold findOne.
  assert ((id, d) ∈ find q m) as Hin by (by apply elem_of_find).
  destruct (find q m); [by apply elem_of_nil in Hin|by eexists].
Qed.

Lemma findOne_None {A} (q : nat → A → bool) (m : gmap nat A) :
  findOne q m = None → ∀ id d, m !! id = Some d → q id d = false.
Proof.
  intros Hnone id d Hm. destruct (q id d) eqn:Hq; [|done].
  destruct (findOne_is_Some q m id d Hm Hq) as [x Hx]. congruence.
Qed.

(** C6: while a sign-in of a reservation is active, a check-in for that
    reservation writes nothing and fails; asked by the owner for a
    reservation still pending or confirmed, it fails with the
    ValidationError 'Already checked in for this reservation'. *)
Theorem checkIn_already_active userId body now db rid sid s :
  CheckInBody.reservation body = Some rid →
  signIns db !! sid = Some s →
  SignIn.reservation s = rid →
  SignIn.status s = SignIn.active →
  (checkIn userId body now db).1 = db
  ∧ (∃ code message, (checkIn userId body now db).2 = Failure code message)
  ∧ (∀ r, is_Some (CheckInBody.room body) →
          is_Some (CheckInBody.building body) →
          reservations db !! rid = Some r →
          Reservation.user r = userId →
          Reservation.active (Reservation.status r) = true →
          checkIn userId body now db =
            (db, Failure ValidationError "Already checked in for this reservation")).
Proof.
  intros Hrid Hs Hres Hact.
  assert (is_Some (findOne (activeSignInQuery rid) (signIns db))) as [x Hx].
  { apply (findOne_is_Some _ _ sid s Hs). unfold activeSignInQuery.
    by rewrite !bool_decide_eq_true_2. }
  unfold checkIn. rewrite Hrid, Hx.
  split; [|split].
  - repeat case_match; done.
  - repeat case_match; simpl; eauto.
  - intros r [room ->] [building ->] -> Hu Ha.
    by rewrite (bool_decide_eq_true_2 _ Hu), Ha.
Qed.

Lemma checkIn_already_active_witness :
  checkIn 1 (Sample.arrival 0) 6000 Sample.checkedIn =
    (Sample.checkedIn, Failure ValidationError "Already checked in for this reservation").
Proof.
  edestruct (checkIn_already_active 1 (Sample.arrival 0) 6000 Sample.checkedIn 0 0)
    as (_ & _ & H); [reflexivity | vm_compute; reflexivity | reflexivity | reflexivity |].
  eapply H; [by eexists | by eexists | vm_compute; reflexivity | reflexivity | reflexivity].
Defined.

(** ** Room occupancy *)

Lemma saveRoom_Some now id n r db db' :
  saveRoom now id (setOccupancy n r) db = Some db' →
  db' = mkDb (reservations db) (signIns db)
          (<[id := Room.pre_save now (setOccupancy n r)]> (rooms db)) (buildings db)
  ∧ 1 <= Room.capacity r ∧ 0 <= n
  ∧ Room.currentOccupancy (Room.pre_save now (setOccupancy n r)) = n
  ∧ derivedStatus r (Room.pre_save now (setOccupancy n r)).
Proof.
  unfold saveRoom, Room.validate. simpl.
  destruct (Z.leb_spec 1 (Room.capacity r)); [|done].
  destruct (Z.leb_spec 0 n); [|done]. simpl.
  intros [= <-]. repeat split; try done.
  - simpl. intros Hpos. by destruct (Z.ltb_spec 0 n); [|lia].
  - simpl. intros ->. simpl. by destruct (Room.occupancyStatus r).
Qed.

Lemma saveRoom_valid now id r db :
  Room.validate r = true →
  saveRoom now id r db =
    Some (mkDb (reservations db) (signIns db)
            (<[id := Room.pre_save now r]> (rooms db)) (buildings db)).
Proof. intros H. unfold saveRoom. by rewrite H. Qed.

(** A successful save, read backwards; guards that were passed, as facts. *)
Ltac saved_room :=
  match goal with
  | H : saveRoom _ _ _ _ = Some _ |- _ =>
      apply saveRoom_Some in H as (-> & ? & ? & ? & ?)
  end.

Ltac saved_reservation :=
  repeat match goal with
         | H : saveReservation _ _ _ = Some _ |- _ =>
             unfold saveReservation in H; case_match; [|done]; injection H as <-
         end.

Ltac passed :=
  repeat match goal with
         | H : negb _ = false |- _ => apply negb_false_iff in H
         | H : bool_decide _ = true |- _ => apply bool_decide_eq_true in H
         end.

Lemma pre_save_derived now n r :
  0 <= n → derivedStatus r (Room.pre_save now (setOccupancy n r)).
Proof.
  intros Hn. split; [done|]. split; simpl.
  - intros Hpos. by destruct (Z.ltb_spec 0 n); [|lia].
  - intros ->. simpl. by destruct (Room.occupancyStatus r).
Qed.

Lemma checkIn_roomSaved userId body now db : roomSaved db (checkIn userId body now db).1.
Proof.
  unfold checkIn.
  repeat case_match; simpl; try (by left).
  right. saved_room. simpl in *. eauto 10.
Qed.

Lemma checkOut_roomSaved userId id notes now db :
  roomSaved db (checkOut userId id notes now db).1.
Proof.
  unfold checkOut.
  repeat case_match; simpl; try (by left);
    saved_room; simpl in *; saved_reservation; simpl; right; eauto 10.
Qed.


(** ** Check-in followed by check-out *)

(** What a successful check-in has read and written. *)
Lemma checkIn_Success userId body now db db' code data :
  checkIn userId body now db = (db', Success code data) →
  ∃ rid room building r roomData,
    CheckInBody.reservation body = Some rid ∧
    CheckInBody.room body = Some room ∧
    CheckInBody.building body = Some building ∧
    reservations db !! rid = Some r ∧
    Reservation.user r = userId ∧
    Reservation.active (Reservation.status r) = true ∧
    findOne (activeSignInQuery rid) (signIns db) = None ∧
    rooms db !! room = Some roomData ∧
    0 <= Js.num_or (Room.currentOccupancy roomData) 0 + 1 ∧
    1 <= Room.capacity roomData ∧
    code = 201 ∧
    data = CheckInData.mk (newId (signIns db)) now
             (Js.num_or (Room.currentOccupancy roomData) 0 + 1) ∧
    db' = mkDb (reservations db)
            (<[newId (signIns db) :=
                 SignIn.mk userId rid room building now None None
                   (Js.trim (Js.str_or (CheckInBody.notes body) "")) SignIn.active]>
               (signIns db))
            (<[room := Room.pre_save now
                         (setOccupancy (Js.num_or (Room.currentOccupancy roomData) 0 + 1)
                            roomData)]> (rooms db))
            (buildings db).
Proof.
  unfold checkIn. intros H.
  repeat case_match; simplify_eq.
  saved_room. simpl in *. passed.
  eexists _, _, _, _, _. repeat split; eauto.
Qed.

(** What a successful check-out has read and written. *)
Lemma checkOut_Success userId id notes now db db' code data :
  checkOut userId id notes now db = (db', Success code data) →
  ∃ s room0,
    signIns db !! id = Some s ∧
    SignIn.user s = userId ∧
    SignIn.status s = SignIn.active ∧
    rooms db !! SignIn.room s = Some room0 ∧
    code = 200 ∧
    data = CheckOutData.mk id (Some now)
             (Some (Js.round_div (now - SignIn.signInTime s) 60000))
             (Z.max 0 (Js.num_or (Room.currentOccupancy room0) 1 - 1)) ∧
    signIns db' = <[id := SignIn.pre_save (signOut now notes s)]> (signIns db) ∧
    rooms db' =
      <[SignIn.room s :=
          Room.pre_save now
            (setOccupancy (Z.max 0 (Js.num_or (Room.currentOccupancy room0) 1 - 1)) room0)]>
        (rooms db) ∧
    reservations db' =
      match reservations db !! SignIn.reservation s with
      | Some r =>
          <[SignIn.reservation s :=
              ReservationSet.checkTimes (SignIn.signInTime s) (Some now)
                (ReservationSet.status Reservation.completed r)]> (reservations db)
      | None => reservations db
      end.
Proof.
  unfold checkOut. intros H.
  repeat case_match; simplify_eq;
    saved_room; simpl in *; saved_reservation; passed;
    simpl in *; simplify_eq;
    eexists _, _; repeat split; eauto;
    match goal with H : reservations _ !! _ = _ |- _ => by rewrite H end.
Qed.

(** C9: whatever a check-in or a check-out does, it either leaves the rooms
    as they were or saves one room, and the room it saves has occupancy
    status 'occupied' when its occupancy is above 0 and, when its occupancy
    is 0, 'available' unless the room was in 'maintenance', which it keeps;
    a check-in or check-out that succeeds has saved its room so. *)
Theorem room_status_derived userId now db :
  (∀ body, roomSaved db (checkIn userId body now db).1)
  ∧ (∀ id notes, roomSaved db (checkOut userId id notes now db).1)
  ∧ (∀ body db' code data,
       checkIn userId body now db = (db', Success code data) →
       ∃ room r r',
         CheckInBody.room body = Some room ∧
         rooms db !! room = Some r ∧ rooms db' !! room = Some r' ∧
         Room.currentOccupancy r' = Js.num_or (Room.currentOccupancy r) 0 + 1 ∧
         derivedStatus r r')
  ∧ (∀ id notes db' code data,
       checkOut userId id notes now db = (db', Success code data) →
       ∃ s r r',
         signIns db !! id = Some s ∧
         rooms db !! SignIn.room s = Some r ∧ rooms db' !! SignIn.room s = Some r' ∧
         Room.currentOccupancy r' = Z.max 0 (Js.num_or (Room.currentOccupancy r) 1 - 1) ∧
         derivedStatus r r').
Proof.
  split; [intros; apply checkIn_roomSaved|].
  split; [intros; apply checkOut_roomSaved|]. split.
  - intros body db' code data H.
    apply checkIn_Success in H
      as (rid & room & building & r & roomData & _ & Hroom & _ & _ & _ & _ & _
          & HroomData & Hocc & _ & _ & _ & ->).
    eexists room, roomData, _. split; [done|]. split; [done|].
    split; [apply lookup_insert_eq|]. split; [done|by apply pre_save_derived].
  - intros id notes db' code data H.
    apply checkOut_Success in H
      as (s & room0 & Hs & _ & _ & Hroom0 & _ & _ & _ & Hrooms & _).
    eexists s, room0, _. split; [done|]. split; [done|].
    split; [rewrite Hrooms; apply lookup_insert_eq|].
    split; [done|apply pre_save_derived; lia].
Qed.

Lemma room_status_derived_witness :
  ∃ r', rooms Sample.checkedIn !! 7%nat = Some r'
        ∧ Room.currentOccupancy r' = 1
        ∧ Room.occupancyStatus r' = Room.occupied.
Proof.
  destruct (room_status_derived 1 5000 Sample.booked) as (_ & _ & H & _).
  destruct (H (Sample.arrival 0) Sample.checkedIn 201 (CheckInData.mk 0 5000 1))
    as (room & r & r' & Hroom & Hr & Hr' & Hocc & Hd); [vm_compute; reflexivity|].
  injection Hroom as <-.
  assert (rooms Sample.booked !! 7%nat = Some Sample.room7) as Hr7
    by (vm_compute; reflexivity).
  rewrite Hr7 in Hr. injection Hr as <-.
  exists r'. split; [exact Hr'|]. split; [exact Hocc|].
  destruct Hd as (_ & Hpos & _). apply Hpos. rewrite Hocc. reflexivity.
Defined.

Lemma round_div_nearest n d :
  0 < d → - d < 2 * (d * Js.round_div n d - n) <= d.
Proof.
  intros Hd. unfold Js.round_div.
  pose proof (Z.mul_div_le (2 * n + d) (2 * d)).
  pose proof (Z.mul_succ_div_gt (2 * n + d) (2 * d)).
  lia.
Qed.

Lemma num_or_nonneg n : 0 <= n → Js.num_or n 0 = n.
Proof. intros _. unfold Js.num_or. by destruct (Z.eqb_spec n 0). Qed.

Lemma occupancy_round_trip n :
  0 <= n → Z.max 0 (Js.num_or (Js.num_or n 0 + 1) 1 - 1) = n.
Proof.
  intros Hn. rewrite num_or_nonneg by done. unfold Js.num_or.
  destruct (Z.eqb_spec (n + 1) 0); lia.
Qed.

(** C5: when a check-in succeeds and the check-out of its sign-in succeeds
    right after it, the sign-in is completed with an actual duration of
    (signOutTime - signInTime) / 60000 rounded to the nearest minute, the
    room's occupancy (not negative before, as the schema requires) is back
    at its value before the check-in, and the reservation is 'completed'
    with checkInTime and checkOutTime those of the sign-in. *)
Theorem checkIn_then_checkOut userId body notes now1 now2 db db1 db2 c1 d1 c2 d2
    rid room r0 :
  checkIn userId body now1 db = (db1, Success c1 d1) →
  checkOut userId (CheckInData.signInId d1) notes now2 db1 = (db2, Success c2 d2) →
  CheckInBody.reservation body = Some rid →
  CheckInBody.room body = Some room →
  rooms db !! room = Some r0 →
  0 <= Room.currentOccupancy r0 →
  ∃ s2 r2 res2 q,
    signIns db2 !! CheckInData.signInId d1 = Some s2 ∧
    SignIn.status s2 = SignIn.completed ∧
    SignIn.signInTime s2 = now1 ∧
    SignIn.signOutTime s2 = Some now2 ∧
    SignIn.actualDuration s2 = Some q ∧
    CheckOutData.actualDuration d2 = Some q ∧
    q = Js.round_div (now2 - now1) 60000 ∧
    -30000 < 60000 * q - (now2 - now1) <= 30000 ∧
    rooms db2 !! room = Some r2 ∧
    Room.currentOccupancy r2 = Room.currentOccupancy r0 ∧
    reservations db2 !! rid = Some res2 ∧
    Reservation.status res2 = Reservation.completed ∧
    Reservation.checkInTime res2 = Some (SignIn.signInTime s2) ∧
    Reservation.checkOutTime res2 = SignIn.signOutTime s2.
Proof.
  intros Hin Hout Hrid Hroom Hr0 Hocc.
  apply checkIn_Success in Hin
    as (rid' & room' & building & r & roomData & Hrid' & Hroom' & _ & Hr & _ & _ & _
        & HroomData & _ & _ & _ & -> & ->).
  simplify_eq. simpl in Hout.
  apply checkOut_Success in Hout
    as (s & room0 & Hs & _ & _ & Hroom0 & _ & -> & Hsign & Hrooms & Hres).
  simpl in Hs, Hroom0, Hres. rewrite lookup_insert_eq in Hs. simplify_eq. simpl in *.
  rewrite lookup_insert_eq in Hroom0. simplify_eq. simpl in *.
  rewrite Hr in Hres.
  eexists _, _, _, _.
  split; [rewrite Hsign; apply lookup_insert_eq|]. simpl.
  do 6 (split; [reflexivity|]).
  split; [pose proof (round_div_nearest (now2 - now1) 60000); lia|].
  split; [rewrite Hrooms; apply lookup_insert_eq|].
  split; [simpl; by apply occupancy_round_trip|].
  split; [rewrite Hres; apply lookup_insert_eq|]. done.
Qed.

Lemma checkIn_then_checkOut_witness :
  ∃ s2 r2 res2,
    signIns (checkOut 1 0 None 155000 Sample.checkedIn).1 !! 0%nat = Some s2 ∧
    SignIn.actualDuration s2 = Some 3 ∧
    rooms (checkOut 1 0 None 155000 Sample.checkedIn).1 !! 7%nat = Some r2 ∧
    Room.currentOccupancy r2 = 0 ∧
    reservations (checkOut 1 0 None 155000 Sample.checkedIn).1 !! 0%nat = Some res2 ∧
    Reservation.status res2 = Reservation.completed ∧
    Reservation.checkInTime res2 = Some 5000 ∧
    Reservation.checkOutTime res2 = Some 155000.
Proof.
  edestruct (checkIn_then_checkOut 1 (Sample.arrival 0) None 5000 155000 Sample.booked
               Sample.checkedIn (checkOut 1 0 None 155000 Sample.checkedIn).1
               201 (CheckInData.mk 0 5000 1) 200
               (CheckOutData.mk 0 (Some 155000) (Some 3) 0) 0 7 Sample.room7)
    as (s2 & r2 & res2 & q & H1 & H2 & H3 & H4 & H5 & H6 & H7 & H8 & H9 & H10 & H11
        & H12 & H13 & H14);
    [vm_compute; reflexivity | vm_compute; reflexivity | reflexivity | reflexivity
    | vm_compute; reflexivity | vm_compute; discriminate |].
  exists s2, r2, res2.
  rewrite H3 in H13. rewrite H4 in H14. rewrite H7 in H5.
  repeat split; assumption.
Defined.

(** ** Check-out without the reservation *)

(** C10: a check-out by the owner of an active sign-in whose reservation is
    no longer in the database never answers NotFound and leaves the
    reservations as they are; the sign-in is completed with signOutTime and
    actualDuration set, and, the sign-in's room being there and passing its
    validators, the call succeeds with the room's occupancy one less, not
    below 0. *)
Theorem checkOut_without_reservation userId id notes now db s :
  signIns db !! id = Some s →
  SignIn.user s = userId →
  SignIn.status s = SignIn.active →
  reservations db !! SignIn.reservation s = None →
  (∃ s',
     signIns (checkOut userId id notes now db).1 !! id = Some s' ∧
     SignIn.status s' = SignIn.completed ∧
     SignIn.signOutTime s' = Some now ∧
     SignIn.actualDuration s' = Some (Js.round_div (now - SignIn.signInTime s) 60000))
  ∧ reservations (checkOut userId id notes now db).1 = reservations db
  ∧ (∀ message, (checkOut userId id notes now db).2 ≠ Failure NotFound message)
  ∧ (∀ room0,
       rooms db !! SignIn.room s = Some room0 →
       Room.validate room0 = true →
       ∃ s' room',
         checkOut userId id notes now db =
           (mkDb (reservations db) (<[id := s']> (signIns db))
              (<[SignIn.room s := room']> (rooms db)) (buildings db),
            Success 200
              (CheckOutData.mk id (Some now)
                 (Some (Js.round_div (now - SignIn.signInTime s) 60000))
                 (Z.max 0 (Room.currentOccupancy room0 - 1)))) ∧
         Room.currentOccupancy room' = Z.max 0 (Room.currentOccupancy room0 - 1)).
Proof.
  intros Hs Hu Hact Hres.
  unfold checkOut. rewrite Hs.
  rewrite (bool_decide_eq_true_2 _ Hu), (bool_decide_eq_true_2 _ Hact). simpl.
  destruct (rooms db !! SignIn.room s) as [room1|] eqn:Hroom.
  - destruct (saveRoom _ _ _ _) as [db2|] eqn:Hsave.
    + saved_room. simpl. rewrite Hres. simpl.
      split; [eexists; split; [apply lookup_insert_eq|done]|].
      split; [done|]. split; [done|].
      intros room0 [= <-] Hv.
      unfold Room.validate in Hv. apply andb_true_iff in Hv as [_ Hocc].
      apply Z.leb_le in Hocc.
      assert (Z.max 0 (Js.num_or (Room.currentOccupancy room1) 1 - 1)
              = Z.max 0 (Room.currentOccupancy room1 - 1)) as <-.
      { unfold Js.num_or. destruct (Z.eqb_spec (Room.currentOccupancy room1) 0); lia. }
      eexists _, _. split; reflexivity.
    + simpl.
      split; [eexists; split; [apply lookup_insert_eq|done]|].
      split; [done|]. split; [done|].
      intros room0 [= <-] Hv. exfalso.
      unfold saveRoom, Room.validate in Hsave, Hv. simpl in Hsave.
      apply andb_true_iff in Hv as [Hcap _]. rewrite Hcap in Hsave. simpl in Hsave.
      by destruct (Z.leb_spec 0 (Z.max 0 (Js.num_or (Room.currentOccupancy room1) 1 - 1)));
        [|lia].
  - simpl.
    split; [eexists; split; [apply lookup_insert_eq|done]|].
    split; [done|]. split; [done|]. intros room0 [=].
Qed.

Lemma checkOut_without_reservation_witness :
  ∃ s' room',
    checkOut 1 0 None 155000 Sample.orphaned =
      (mkDb ∅ (<[0%nat := s']> (signIns Sample.orphaned))
         (<[7%nat := room']> (rooms Sample.orphaned)) (buildings Sample.orphaned),
       Success 200 (CheckOutData.mk 0 (Some 155000) (Some 3) 0)) ∧
    Room.currentOccupancy room' = 0.
Proof.
  edestruct (checkOut_without_reservation 1 0 None 155000 Sample.orphaned)
    as (_ & _ & _ & H);
    [vm_compute; reflexivity | reflexivity | reflexivity | reflexivity |].
  edestruct H as (s' & room' & H1 & H2); [vm_compute; reflexivity | reflexivity |].
  exists s', room'. split; [exact H1|exact H2].
Defined.

(** ** Status changes *)

Lemma newId_fresh {A} (m : gmap nat A) : m !! newId m = None.
Proof. apply not_elem_of_dom. unfold newId. apply is_fresh. Qed.

Lemma createReservation_keeps userId body db id r :
  reservations db !! id = Some r →
  reservations (createReservation userId body db).1 !! id = Some r.
Proof.
  intros Hr. unfold createReservation, saveReservation.
  repeat case_match; simpl; try done.
  simplify_eq. simpl. rewrite lookup_insert_ne; [done|].
  intros E. pose proof (newId_fresh (reservations db)) as Hf.
  rewrite E in Hf. congruence.
Qed.

Lemma checkIn_reservations userId body now db :
  reservations (checkIn userId body now db).1 = reservations db.
Proof.
  unfold checkIn, saveRoom.
  repeat case_match; simpl; try done. by simplify_eq.
Qed.

Lemma updateTimes_status db id p r r1 :
  updateTimes db id p r = inr r1 → Reservation.status r1 = Reservation.status r.
Proof.
  unfold updateTimes. intros H. repeat case_match; by simplify_eq.
Qed.

Lemma updateNotesStatus_status p r :
  Reservation.status (updateNotesStatus p r) = Reservation.status r
  ∨ (Patch.status p = Some "confirmed"
     ∧ Reservation.status (updateNotesStatus p r) = Reservation.confirmed)
  ∨ (Patch.status p = Some "cancelled"
     ∧ Reservation.status (updateNotesStatus p r) = Reservation.cancelled).
Proof.
  unfold updateNotesStatus.
  destruct (Patch.status p) as [st|] eqn:E;
    [|left; by destruct (required_str (Patch.notes p))].
  destruct (String.eqb_spec st "confirmed") as [->|Hc]; [by right; left|].
  destruct (String.eqb_spec st "cancelled") as [->|Hx]; [by right; right|].
  left; by destruct (required_str (Patch.notes p)).
Qed.

Lemma updateReservation_status id0 userId role p db id r r' :
  reservations db !! id = Some r →
  reservations (updateReservation id0 userId role p db).1 !! id = Some r' →
  Reservation.status r ≠ Reservation.status r' →
  id = id0
  ∧ ((Reservation.status r = Reservation.pending
      ∧ (Reservation.status r' = Reservation.confirmed
         ∨ Reservation.status r' = Reservation.cancelled))
     ∨ (Patch.status p = Some "confirmed"
        ∧ Reservation.status r' = Reservation.confirmed)).
Proof.
  intros Hr Hr' Hne. unfold updateReservation in Hr'.
  destruct (reservations db !! id0) as [r0|] eqn:Hr0; [|simpl in Hr'; congruence].
  destruct (unauthorized _ _ _); [simpl in Hr'; congruence|].
  destruct (negb (bool_decide (Reservation.status r0 = Reservation.pending))
            && negb (bool_decide (Patch.status p = Some "confirmed"))) eqn:Hgate;
    [simpl in Hr'; congruence|].
  destruct (updateTimes db id0 p r0) as [msg|r1] eqn:Ht; [simpl in Hr'; congruence|].
  apply updateTimes_status in Ht.
  assert (∀ r2, Reservation.status r2 = Reservation.status r0 →
            reservations
              (match saveReservation id0 (updateNotesStatus p r2) db with
               | Some db' => (db', Success 200 (updateNotesStatus p r2))
               | None => (db, Failure InternalError "Error updating reservation")
               end).1 !! id = Some r' →
            id = id0
            ∧ ((Reservation.status r = Reservation.pending
                ∧ (Reservation.status r' = Reservation.confirmed
                   ∨ Reservation.status r' = Reservation.cancelled))
               ∨ (Patch.status p = Some "confirmed"
                  ∧ Reservation.status r' = Reservation.confirmed))) as Hsave.
  { intros r2 Hr2 Hl. unfold saveReservation in Hl.
    destruct (Reservation.validate _); simpl in Hl; [|congruence].
    destruct (decide (id = id0)) as [->|Hid];
      [|rewrite lookup_insert_ne in Hl by done; congruence].
    rewrite lookup_insert_eq in Hl. simplify_eq. split; [done|].
    apply andb_false_iff in Hgate.
    destruct (updateNotesStatus_status p r2) as [E|[[Hp E]|[Hp E]]].
    - congruence.
    - by right.
    - destruct Hgate as [Hg|Hg].
      + apply negb_false_iff, bool_decide_eq_true in Hg. left. split; [done|by right].
      + apply negb_false_iff, bool_decide_eq_true in Hg. congruence. }
  destruct (required_num (Patch.numberOfPeople p)) as [n|].
  - destruct (rooms db !! Reservation.room r1); [|simpl in Hr'; congruence].
    destruct (_ <? _); [simpl in Hr'; congruence|].
    apply (Hsave (ReservationSet.numberOfPeople n r1) Ht Hr').
  - apply (Hsave _ Ht Hr').
Qed.

Lemma cancelReservation_status id0 userId role reason now db id r r' :
  reservations db !! id = Some r →
  reservations (cancelReservation id0 userId role reason now db).1 !! id = Some r' →
  Reservation.status r ≠ Reservation.status r' →
  id = id0
  ∧ Reservation.active (Reservation.status r) = true
  ∧ Reservation.status r' = Reservation.cancelled.
Proof.
  intros Hr Hr' Hne. unfold cancelReservation, saveReservation in Hr'.
  repeat case_match; simpl in *; simplify_eq; try done. simpl in Hr'.
  destruct (decide (id = id0)) as [->|Hid];
    [|rewrite lookup_insert_ne in Hr' by done; congruence].
  rewrite lookup_insert_eq in Hr'. simplify_eq.
  match goal with H : negb _ = false |- _ => apply negb_false_iff in H end.
  done.
Qed.

Lemma checkOut_status userId id0 notes now db id r r' :
  reservations db !! id = Some r →
  reservations (checkOut userId id0 notes now db).1 !! id = Some r' →
  Reservation.status r ≠ Reservation.status r' →
  Reservation.status r' = Reservation.completed
  ∧ ∃ s, signIns db !! id0 = Some s ∧ SignIn.user s = userId
         ∧ SignIn.reservation s = id ∧ SignIn.status s = SignIn.active.
Proof.
  intros Hr Hr' Hne. unfold checkOut in Hr'.
  destruct (signIns db !! id0) as [s|] eqn:Hs; [|simpl in Hr'; congruence].
  destruct (bool_decide (SignIn.user s = userId)) eqn:Hu; [|simpl in Hr'; congruence].
  destruct (bool_decide (SignIn.status s = SignIn.active)) eqn:Ha;
    [|simpl in Hr'; congruence].
  apply bool_decide_eq_true in Hu, Ha.
  assert (Reservation.status r' = Reservation.completed ∧ SignIn.reservation s = id)
    as [? ?]; [|eauto 10].
  unfold saveRoom, saveReservation in Hr'. simpl in Hr'.
  repeat case_match; simpl in *; simplify_eq; simpl in *; simplify_eq;
    try congruence.
  destruct (decide (id = SignIn.reservation s)) as [->|Hid].
  - rewrite lookup_insert_eq in Hr'. by simplify_eq.
  - rewrite lookup_insert_ne in Hr' by done. congruence.
Qed.

(** C4, as the code has it: a status change made by one request leads a
    pending reservation to confirmed, cancelled or completed and a confirmed
    one to cancelled or completed; completed is set by a check-out only, of a
    sign-in of that reservation that is still active, whatever the status
    was; a reservation that is neither pending nor confirmed changes status
    by such a check-out, to completed, or by an update whose patch sets
    status to 'confirmed', to confirmed, and by nothing else. *)
Theorem status_transitions now req db id r r' :
  reservations db !! id = Some r →
  reservations (handle now req db) !! id = Some r' →
  Reservation.status r ≠ Reservation.status r' →
  (Reservation.status r = Reservation.pending →
   Reservation.status r' = Reservation.confirmed
   ∨ Reservation.status r' = Reservation.cancelled
   ∨ Reservation.status r' = Reservation.completed)
  ∧ (Reservation.status r = Reservation.confirmed →
     Reservation.status r' = Reservation.cancelled
     ∨ Reservation.status r' = Reservation.completed)
  ∧ (Reservation.status r' = Reservation.completed →
     ∃ userId sid notes s,
       req = CheckOut userId sid notes ∧ signIns db !! sid = Some s
       ∧ SignIn.user s = userId ∧ SignIn.reservation s = id
       ∧ SignIn.status s = SignIn.active)
  ∧ (Reservation.active (Reservation.status r) = false →
     (Reservation.status r' = Reservation.completed
      ∧ ∃ userId sid notes, req = CheckOut userId sid notes)
     ∨ (Reservation.status r' = Reservation.confirmed
        ∧ ∃ userId role p, req = UpdateReservation id userId role p
                           ∧ Patch.status p = Some "confirmed")).
Proof.
  intros Hr Hr' Hne. destruct req as [u b|i u ro p|i u ro re|u b|u i n]; simpl in Hr'.
  - rewrite (createReservation_keeps _ _ _ _ _ Hr) in Hr'. congruence.
  - destruct (updateReservation_status _ _ _ _ _ _ _ _ Hr Hr' Hne)
      as (-> & [(Hp & Hs)|(Hp & Hs)]).
    + rewrite Hp. repeat split; intros; try (done || congruence).
      * destruct Hs; auto.
      * destruct Hs; congruence.
    + repeat split; intros; try (done || congruence); eauto 10.
  - destruct (cancelReservation_status _ _ _ _ _ _ _ _ _ Hr Hr' Hne)
      as (-> & Ha & Hs).
    repeat split; intros; try (done || congruence); auto.
  - rewrite checkIn_reservations in Hr'. congruence.
  - destruct (checkOut_status _ _ _ _ _ _ _ _ Hr Hr' Hne) as (Hs & s & ? & ? & ? & ?).
    repeat split; intros; eauto 12.
Qed.

Lemma status_transitions_witness :
  ∃ r r',
    reservations Sample.booked !! 0%nat = Some r ∧
    reservations Sample.cancelledOnce !! 0%nat = Some r' ∧
    Reservation.status r = Reservation.pending ∧
    (Reservation.status r' = Reservation.confirmed
     ∨ Reservation.status r' = Reservation.cancelled
     ∨ Reservation.status r' = Reservation.completed).
Proof.
  edestruct (status_transitions 2000 (CancelReservation 0 1 "student" None)
               Sample.booked 0) as (H & _);
    [vm_compute; reflexivity | vm_compute; reflexivity | discriminate |].
  eexists _, _. split; [vm_compute; reflexivity|]. split; [vm_compute; reflexivity|].
  split; [reflexivity|]. apply H. reflexivity.
Defined.

(** C4 as it is written fails in three ways.  A pending reservation becomes
    completed by a check-in followed by a check-out; a cancelled one becomes
    confirmed again by an update whose patch is [{ status: 'confirmed' }];
    and one that was cancelled while its sign-in was active becomes completed
    by the check-out. *)
Lemma status_machine_left :
  (Reservation.status <$> reservations Sample.checkedIn !! 0%nat
     = Some Reservation.pending
   ∧ Reservation.status <$>
       reservations (checkOut 1 0 None 155000 Sample.checkedIn).1 !! 0%nat
     = Some Reservation.completed)
  ∧ (Reservation.status <$> reservations Sample.rebooked !! 0%nat
       = Some Reservation.cancelled
     ∧ Reservation.status <$>
         reservations (updateReservation 0 1 "student" Sample.confirm Sample.rebooked).1
           !! 0%nat
       = Some Reservation.confirmed)
  ∧ (Reservation.status <$> reservations Scenario.cancelledInside !! 0%nat
       = Some Reservation.cancelled
     ∧ Reservation.status <$>
         reservations (checkOut 1 0 None 155000 Scenario.cancelledInside).1 !! 0%nat
       = Some Reservation.completed).
Proof. repeat split; vm_compute; reflexivity. Qed.

(** ** Double booking *)

Lemma overlaps_sym r1 r2 :
  overlaps (Reservation.startTime r1) (Reservation.endTime r1) r2 =
  overlaps (Reservation.startTime r2) (Reservation.endTime r2) r1.
Proof. unfold overlaps, Js.ge, Js.le. by rewrite orb_comm. Qed.

(** Writing one reservation keeps the rooms free of double booking when the
    written reservation, if pending or confirmed, overlaps no other
    pending/confirmed reservation of its room and date. *)
Lemma noDoubleBooking_insert db db' k x :
  noDoubleBooking db →
  reservations db' = <[k := x]> (reservations db) →
  (Reservation.active (Reservation.status x) = true →
   ∀ j r2, j ≠ k → reservations db !! j = Some r2 →
     Reservation.room r2 = Reservation.room x →
     Reservation.reservationDate r2 = Reservation.reservationDate x →
     Reservation.active (Reservation.status r2) = true →
     overlaps (Reservation.startTime x) (Reservation.endTime x) r2 = false) →
  noDoubleBooking db'.
Proof.
  intros Hno Hdb' Hx i j (r1 & r2 & Hij & H1 & H2 & Hroom & Hdate & Ha1 & Ha2 & Hov).
  rewrite Hdb' in H1, H2.
  destruct (decide (i = k)) as [->|Hik].
  - rewrite lookup_insert_eq in H1. rewrite lookup_insert_ne in H2 by done.
    simplify_eq. rewrite (Hx Ha1 j r2) in Hov; done.
  - rewrite lookup_insert_ne in H1 by done.
    destruct (decide (j = k)) as [->|Hjk].
    + rewrite lookup_insert_eq in H2. simplify_eq.
      rewrite overlaps_sym, (Hx Ha2 i r1) in Hov; done.
    + rewrite lookup_insert_ne in H2 by done.
      apply (Hno i j). by exists r1, r2.
Qed.

Lemma noDoubleBooking_same db db' :
  noDoubleBooking db → reservations db' = reservations db → noDoubleBooking db'.
Proof.
  intros Hno Hdb' i j (r1 & r2 & H). rewrite Hdb' in H. apply (Hno i j). by exists r1, r2.
Qed.

Lemma checkBookingConflict_false db roomId date startTime endTime excludeId j r2 :
  checkBookingConflict db roomId date startTime endTime excludeId = false →
  reservations db !! j = Some r2 →
  Reservation.room r2 = roomId →
  Reservation.reservationDate r2 = date →
  Reservation.active (Reservation.status r2) = true →
  excludeId ≠ Some j →
  overlaps startTime endTime r2 = false.
Proof.
  intros Hc Hj Hroom Hdate Ha Hex.
  destruct (overlaps startTime endTime r2) eqn:Hov; [|done].
  assert (checkBookingConflict db roomId date startTime endTime excludeId = true)
    as Ht; [|congruence].
  apply checkBookingConflict_true. exists j, r2.
  split; [done|]. split; [by apply conflictQuery_true|done].
Qed.

Lemma createReservation_noDoubleBooking userId body db :
  noDoubleBooking db → noDoubleBooking (createReservation userId body db).1.
Proof.
  intros Hno. unfold createReservation, saveReservation.
  repeat case_match; simpl; try done. simplify_eq.
  eapply noDoubleBooking_insert; [done|reflexivity|]. simpl.
  intros _ j r2 _ Hj Hroom Hdate Ha.
  by eapply checkBookingConflict_false.
Qed.

Lemma updateTimes_inr db id p r r1 :
  updateTimes db id p r = inr r1 →
  Reservation.room r1 = Reservation.room r ∧
  Reservation.reservationDate r1 = Reservation.reservationDate r ∧
  ((Js.truthy_str (Patch.startTime p) || Js.truthy_str (Patch.endTime p) = true
    ∧ checkBookingConflict db (Reservation.room r) (Reservation.reservationDate r)
        (Reservation.startTime r1) (Reservation.endTime r1) (Some id) = false)
   ∨ (Js.truthy_str (Patch.startTime p) || Js.truthy_str (Patch.endTime p) = false
      ∧ r1 = r)).
Proof.
  unfold updateTimes.
  destruct (Js.truthy_str (Patch.startTime p) || Js.truthy_str (Patch.endTime p));
    [|intros [= <-]; auto].
  destruct (checkBookingConflict _ _ _ _ _ _) eqn:Hc; [done|].
  intros [= <-]. rewrite <- !required_str_or in Hc.
  destruct (required_str (Patch.startTime p)), (required_str (Patch.endTime p));
    simpl; auto.
Qed.

Lemma updateNotesStatus_keeps p r :
  Reservation.room (updateNotesStatus p r) = Reservation.room r ∧
  Reservation.reservationDate (updateNotesStatus p r) = Reservation.reservationDate r ∧
  Reservation.startTime (updateNotesStatus p r) = Reservation.startTime r ∧
  Reservation.endTime (updateNotesStatus p r) = Reservation.endTime r.
Proof.
  unfold updateNotesStatus.
  destruct (required_str (Patch.notes p)), (Patch.status p) as [st|]; try done;
    destruct (String.eqb st "confirmed"), (String.eqb st "cancelled"); done.
Qed.

Lemma updateReservation_noDoubleBooking id userId role p db :
  noDoubleBooking db →
  checkedUpdate (UpdateReservation id userId role p) db →
  noDoubleBooking (updateReservation id userId role p db).1.
Proof.
  intros Hno Hsafe. unfold updateReservation.
  destruct (reservations db !! id) as [r0|] eqn:Hr0; [|done].
  destruct (unauthorized _ _ _); [done|].
  destruct (negb _ && negb _); [done|].
  destruct (updateTimes db id p r0) as [msg|r1] eqn:Ht; [done|].
  apply updateTimes_inr in Ht as (Hroom1 & Hdate1 & Htimes).
  assert (∀ r2, Reservation.room r2 = Reservation.room r1 →
            Reservation.reservationDate r2 = Reservation.reservationDate r1 →
            Reservation.startTime r2 = Reservation.startTime r1 →
            Reservation.endTime r2 = Reservation.endTime r1 →
            noDoubleBooking
              (match saveReservation id (updateNotesStatus p r2) db with
               | Some db' => (db', Success 200 (updateNotesStatus p r2))
               | None => (db, Failure InternalError "Error updating reservation")
               end).1) as Hsave.
  { intros r2 E1 E2 E3 E4. unfold saveReservation.
    destruct (Reservation.validate _); [|done]. simpl.
    destruct (updateNotesStatus_keeps p r2) as (K1 & K2 & K3 & K4).
    eapply noDoubleBooking_insert; [done|reflexivity|].
    rewrite K1, K2, K3, K4, E1, E2, E3, E4, Hroom1, Hdate1.
    intros _ j r3 Hj Hl Hr3 Hd3 Ha3.
    destruct Htimes as [[_ Hc]|[Hf ->]].
    - eapply checkBookingConflict_false; [done..|congruence].
    - destruct (Hsafe r0 Hr0) as [Ha0|Ht0]; [|congruence].
      destruct (overlaps _ _ r3) eqn:Hov; [|done].
      destruct (Hno id j). exists r0, r3. repeat split; done. }
  destruct (required_num (Patch.numberOfPeople p)) as [n|].
  - destruct (rooms db !! Reservation.room r1); [|done].
    destruct (_ <? _); [done|].
    by apply (Hsave (ReservationSet.numberOfPeople n r1)).
  - by apply Hsave.
Qed.

Lemma cancelReservation_noDoubleBooking id userId role reason now db :
  noDoubleBooking db → noDoubleBooking (cancelReservation id userId role reason now db).1.
Proof.
  intros Hno. unfold cancelReservation, saveReservation.
  repeat case_match; simpl; try done. simplify_eq.
  eapply noDoubleBooking_insert; [done|reflexivity|]. done.
Qed.

Lemma checkOut_noDoubleBooking userId id notes now db :
  noDoubleBooking db → noDoubleBooking (checkOut userId id notes now db).1.
Proof.
  intros Hno. unfold checkOut, saveRoom, saveReservation.
  repeat case_match; simpl; try done; simplify_eq;
    try (by eapply noDoubleBooking_same).
  eapply noDoubleBooking_insert; [done|reflexivity|]. done.
Qed.

(** Every request keeps the rooms free of double booking, but for the update
    that brings back a reservation without a conflict check. *)
Theorem noDoubleBooking_preserved now req db :
  noDoubleBooking db → checkedUpdate req db → noDoubleBooking (handle now req db).
Proof.
  intros Hno Hsafe. destruct req; simpl.
  - by apply createReservation_noDoubleBooking.
  - by apply updateReservation_noDoubleBooking.
  - by apply cancelReservation_noDoubleBooking.
  - eapply noDoubleBooking_same; [done|apply checkIn_reservations].
  - by apply checkOut_noDoubleBooking.
Qed.

(** A run of requests whose updates are all checked ones keeps the
    reservations free of pairs that the checker's own test, on the same
    stored date, calls overlapping. *)
Theorem run_noDoubleBooking reqs db :
  noDoubleBooking db → allChecked reqs db → noDoubleBooking (run reqs db).
Proof.
  revert db. induction reqs as [|[now req] rest IH]; intros db Hno Hall; [done|].
  destruct Hall as [Hreq Hrest]. simpl in *.
  apply IH; [by apply noDoubleBooking_preserved|done].
Qed.

Lemma noDoubleBooking_campus : noDoubleBooking Sample.campus.
Proof. intros i j (r1 & r2 & _ & H & _). simpl in H. by rewrite lookup_empty in H. Qed.

(** C1 does not hold of the code: user 1 books 14:00-16:00 and cancels, user
    2 books the same slot, and user 1 sets the cancelled reservation back to
    'confirmed' through the update route, which runs no conflict check when
    the patch carries no time.  Reservations 0 and 1 are then both active in
    room 7 on the same date with the same interval. *)
Theorem double_booking_after_reconfirm :
  noDoubleBooking Sample.campus
  ∧ run [(1000, CreateReservation 1 (Sample.booking "14:00" "16:00"));
         (2000, CancelReservation 0 1 "student" None);
         (3000, CreateReservation 2 (Sample.booking "14:00" "16:00"));
         (4000, UpdateReservation 0 1 "student" Sample.confirm)] Sample.campus
    = Sample.reconfirmed
  ∧ doubleBooked Sample.reconfirmed 0 1
  ∧ ¬ noDoubleBooking Sample.reconfirmed.
Proof.
  split; [apply noDoubleBooking_campus|]. split; [reflexivity|].
  assert (doubleBooked Sample.reconfirmed 0 1) as H.
  { eexists _, _. split; [done|].
    split; [vm_compute; reflexivity|]. split; [vm_compute; reflexivity|].
    repeat split. }
  split; [exact H|]. intros Hno. exact (Hno _ _ H).
Qed.

(** * More properties of the routes *)

(** ** Times and double booking *)

Lemma overlaps_minutes_witness :
  ∃ s1 e1 s2 e2,
    (0 <= s1 < 6000 ∧ 0 <= e1 < 6000 ∧ 0 <= s2 < 6000 ∧ 0 <= e2 < 6000) ∧
    minutes "15:00" = Js.of_Z s1 ∧ minutes "17:00" = Js.of_Z e1 ∧
    minutes "14:00" = Js.of_Z s2 ∧ minutes "16:00" = Js.of_Z e2 ∧
    (overlaps "15:00" "17:00" Scenario.afternoon = true ↔ s2 < e1 ∧ s1 < e2).
Proof.
  apply (overlaps_minutes "15:00" "17:00" Scenario.afternoon).
  - apply (wellFormed_clock 1 5 0 0); lia.
  - apply (wellFormed_clock 1 7 0 0); lia.
  - apply (wellFormed_clock 1 4 0 0); lia.
  - apply (wellFormed_clock 1 6 0 0); lia.
Defined.

(** ** Errors write nothing *)

Lemma handle_answer_create userId body db code message :
  failure (createReservation userId body db).2 = Some (code, message) →
  (createReservation userId body db).1 = db.
Proof.
  unfold createReservation, saveReservation.
  repeat case_match; simpl; try done.
Qed.

Lemma handle_answer_update id userId role p db code message :
  failure (updateReservation id userId role p db).2 = Some (code, message) →
  (updateReservation id userId role p db).1 = db.
Proof.
  unfold updateReservation, saveReservation.
  repeat case_match; simpl; try done.
Qed.

Lemma handle_answer_cancel id userId role reason now db code message :
  failure (cancelReservation id userId role reason now db).2 = Some (code, message) →
  (cancelReservation id userId role reason now db).1 = db.
Proof.
  unfold cancelReservation, saveReservation.
  repeat case_match; simpl; try done.
Qed.

Lemma handle_answer_checkIn userId body now db code message :
  failure (checkIn userId body now db).2 = Some (code, message) →
  code ≠ InternalError →
  (checkIn userId body now db).1 = db.
Proof.
  unfold checkIn.
  repeat case_match; simpl; try done; intros [= <- <-]; done.
Qed.

Lemma handle_answer_checkOut userId id notes now db code message :
  failure (checkOut userId id notes now db).2 = Some (code, message) →
  code ≠ InternalError →
  (checkOut userId id notes now db).1 = db.
Proof.
  unfold checkOut.
  repeat case_match; simpl; try done; intros [= <- <-]; done.
Qed.

(** X3: A request answered with an error other than 500 has written nothing:
    every 400, 403, 404 and 409 of the five routes is sent before the first
    save. *)
Theorem client_errors_write_nothing now req db code message :
  answer now req db = Some (code, message) →
  code ≠ InternalError →
  handle now req db = db.
Proof.
  destruct req; simpl; intros H Hc.
  - by eapply handle_answer_create.
  - by eapply handle_answer_update.
  - by eapply handle_answer_cancel.
  - by eapply handle_answer_checkIn.
  - by eapply handle_answer_checkOut.
Qed.

Lemma client_errors_write_nothing_witness :
  handle 6000 (CheckIn 1 (Sample.arrival 0)) Sample.checkedIn = Sample.checkedIn.
Proof.
  apply (client_errors_write_nothing 6000 (CheckIn 1 (Sample.arrival 0)) Sample.checkedIn
           400 "Already checked in for this reservation").
  - vm_compute. reflexivity.
  - discriminate.
Defined.

(** ** What a created reservation is *)

Lemma required_str_inv x s : required_str x = Some s → x = Some s ∧ s ≠ "".
Proof.
  unfold required_str, Js.truthy_str. destruct x as [t|]; [|done].
  destruct (String.eqb_spec t ""); simpl; [done|]. by intros [= ->].
Qed.

Lemma required_num_inv x n : required_num x = Some n → x = Some n ∧ n ≠ 0.
Proof.
  unfold required_num, Js.truthy_num. destruct x as [m|]; [|done].
  destruct (Z.eqb_spec m 0); simpl; [done|]. by intros [= ->].
Qed.

Lemma purposes_nonempty p : p ∈ Reservation.purposes → p ≠ "".
Proof.
  unfold Reservation.purposes. intros H ->.
  repeat (apply elem_of_cons in H as [H|H]; [discriminate|]).
  by apply elem_of_nil in H.
Qed.

(** X4: The create route answers 201 exactly when the body has every field, the
    room and the building exist, the head count is between 1 and the
    capacity, the purpose is one of the schema's, the duration the route
    computes from the two times is a number above 0 and the checker finds no
    conflict; the reservation is then stored as pending under a new id, with
    that duration, and nothing else is written.  That the room is in the
    building is not among the conditions, nor that the times are written
    HH:MM: the duration is what [Number] reads from the pieces around the
    colons. *)
Theorem createReservation_succeeds_iff userId body db db' code id r :
  createReservation userId body db = (db', Success code (id, r)) ↔
  ∃ roomData,
    CreateBody.room body = Some (Reservation.room r) ∧
    CreateBody.building body = Some (Reservation.building r) ∧
    CreateBody.reservationDate body = Some (Reservation.reservationDate r) ∧
    CreateBody.startTime body = Some (Reservation.startTime r) ∧
    CreateBody.endTime body = Some (Reservation.endTime r) ∧
    CreateBody.purpose body = Some (Reservation.purpose r) ∧
    CreateBody.numberOfPeople body = Some (Reservation.numberOfPeople r) ∧
    rooms db !! Reservation.room r = Some roomData ∧
    Reservation.building r ∈ buildings db ∧
    1 <= Reservation.numberOfPeople r <= Room.capacity roomData ∧
    Reservation.purpose r ∈ Reservation.purposes ∧
    durationOf (Reservation.startTime r) (Reservation.endTime r)
      = Reservation.duration r ∧
    Js.num_lt (Js.of_Z 0) (Reservation.duration r) = true ∧
    checkBookingConflict db (Reservation.room r) (Reservation.reservationDate r)
      (Reservation.startTime r) (Reservation.endTime r) None = false ∧
    Reservation.user r = userId ∧
    Reservation.status r = Reservation.pending ∧
    Reservation.cancelReason r = None ∧
    Reservation.cancelledAt r = None ∧
    Reservation.cancelledBy r = None ∧
    Reservation.notes r = Js.trim <$> CreateBody.notes body ∧
    Reservation.checkInTime r = None ∧
    Reservation.checkOutTime r = None ∧
    code = 201 ∧
    id = newId (reservations db) ∧
    db' = mkDb (<[id := r]> (reservations db)) (signIns db) (rooms db) (buildings db).
Proof.
  split.
  - unfold createReservation. intros H.
    destruct (CreateBody.room body) as [room|]; [|done].
    destruct (CreateBody.building body) as [building|]; [|done].
    destruct (CreateBody.reservationDate body) as [date|]; [|done].
    destruct (required_str (CreateBody.startTime body)) as [s|] eqn:Hs; [|done].
    destruct (required_str (CreateBody.endTime body)) as [e|] eqn:He; [|done].
    destruct (required_str (CreateBody.purpose body)) as [pu|] eqn:Hp; [|done].
    destruct (required_num (CreateBody.numberOfPeople body)) as [n|] eqn:Hn; [|done].
    apply required_str_inv in Hs as [Hs _], He as [He _], Hp as [Hp _].
    apply required_num_inv in Hn as [Hn _].
    destruct (rooms db !! room) as [roomData|] eqn:Hroom; [|done].
    destruct (bool_decide (building ∈ buildings db)) eqn:Hb; [|done]. simpl in H.
    apply bool_decide_eq_true in Hb.
    destruct (Z.ltb_spec (Room.capacity roomData) n); [done|].
    destruct (checkBookingConflict _ _ _ _ _ _) eqn:Hc; [done|].
    destruct (Js.num_le (durationOf s e) (Js.of_Z 0)) eqn:Hle; [done|].
    destruct (Js.isNaN (durationOf s e)) eqn:Hnan; [done|].
    pose proof (proj1 (num_le_0 _) (conj Hle Hnan)) as Hpos.
    unfold saveReservation in H.
    destruct (Reservation.validate _) eqn:Hv; [|done].
    apply validate_true in Hv as (_ & _ & Hpu & Hn1).
    injection H as <- <- <- <-. simpl in *.
    exists roomData. repeat split; (done || lia).
  - intros (roomData & Hroom & Hb & Hdate & Hs & He & Hp & Hn & HroomData & Hbuilding
            & [Hn1 Hcap] & Hpu & Hd & Hpos & Hc & Hu & Hst & Hcr & Hca & Hcb & Hno
            & Hci & Hco & -> & -> & ->).
    rewrite <- Hd in Hpos. apply num_le_0 in Hpos as [Hle Hnan].
    destruct (durationOf_nonempty _ _ Hnan) as [Hs0 He0].
    unfold createReservation. rewrite Hroom, Hb, Hdate, Hs, He, Hp, Hn.
    rewrite !required_str_Some, required_num_Some by (auto using purposes_nonempty; lia).
    rewrite HroomData, (bool_decide_eq_true_2 _ Hbuilding). simpl.
    destruct (Z.ltb_spec (Room.capacity roomData) (Reservation.numberOfPeople r));
      [lia|].
    rewrite Hc. cbv zeta. rewrite Hle, Hnan, Hd.
    assert (Reservation.mk userId (Reservation.room r) (Reservation.building r)
              (Reservation.reservationDate r) (Reservation.startTime r)
              (Reservation.endTime r) (Reservation.duration r) (Reservation.purpose r)
              (Reservation.numberOfPeople r) Reservation.pending None None None
              (Js.trim <$> CreateBody.notes body) None None = r) as ->.
    { destruct r. simpl in *. by subst. }
    rewrite saveReservation_valid; [done|]. by apply validate_true.
Qed.

Lemma createReservation_succeeds_iff_witness :
  createReservation 1 (Sample.booking "14:00" "16:00") Sample.campus
  = (mkDb (<[0%nat := Scenario.afternoon]> (reservations Sample.campus))
       (signIns Sample.campus) (rooms Sample.campus) (buildings Sample.campus),
     Success 201 (0%nat, Scenario.afternoon)).
Proof.
  apply createReservation_succeeds_iff. exists Sample.room7.
  repeat split;
    first [ reflexivity
          | vm_compute; discriminate
          | by apply (bool_decide_eq_true_1 (3%nat ∈ buildings Sample.campus))
          | apply elem_of_cons; by left ].
Defined.

(** ** What a check-in needs *)

Lemma findOne_None_iff {A} (q : nat → A → bool) (m : gmap nat A) :
  findOne q m = None ↔ ∀ id d, m !! id = Some d → q id d = false.
Proof.
  split; [apply findOne_None|]. intros Hall.
  destruct (findOne q m) as [[id d]|] eqn:Hf; [|done].
  unfold findOne in Hf. apply head_Some_elem_of, elem_of_find in Hf as [Hm Hq].
  rewrite (Hall id d Hm) in Hq. done.
Qed.

Lemma num_or_0 n : Js.num_or n 0 = n.
Proof. unfold Js.num_or. by destruct (Z.eqb_spec n 0). Qed.

(** X5: The check-in route answers 201 exactly when the body has the three ids,
    the reservation exists, belongs to the caller and is pending or
    confirmed, no sign-in of it is active, and the room of the body exists
    and passes its validators with one more in; it then adds an active
    sign-in and raises the occupancy of that room by one.  The capacity is
    not compared with the occupancy, nor the room of the body with the room
    of the reservation. *)
Theorem checkIn_succeeds_iff userId body now db db' code data :
  checkIn userId body now db = (db', Success code data) ↔
  ∃ rid room building r roomData,
    CheckInBody.reservation body = Some rid ∧
    CheckInBody.room body = Some room ∧
    CheckInBody.building body = Some building ∧
    reservations db !! rid = Some r ∧
    Reservation.user r = userId ∧
    Reservation.active (Reservation.status r) = true ∧
    (∀ sid s, signIns db !! sid = Some s → SignIn.reservation s = rid →
              SignIn.status s ≠ SignIn.active) ∧
    rooms db !! room = Some roomData ∧
    1 <= Room.capacity roomData ∧
    -1 <= Room.currentOccupancy roomData ∧
    code = 201 ∧
    data = CheckInData.mk (newId (signIns db)) now (Room.currentOccupancy roomData + 1) ∧
    db' = mkDb (reservations db)
            (<[newId (signIns db) :=
                 SignIn.mk userId rid room building now None None
                   (Js.trim (Js.str_or (CheckInBody.notes body) "")) SignIn.active]>
               (signIns db))
            (<[room := Room.pre_save now
                         (setOccupancy (Room.currentOccupancy roomData + 1) roomData)]>
               (rooms db))
            (buildings db).
Proof.
  split.
  - intros H. apply checkIn_Success in H
      as (rid & room & building & r & roomData & H1 & H2 & H3 & H4 & H5 & H6 & H7
          & H8 & H9 & H10 & -> & -> & ->).
    rewrite num_or_0 in *.
    exists rid, room, building, r, roomData. repeat split; try (done || lia).
    intros sid s Hs Hres Hact.
    pose proof (findOne_None _ _ H7 sid s Hs) as Hq. unfold activeSignInQuery in Hq.
    by rewrite !bool_decide_eq_true_2 in Hq.
  - intros (rid & room & building & r & roomData & H1 & H2 & H3 & H4 & H5 & H6 & H7
            & H8 & H9 & H10 & -> & -> & ->).
    unfold checkIn. rewrite H1, H2, H3, H4, (bool_decide_eq_true_2 _ H5), H6. simpl.
    assert (findOne (activeSignInQuery rid) (signIns db) = None) as ->.
    { apply findOne_None_iff. intros sid s Hs. unfold activeSignInQuery.
      destruct (decide (SignIn.reservation s = rid)) as [Hr|Hr].
      - rewrite (bool_decide_eq_true_2 _ Hr), (bool_decide_eq_false_2 _ (H7 sid s Hs Hr)).
        done.
      - by rewrite (bool_decide_eq_false_2 _ Hr). }
    simpl. rewrite H8, num_or_0. rewrite saveRoom_valid; [done|].
    unfold Room.validate. simpl.
    apply andb_true_iff. split; apply Z.leb_le; lia.
Qed.

(** User 1, whose reservation is for room 7, checks in to room 8, which has
    one seat and one person in. *)
Lemma checkIn_succeeds_iff_witness :
  ∃ db',
    checkIn 1 (CheckInBody.mk (Some 0%nat) (Some 8%nat) (Some 3%nat) None) 5000
      Scenario.twoRooms
    = (db', Success 201 (CheckInData.mk 0 5000 2)).
Proof.
  eexists. apply checkIn_succeeds_iff.
  exists 0%nat, 8%nat, 3%nat, Scenario.afternoon, Scenario.room8.
  repeat split; first [reflexivity | vm_compute; discriminate].
Defined.

(** ** What an update leaves alone *)

Lemma sameBooking_refl r : sameBooking r r.
Proof. by repeat split. Qed.

Lemma updateTimes_sameBooking db id p r r1 :
  updateTimes db id p r = inr r1 → sameBooking r r1.
Proof.
  unfold updateTimes. intros H.
  destruct (_ || _); [|injection H as <-; apply sameBooking_refl].
  destruct (checkBookingConflict _ _ _ _ _ _); [done|]. injection H as <-.
  destruct (required_str (Patch.startTime p)), (required_str (Patch.endTime p));
    by repeat split.
Qed.

Lemma updateNotesStatus_sameBooking p r r1 :
  sameBooking r r1 → sameBooking r (updateNotesStatus p r1).
Proof.
  intros H. unfold updateNotesStatus.
  destruct (required_str (Patch.notes p)), (Patch.status p) as [st|]; try done;
    destruct (String.eqb st "confirmed"), (String.eqb st "cancelled"); done.
Qed.

(** X6: The update route writes at most the reservation it is asked for, leaves
    the sign-ins, rooms and buildings alone, and never changes a
    reservation's owner, room, building, date, purpose, cancellation or
    check-in stamps, nor its stored duration: moving the times does not
    recompute it. *)
Theorem updateReservation_frame id userId role p db :
  signIns (updateReservation id userId role p db).1 = signIns db
  ∧ rooms (updateReservation id userId role p db).1 = rooms db
  ∧ buildings (updateReservation id userId role p db).1 = buildings db
  ∧ (∀ j, j ≠ id →
       reservations (updateReservation id userId role p db).1 !! j
       = reservations db !! j)
  ∧ (reservations db !! id = None → (updateReservation id userId role p db).1 = db)
  ∧ (∀ r, reservations db !! id = Some r →
       ∃ r', reservations (updateReservation id userId role p db).1 !! id = Some r'
             ∧ sameBooking r r').
Proof.
  unfold updateReservation.
  destruct (reservations db !! id) as [r0|] eqn:Hr0; [|by repeat split].
  assert (∀ resp : Response Reservation.t,
            signIns (db, resp).1 = signIns db ∧ rooms (db, resp).1 = rooms db
            ∧ buildings (db, resp).1 = buildings db
            ∧ (∀ j, j ≠ id → reservations (db, resp).1 !! j = reservations db !! j)
            ∧ (Some r0 = None → (db, resp).1 = db)
            ∧ (∀ r, Some r0 = Some r →
                 ∃ r', reservations (db, resp).1 !! id = Some r' ∧ sameBooking r r'))
    as Hsame.
  { intros resp. repeat split; try done. intros r [= <-]. exists r0.
    split; [done|apply sameBooking_refl]. }
  destruct (unauthorized _ _ _); [apply Hsame|].
  destruct (negb _ && negb _); [apply Hsame|].
  destruct (updateTimes db id p r0) as [msg|r1] eqn:Ht; [apply Hsame|].
  apply updateTimes_sameBooking in Ht.
  assert (∀ r2, sameBooking r0 r2 →
            let out := match saveReservation id (updateNotesStatus p r2) db with
                       | Some db' => (db', Success 200 (updateNotesStatus p r2))
                       | None => (db, Failure InternalError "Error updating reservation")
                       end in
            signIns out.1 = signIns db ∧ rooms out.1 = rooms db
            ∧ buildings out.1 = buildings db
            ∧ (∀ j, j ≠ id → reservations out.1 !! j = reservations db !! j)
            ∧ (Some r0 = None → out.1 = db)
            ∧ (∀ r, Some r0 = Some r →
                 ∃ r', reservations out.1 !! id = Some r' ∧ sameBooking r r'))
    as Hsave.
  { intros r2 H2. unfold saveReservation.
    destruct (Reservation.validate _); [|apply Hsame]. simpl.
    repeat split; try done.
    - intros j Hj. by rewrite lookup_insert_ne.
    - intros r [= <-]. eexists. split; [apply lookup_insert_eq|].
      by apply updateNotesStatus_sameBooking. }
  destruct (required_num (Patch.numberOfPeople p)) as [n|].
  - destruct (rooms db !! Reservation.room r1); [|apply Hsame].
    destruct (_ <? _); [apply Hsame|].
    apply (Hsave (ReservationSet.numberOfPeople n r1)). exact Ht.
  - by apply Hsave.
Qed.

(** ** One active sign-in per reservation *)

Lemma oneActiveSignIn_same db db' :
  oneActiveSignIn db → signIns db' = signIns db → oneActiveSignIn db'.
Proof. intros H E i j s1 s2. rewrite E. apply H. Qed.

Lemma oneActiveSignIn_insert db db' k s :
  oneActiveSignIn db →
  signIns db' = <[k := s]> (signIns db) →
  (SignIn.status s = SignIn.active →
   ∀ j s2, j ≠ k → signIns db !! j = Some s2 →
           SignIn.reservation s2 = SignIn.reservation s →
           SignIn.status s2 ≠ SignIn.active) →
  oneActiveSignIn db'.
Proof.
  intros Hone E Hs i j s1 s2 H1 H2 Hres Ha1 Ha2. rewrite E in H1, H2.
  destruct (decide (i = k)) as [->|Hi], (decide (j = k)) as [->|Hj]; [done|..].
  - rewrite lookup_insert_eq in H1. rewrite lookup_insert_ne in H2 by done.
    simplify_eq. destruct (Hs Ha1 j s2); done.
  - rewrite lookup_insert_eq in H2. rewrite lookup_insert_ne in H1 by done.
    simplify_eq. destruct (Hs Ha2 i s1); done.
  - rewrite lookup_insert_ne in H1, H2 by done. by eapply Hone.
Qed.

Lemma createReservation_signIns userId body db :
  signIns (createReservation userId body db).1 = signIns db
  ∧ rooms (createReservation userId body db).1 = rooms db.
Proof.
  unfold createReservation, saveReservation. repeat case_match; simpl; try done.
  by simplify_eq.
Qed.

Lemma updateReservation_signIns id userId role p db :
  signIns (updateReservation id userId role p db).1 = signIns db
  ∧ rooms (updateReservation id userId role p db).1 = rooms db.
Proof.
  unfold updateReservation, saveReservation. repeat case_match; simpl; try done;
    by simplify_eq.
Qed.

Lemma cancelReservation_signIns id userId role reason now db :
  signIns (cancelReservation id userId role reason now db).1 = signIns db
  ∧ rooms (cancelReservation id userId role reason now db).1 = rooms db.
Proof.
  unfold cancelReservation, saveReservation. repeat case_match; simpl; try done.
  by simplify_eq.
Qed.

Lemma checkIn_oneActiveSignIn userId body now db :
  oneActiveSignIn db → oneActiveSignIn (checkIn userId body now db).1.
Proof.
  intros Hone. unfold checkIn.
  destruct (CheckInBody.reservation body) as [rid|]; [|done].
  destruct (CheckInBody.room body) as [room|]; [|done].
  destruct (CheckInBody.building body) as [building|]; [|done].
  destruct (reservations db !! rid); [|done].
  destruct (negb (bool_decide _)); [done|].
  destruct (negb (Reservation.active _)); [done|].
  destruct (findOne _ _) eqn:Hf; [done|].
  assert (oneActiveSignIn
            (saveSignIn (newId (signIns db))
               (SignIn.mk userId rid room building now None None
                  (Js.trim (Js.str_or (CheckInBody.notes body) "")) SignIn.active) db))
    as Hone1.
  { eapply oneActiveSignIn_insert; [done|reflexivity|]. simpl.
    intros _ j s2 _ Hj Hres Hact.
    pose proof (findOne_None _ _ Hf j s2 Hj) as Hq. unfold activeSignInQuery in Hq.
    by rewrite !bool_decide_eq_true_2 in Hq. }
  simpl. destruct (rooms db !! room); [|done].
  destruct (saveRoom _ _ _ _) as [db2|] eqn:Hsave; [|done].
  unfold saveRoom in Hsave. destruct (Room.validate _); [|done].
  injection Hsave as <-. by eapply oneActiveSignIn_same.
Qed.

Lemma checkOut_signIns userId id notes now db :
  signIns (checkOut userId id notes now db).1 = signIns db
  ∨ ∃ s, signIns db !! id = Some s ∧ SignIn.status s = SignIn.active
         ∧ signIns (checkOut userId id notes now db).1
           = <[id := SignIn.pre_save (signOut now notes s)]> (signIns db).
Proof.
  unfold checkOut.
  destruct (signIns db !! id) as [s|] eqn:Hs; [|by left].
  destruct (negb (bool_decide (SignIn.user s = userId))); [by left|].
  destruct (bool_decide (SignIn.status s = SignIn.active)) eqn:Ha; [|by left].
  apply bool_decide_eq_true in Ha. right. exists s. split; [done|]. split; [done|].
  simpl. destruct (rooms db !! SignIn.room s); [|done].
  destruct (saveRoom _ _ _ _) as [db2|] eqn:Hsave; [|done].
  unfold saveRoom in Hsave. destruct (Room.validate _); [|done].
  injection Hsave as <-. simpl.
  destruct (reservations db !! SignIn.reservation s); [|done].
  unfold saveReservation. by destruct (Reservation.validate _).
Qed.

(** X7: The five routes keep at most one active sign-in per reservation: a
    check-in adds one only when the reservation has none, and a check-out
    only closes one. *)
Theorem handle_oneActiveSignIn now req db :
  oneActiveSignIn db → oneActiveSignIn (handle now req db).
Proof.
  intros Hone. destruct req as [u b|i u ro p|i u ro re|u b|u i n]; simpl.
  - eapply oneActiveSignIn_same; [done|apply createReservation_signIns].
  - eapply oneActiveSignIn_same; [done|apply updateReservation_signIns].
  - eapply oneActiveSignIn_same; [done|apply cancelReservation_signIns].
  - by apply checkIn_oneActiveSignIn.
  - destruct (checkOut_signIns u i n now db) as [E|(s & Hs & Ha & E)].
    + by eapply oneActiveSignIn_same.
    + eapply oneActiveSignIn_insert; [done|exact E|]. done.
Qed.

Lemma handle_oneActiveSignIn_witness :
  oneActiveSignIn (handle 5000 (CheckIn 1 (Sample.arrival 0)) Sample.booked).
Proof.
  apply handle_oneActiveSignIn.
  intros i j s1 s2 H. vm_compute in H. discriminate.
Defined.

(** ** The occupancy counter and the active sign-ins *)

Lemma find_insert_new_length {A} (q : nat → A → bool) (m : gmap nat A) k x :
  m !! k = None →
  length (find q (<[k := x]> m))
  = (length (find q m) + (if q k x then 1 else 0))%nat.
Proof.
  intros Hk. unfold find. rewrite (map_to_list_insert m k x Hk).
  rewrite filter_cons. destruct (decide _) as [Hq|Hq]; simpl in Hq.
  - rewrite Hq. simpl. lia.
  - apply not_true_is_false in Hq. rewrite Hq. lia.
Qed.

Lemma find_insert_length {A} (q : nat → A → bool) (m : gmap nat A) k x y :
  m !! k = Some y →
  (length (find q (<[k := x]> m)) + (if q k y then 1 else 0)
   = length (find q m) + (if q k x then 1 else 0))%nat.
Proof.
  intros Hk.
  rewrite <- (insert_delete_eq m k x).
  rewrite <- (insert_delete_id m k y Hk) at 2.
  rewrite !find_insert_new_length by apply lookup_delete_eq. lia.
Qed.

Lemma occupancyTracked_same db db' :
  occupancyTracked db → signIns db' = signIns db → rooms db' = rooms db →
  occupancyTracked db'.
Proof. intros H E1 E2 id room. rewrite E1, E2. apply H. Qed.

Lemma checkIn_occupancyTracked userId body now db :
  occupancyTracked db → occupancyTracked (checkIn userId body now db).1.
Proof.
  intros Htr. unfold checkIn.
  destruct (CheckInBody.reservation body) as [rid|]; [|done].
  destruct (CheckInBody.room body) as [room|]; [|done].
  destruct (CheckInBody.building body) as [building|]; [|done].
  destruct (reservations db !! rid); [|done].
  destruct (negb (bool_decide _)); [done|].
  destruct (negb (Reservation.active _)); [done|].
  destruct (findOne _ _); [done|]. simpl.
  set (s := SignIn.mk userId rid room building now None None _ SignIn.active).
  assert (∀ id, length (find (activeInRoomQuery id) (<[newId (signIns db) := s]> (signIns db)))
                = (length (find (activeInRoomQuery id) (signIns db))
                   + (if decide (id = room) then 1 else 0))%nat) as Hcount.
  { intros id. rewrite find_insert_new_length by apply newId_fresh.
    unfold activeInRoomQuery. simpl.
    destruct (decide (id = room)) as [->|Hne].
    - by rewrite !bool_decide_eq_true_2.
    - rewrite bool_decide_eq_false_2; [done|congruence]. }
  destruct (rooms db !! room) as [roomData|] eqn:Hroom.
  - destruct (Htr room roomData Hroom) as [Hv Hocc].
    unfold Room.validate in Hv. apply andb_true_iff in Hv as [Hcap Hpos].
    apply Z.leb_le in Hpos.
    rewrite saveRoom_valid.
    + simpl. intros id r Hr. simpl in Hr. rewrite Hcount.
      destruct (decide (id = room)) as [->|Hne].
      * rewrite lookup_insert_eq in Hr. injection Hr as <-. simpl.
        rewrite num_or_0, Hocc. split; [|lia].
        unfold Room.validate. simpl. rewrite Hcap. simpl. apply Z.leb_le. lia.
      * rewrite lookup_insert_ne in Hr by done.
        destruct (Htr id r Hr) as [? ->]. split; [done|lia].
    + unfold Room.validate. simpl. rewrite Hcap, num_or_0. simpl. apply Z.leb_le. lia.
  - simpl. intros id r Hr. simpl in Hr. rewrite Hcount.
    destruct (decide (id = room)) as [->|Hne]; [congruence|].
    destruct (Htr id r Hr) as [? ->]. split; [done|lia].
Qed.

Lemma checkOut_occupancyTracked userId id notes now db :
  occupancyTracked db → occupancyTracked (checkOut userId id notes now db).1.
Proof.
  intros Htr. unfold checkOut.
  destruct (signIns db !! id) as [s|] eqn:Hs; [|done].
  destruct (negb (bool_decide (SignIn.user s = userId))); [done|].
  destruct (bool_decide (SignIn.status s = SignIn.active)) eqn:Ha; [|done].
  apply bool_decide_eq_true in Ha. simpl.
  assert (∀ rm, (length (find (activeInRoomQuery rm)
                           (<[id := SignIn.pre_save (signOut now notes s)]> (signIns db)))
                 + (if decide (rm = SignIn.room s) then 1 else 0)
                 = length (find (activeInRoomQuery rm) (signIns db)))%nat) as Hcount.
  { intros rm.
    pose proof (find_insert_length (activeInRoomQuery rm) (signIns db) id
                  (SignIn.pre_save (signOut now notes s)) s Hs) as H.
    assert (activeInRoomQuery rm id s = bool_decide (SignIn.room s = rm)) as E1.
    { unfold activeInRoomQuery. by rewrite (bool_decide_eq_true_2 _ Ha), andb_true_r. }
    assert (activeInRoomQuery rm id (SignIn.pre_save (signOut now notes s)) = false)
      as E2.
    { unfold activeInRoomQuery.
      change (SignIn.status (SignIn.pre_save (signOut now notes s)))
        with SignIn.completed.
      apply andb_false_r. }
    rewrite E1, E2 in H.
    destruct (decide (rm = SignIn.room s)) as [->|Hne].
    - rewrite bool_decide_eq_true_2 in H by done. lia.
    - rewrite bool_decide_eq_false_2 in H by congruence. lia. }
  assert (occupancyTracked
            (mkDb (reservations db)
               (<[id := SignIn.pre_save (signOut now notes s)]> (signIns db))
               (rooms db) (buildings db))
          ∨ is_Some (rooms db !! SignIn.room s)) as Hnone.
  { destruct (rooms db !! SignIn.room s) eqn:Hroom; [right; by eexists|left].
    intros rm r Hr. simpl in *. specialize (Hcount rm).
    destruct (decide (rm = SignIn.room s)) as [->|Hne]; [congruence|].
    destruct (Htr rm r Hr) as [? ->]. split; [done|lia]. }
  destruct (rooms db !! SignIn.room s) as [room0|] eqn:Hroom.
  - destruct (Htr _ room0 Hroom) as [Hv Hocc].
    unfold Room.validate in Hv. apply andb_true_iff in Hv as [Hcap Hpos].
    pose proof (Hcount (SignIn.room s)) as Hc. rewrite decide_True in Hc by done.
    assert (Z.max 0 (Js.num_or (Room.currentOccupancy room0) 1 - 1)
            = Room.currentOccupancy room0 - 1) as Hdec.
    { unfold Js.num_or. destruct (Z.eqb_spec (Room.currentOccupancy room0) 0); lia. }
    rewrite saveRoom_valid.
    + assert (occupancyTracked
                (mkDb (reservations db)
                   (<[id := SignIn.pre_save (signOut now notes s)]> (signIns db))
                   (<[SignIn.room s :=
                        Room.pre_save now
                          (setOccupancy
                             (Z.max 0 (Js.num_or (Room.currentOccupancy room0) 1 - 1))
                             room0)]> (rooms db))
                   (buildings db))) as Htr2.
      { intros rm r Hr. simpl in *. specialize (Hcount rm).
        destruct (decide (rm = SignIn.room s)) as [->|Hne].
        - rewrite lookup_insert_eq in Hr. injection Hr as <-. simpl.
          rewrite Hdec. split; [|lia].
          unfold Room.validate. simpl. rewrite Hcap. simpl. apply Z.leb_le. lia.
        - rewrite lookup_insert_ne in Hr by done.
          destruct (Htr rm r Hr) as [? ->]. split; [done|lia]. }
      simpl. destruct (reservations db !! SignIn.reservation s); [|done].
      unfold saveReservation. destruct (Reservation.validate _); [|done].
      by eapply occupancyTracked_same.
    + unfold Room.validate. simpl. rewrite Hcap. simpl. apply Z.leb_le. lia.
  - by destruct Hnone as [?|[? ?]].
Qed.

(** X8: When every room passes its validators and its occupancy is the number of
    active sign-ins in it, which is what the sign-in routes report as
    [currentOccupancy] and [count], each of the five routes leaves it so: a
    check-in and a check-out move the counter with the sign-ins, and their
    room saves cannot fail. *)
Theorem handle_occupancyTracked now req db :
  occupancyTracked db → occupancyTracked (handle now req db).
Proof.
  intros Htr. destruct req as [u b|i u ro p|i u ro re|u b|u i n]; simpl.
  - eapply occupancyTracked_same; [done|apply createReservation_signIns..].
  - eapply occupancyTracked_same; [done|apply updateReservation_signIns..].
  - eapply occupancyTracked_same; [done|apply cancelReservation_signIns..].
  - by apply checkIn_occupancyTracked.
  - by apply checkOut_occupancyTracked.
Qed.

Lemma occupancyTracked_campus : occupancyTracked Sample.booked.
Proof.
  intros id room Hr.
  assert (rooms Sample.booked = {[7%nat := Sample.room7]}) as E
    by (vm_compute; reflexivity).
  rewrite E in Hr. apply lookup_singleton_Some in Hr as [<- <-].
  split; vm_compute; reflexivity.
Qed.

Lemma handle_occupancyTracked_witness :
  roomOccupancy 7 (handle 5000 (CheckIn 1 (Sample.arrival 0)) Sample.booked)
  = Success 200
      (RoomOccupancy.mk 7 1 4 Room.occupied
         (find (activeInRoomQuery 7)
            (signIns (handle 5000 (CheckIn 1 (Sample.arrival 0)) Sample.booked))) 1)
  ∧ occupancyTracked (handle 5000 (CheckIn 1 (Sample.arrival 0)) Sample.booked).
Proof.
  split; [vm_compute; reflexivity|].
  apply handle_occupancyTracked, occupancyTracked_campus.
Defined.

(** ** After a check-out *)

(** X12: A second check-out of a sign-in is refused with 400 and writes nothing:
    the occupancy is taken down once. *)
Theorem checkOut_twice userId id notes1 notes2 now1 now2 db db1 code data :
  checkOut userId id notes1 now1 db = (db1, Success code data) →
  checkOut userId id notes2 now2 db1
  = (db1, Failure ValidationError "Check-in is not active").
Proof.
  intros H. apply checkOut_Success in H
    as (s & room0 & Hs & Hu & _ & _ & _ & _ & Hsign & _ & _).
  unfold checkOut. rewrite Hsign, lookup_insert_eq.
  change (SignIn.user (SignIn.pre_save (signOut now1 notes1 s))) with (SignIn.user s).
  rewrite (bool_decide_eq_true_2 _ Hu). simpl. done.
Qed.

Lemma checkOut_twice_witness :
  checkOut 1 0 None 200000 Scenario.checkedOut
  = (Scenario.checkedOut, Failure ValidationError "Check-in is not active").
Proof.
  apply (checkOut_twice 1 0 None None 155000 200000 Sample.checkedIn Scenario.checkedOut
           200 (CheckOutData.mk 0 (Some 155000) (Some 3) 0)).
  vm_compute. reflexivity.
Defined.

(** X13: Once a check-out has completed a reservation, its owner cannot check in
    for it again: the check-in is refused with 400 and writes nothing. *)
Theorem checkIn_after_checkOut userId id notes now db db1 code data s r body now' :
  checkOut userId id notes now db = (db1, Success code data) →
  signIns db !! id = Some s →
  reservations db !! SignIn.reservation s = Some r →
  CheckInBody.reservation body = Some (SignIn.reservation s) →
  is_Some (CheckInBody.room body) →
  is_Some (CheckInBody.building body) →
  checkIn (Reservation.user r) body now' db1
  = (db1, Failure ValidationError
            "Can only check in for pending or confirmed reservations").
Proof.
  intros H Hs Hr Hrid [room Hroom] [building Hbuilding].
  apply checkOut_Success in H
    as (s' & room0 & Hs' & _ & _ & _ & _ & _ & _ & _ & Hres).
  simplify_eq. rewrite Hr in Hres.
  unfold checkIn. rewrite Hrid, Hroom, Hbuilding, Hres, lookup_insert_eq. simpl.
  by rewrite bool_decide_eq_true_2.
Qed.

Lemma checkIn_after_checkOut_witness :
  checkIn 1 (Sample.arrival 0) 200000 Scenario.checkedOut
  = (Scenario.checkedOut,
     Failure ValidationError "Can only check in for pending or confirmed reservations").
Proof.
  eapply (checkIn_after_checkOut 1 0 None 155000 Sample.checkedIn Scenario.checkedOut
            200 (CheckOutData.mk 0 (Some 155000) (Some 3) 0) _ Scenario.afternoon
            (Sample.arrival 0) 200000);
    [vm_compute; reflexivity | vm_compute; reflexivity | vm_compute; reflexivity
    | reflexivity | by eexists | by eexists].
Defined.

(** ** The occupancy patch *)

(** X16: The occupancy patch of a room that passes its validators always succeeds
    and stores the count of the body, negative counts as 0; the status it
    stores is the derived one: 'occupied' with a positive count whatever the
    body asks, and with a count of 0 'maintenance' when the body asks for it
    (or names no status of the enum and the room was in maintenance) and
    'available' otherwise, also when the body asks for 'occupied'. *)
Theorem patchOccupancy_saved id currentOccupancy status now db room0 :
  rooms db !! id = Some room0 →
  Room.validate room0 = true →
  ∃ room,
    patchOccupancy id currentOccupancy status now db
    = (mkDb (reservations db) (signIns db) (<[id := room]> (rooms db)) (buildings db),
       Success 200
         (OccupancyData.mk id (Room.occupancyStatus room) (Room.currentOccupancy room)
            now)) ∧
    Room.currentOccupancy room
      = default (Room.currentOccupancy room0) (Z.max 0 <$> currentOccupancy) ∧
    Room.capacity room = Room.capacity room0 ∧
    Room.building room = Room.building room0 ∧
    Room.lastUpdated room = now ∧
    Room.occupancyStatus room
      = if 0 <? Room.currentOccupancy room then Room.occupied
        else if decide (default (Room.occupancyStatus room0)
                          (required_str status ≫= parseRoomStatus) = Room.maintenance)
        then Room.maintenance else Room.available.
Proof.
  intros Hroom Hv. unfold Room.validate in Hv. apply andb_true_iff in Hv as [Hcap Hocc].
  apply Z.leb_le in Hocc.
  unfold patchOccupancy. rewrite Hroom. rewrite saveRoom_valid.
  - eexists. split; [reflexivity|]. simpl.
    destruct currentOccupancy as [n|], (required_str status) as [st|]; simpl;
      try destruct (parseRoomStatus st) as [[]|]; simpl;
      repeat split; try done;
      destruct (0 <? _); try done; by destruct (Room.occupancyStatus room0).
  - unfold Room.validate.
    destruct currentOccupancy as [n|], (required_str status) as [st|]; simpl;
      try destruct (parseRoomStatus st); simpl; rewrite Hcap; simpl;
      apply Z.leb_le; lia.
Qed.

(** The body asks for 'occupied' with a count of -2 in the occupied room 7. *)
Lemma patchOccupancy_saved_witness :
  ∃ db',
    patchOccupancy 7 (Some (-2)) (Some "occupied") 9000 Sample.checkedIn
    = (db', Success 200 (OccupancyData.mk 7 Room.available 0 9000)).
Proof.
  edestruct (patchOccupancy_saved 7 (Some (-2)) (Some "occupied") 9000 Sample.checkedIn)
    as (room & H & Hocc & _ & _ & _ & Hst);
    [vm_compute; reflexivity | vm_compute; reflexivity |].
  eexists. rewrite H. rewrite Hst, Hocc. reflexivity.
Defined.

(** ** Editing a sign-in *)

(** X15: Through the sign-in update route a caller who is not an admin changes
    nothing but the notes of a sign-in of their own, and with them the
    [actualDuration] that the save hook computes again from the two times of
    a sign-in that has been signed out: the status of the body is ignored, a
    sign-in of somebody else is refused with 403, and rooms and reservations
    are never written. *)
Theorem updateSignIn_not_admin id userId role notes status db :
  role ≠ "admin" →
  rooms (updateSignIn id userId role notes status db).1 = rooms db
  ∧ reservations (updateSignIn id userId role notes status db).1 = reservations db
  ∧ (∀ j, j ≠ id →
       signIns (updateSignIn id userId role notes status db).1 !! j = signIns db !! j)
  ∧ (∀ s, signIns db !! id = Some s →
       (SignIn.user s ≠ userId →
        updateSignIn id userId role notes status db
        = (db, Failure Forbidden "Unauthorized"))
       ∧ ∃ s',
           signIns (updateSignIn id userId role notes status db).1 !! id = Some s'
           ∧ SignIn.status s' = SignIn.status s
           ∧ SignIn.user s' = SignIn.user s
           ∧ SignIn.reservation s' = SignIn.reservation s
           ∧ SignIn.room s' = SignIn.room s
           ∧ SignIn.building s' = SignIn.building s
           ∧ SignIn.signInTime s' = SignIn.signInTime s
           ∧ SignIn.signOutTime s' = SignIn.signOutTime s
           ∧ (SignIn.user s ≠ userId → s' = s)
           ∧ (SignIn.user s = userId →
              SignIn.notes s' = match required_str notes with
                                | Some n => Js.trim n
                                | None => SignIn.notes s
                                end
              ∧ SignIn.actualDuration s'
                = match SignIn.signOutTime s with
                  | Some out => Some (Js.round_div (out - SignIn.signInTime s) 60000)
                  | None => SignIn.actualDuration s
                  end)).
Proof.
  intros Hrole. apply String.eqb_neq in Hrole.
  unfold updateSignIn. rewrite Hrole.
  destruct (signIns db !! id) as [s|] eqn:Hs; [|by repeat split].
  destruct (decide (SignIn.user s = userId)) as [Hu|Hu].
  - rewrite (bool_decide_eq_true_2 _ Hu). simpl.
    split; [done|]. split; [done|].
    split; [intros j Hj; by rewrite lookup_insert_ne|].
    intros s0 [= <-]. split; [done|].
    eexists. split; [apply lookup_insert_eq|].
    destruct (required_str notes), (required_str status);
      unfold SignIn.pre_save; simpl;
      destruct (SignIn.signOutTime s) eqn:E; simpl; rewrite ?E;
      repeat split; done.
  - rewrite (bool_decide_eq_false_2 _ Hu). simpl.
    split; [done|]. split; [done|]. split; [done|].
    intros s0 [= <-]. split; [done|]. exists s. by repeat split.
Qed.

Lemma updateSignIn_not_admin_witness :
  ∃ s',
    signIns (updateSignIn 0 1 "student" (Some "left early") (Some "abandoned")
               Sample.checkedIn).1 !! 0%nat = Some s'
    ∧ SignIn.status s' = SignIn.active
    ∧ SignIn.notes s' = "left early"
    ∧ SignIn.actualDuration s' = None.
Proof.
  edestruct (updateSignIn_not_admin 0 1 "student" (Some "left early") (Some "abandoned")
               Sample.checkedIn) as (_ & _ & _ & H); [discriminate|].
  edestruct H as (_ & s' & H1 & H2 & _ & _ & _ & _ & _ & _ & _ & H3);
    [vm_compute; reflexivity|].
  destruct H3 as [Hn Hd]; [reflexivity|].
  exists s'. split; [exact H1|]. rewrite H2, Hn, Hd. repeat split.
Defined.

(** X14: When an admin closes an active sign-in through the update route, as
    'completed' or 'abandoned', the occupancy of its room stays as it was and
    the sign-in can no longer be checked out: the check-out is refused with
    400 and writes nothing. *)
Theorem closed_by_admin_keeps_occupancy id adminId notes status db s v notes' now :
  signIns db !! id = Some s →
  status ≠ "" →
  parseSignInStatus status = Some v →
  v ≠ SignIn.active →
  ∃ db1 s',
    updateSignIn id adminId "admin" notes (Some status) db = (db1, Success 200 s')
    ∧ SignIn.status s' = v
    ∧ rooms db1 = rooms db
    ∧ checkOut (SignIn.user s) id notes' now db1
      = (db1, Failure ValidationError "Check-in is not active").
Proof.
  intros Hs Hne Hv Hact.
  unfold updateSignIn. rewrite Hs. rewrite andb_false_r.
  rewrite (required_str_Some status Hne), Hv. simpl.
  eexists _, _. split; [reflexivity|].
  assert (∀ s0, SignIn.status (SignIn.pre_save (setSignInStatus v s0)) = v
                ∧ SignIn.user (SignIn.pre_save (setSignInStatus v s0)) = SignIn.user s0)
    as Hpre.
  { intros s0. unfold SignIn.pre_save. simpl. by destruct (SignIn.signOutTime s0). }
  assert (∀ s0, SignIn.user (match required_str notes with
                             | Some n => setSignInNotes n s0
                             | None => s0
                             end) = SignIn.user s0) as Hnotes.
  { intros s0. by destruct (required_str notes). }
  split; [apply Hpre|]. split; [done|].
  unfold checkOut. simpl. rewrite lookup_insert_eq.
  destruct (Hpre (match required_str notes with
                  | Some n => setSignInNotes n s
                  | None => s
                  end)) as [-> ->].
  rewrite Hnotes, bool_decide_eq_true_2 by done. simpl.
  by rewrite bool_decide_eq_false_2.
Qed.

Lemma closed_by_admin_keeps_occupancy_witness :
  ∃ db1 s' room,
    updateSignIn 0 9 "admin" None (Some "abandoned") Sample.checkedIn
    = (db1, Success 200 s')
    ∧ rooms db1 !! 7%nat = Some room
    ∧ Room.currentOccupancy room = 1
    ∧ checkOut 1 0 None 155000 db1
      = (db1, Failure ValidationError "Check-in is not active").
Proof.
  edestruct (closed_by_admin_keeps_occupancy 0 9 None "abandoned" Sample.checkedIn)
    as (db1 & s' & H1 & _ & H3 & H4);
    [vm_compute; reflexivity | discriminate | reflexivity | discriminate |].
  exists db1, s'. eexists. split; [exact H1|]. rewrite H3.
  split; [vm_compute; reflexivity|]. split; [reflexivity|]. apply H4.
Defined.

(** ** Listings *)

Lemma sorted_find {A} (R : relation (nat * A)) `{!RelDecision R, !Total R}
    (q : nat → A → bool) (m : gmap nat A) :
  Sorted R (merge_sort R (find q m))
  ∧ NoDup (merge_sort R (find q m))
  ∧ ∀ id d, (id, d) ∈ merge_sort R (find q m) ↔ m !! id = Some d ∧ q id d = true.
Proof.
  split; [apply Sorted_merge_sort; apply _|]. split.
  - rewrite merge_sort_Permutation. unfold find.
    apply NoDup_filter, NoDup_map_to_list.
  - intros id d. rewrite merge_sort_Permutation. apply elem_of_find.
Qed.

Lemma elem_of_sorted_find {A} (R : relation (nat * A)) `{!RelDecision R, !Total R}
    (q : nat → A → bool) (m : gmap nat A) id d :
  (id, d) ∈ merge_sort R (find q m) ↔ m !! id = Some d ∧ q id d = true.
Proof. by destruct (sorted_find R q m) as (_ & _ & H). Qed.

Lemma date_window_true (bound : option Z) (test : Z → bool) (P : Z → Prop) :
  (∀ b, test b = true ↔ P b) →
  match bound with Some b => test b | None => true end = true
  ↔ ∀ b, bound = Some b → P b.
Proof.
  intros Ht. destruct bound as [b|].
  - rewrite Ht. split; [by intros H ? [= <-]|auto].
  - split; [by intros _ ? [=]|done].
Qed.

Lemma status_filter_true (status : option string) (name : string) :
  match required_str status with
  | Some st => String.eqb name st
  | None => true
  end = true
  ↔ ∀ st, status = Some st → st ≠ "" → name = st.
Proof.
  destruct (required_str status) as [st|] eqn:E.
  - apply required_str_inv in E as [-> Hne]. rewrite String.eqb_eq.
    split; [by intros -> ? [= <-]|auto].
  - split; [|done]. intros _ st -> Hne.
    by rewrite (required_str_Some st Hne) in E.
Qed.

(** X19: The listing of a user's reservations holds exactly the reservations of
    that user, and of no other, that have the status and lie between the
    dates the query names; each once, by ascending date and then start time,
    with their number as count. *)
Theorem listReservations_spec userId status from to db :
  ∃ l,
    listReservations userId status from to db = Success 200 (length l, l)
    ∧ Sorted byDateThenStart l
    ∧ NoDup l
    ∧ ∀ id r,
        (id, r) ∈ l ↔
        reservations db !! id = Some r
        ∧ Reservation.user r = userId
        ∧ (∀ st, status = Some st → st ≠ "" → statusName (Reservation.status r) = st)
        ∧ (∀ f, from = Some f → f <= Reservation.reservationDate r)
        ∧ (∀ t, to = Some t → Reservation.reservationDate r <= t).
Proof.
  eexists. split; [reflexivity|].
  destruct (sorted_find byDateThenStart (listQuery userId status from to)
              (reservations db)) as (Hs & Hn & He).
  split; [done|]. split; [done|].
  intros id r. rewrite He. unfold listQuery.
  rewrite !andb_true_iff, bool_decide_eq_true, status_filter_true.
  rewrite (date_window_true from (λ f, f <=? Reservation.reservationDate r)
             (λ f, f <= Reservation.reservationDate r)) by (intros; apply Z.leb_le).
  rewrite (date_window_true to (λ t, Reservation.reservationDate r <=? t)
             (λ t, Reservation.reservationDate r <= t)) by (intros; apply Z.leb_le).
  tauto.
Qed.

Lemma createReservation_stored userId body db db' code id r :
  createReservation userId body db = (db', Success code (id, r)) →
  reservations db' !! id = Some r ∧ Reservation.user r = userId.
Proof.
  unfold createReservation, saveReservation. intros H.
  repeat case_match; simplify_eq. simpl. by rewrite lookup_insert_eq.
Qed.

(** X20: A reservation that has just been created is in its owner's listing and
    in nobody else's. *)
Theorem created_is_listed userId body db db' code id r :
  createReservation userId body db = (db', Success code (id, r)) →
  (∃ n l, listReservations userId None None None db' = Success 200 (n, l)
          ∧ (id, r) ∈ l)
  ∧ (∀ other n l, other ≠ userId →
       listReservations other None None None db' = Success 200 (n, l) →
       (id, r) ∉ l).
Proof.
  intros H. apply createReservation_stored in H as [Hr Hu]. split.
  - eexists _, _. split; [reflexivity|].
    apply (proj2 (elem_of_sorted_find byDateThenStart _ _ _ _)).
    split; [done|]. unfold listQuery.
    by rewrite (bool_decide_eq_true_2 _ Hu).
  - intros other n l Hne [= <- <-] Hin.
    apply (proj1 (elem_of_sorted_find byDateThenStart _ _ _ _)) in Hin as [_ Hq].
    unfold listQuery in Hq.
    rewrite bool_decide_eq_false_2 in Hq by congruence. done.
Qed.

Lemma created_is_listed_witness :
  ∃ n l,
    listReservations 1 None None None Sample.booked = Success 200 (n, l)
    ∧ (0%nat, Scenario.afternoon) ∈ l.
Proof.
  edestruct (created_is_listed 1 (Sample.booking "14:00" "16:00") Sample.campus
               Sample.booked 201 0 Scenario.afternoon) as [H _];
    [vm_compute; reflexivity|].
  exact H.
Defined.

(** X18: The calendar of a room holds exactly the pending and confirmed
    reservations of the room, for a query with a date those dated from that
    date up to, not including, the next day; each once, by ascending start
    time. *)
Theorem roomReservations_spec nextDay roomId date db :
  ∃ l,
    roomReservations nextDay roomId date db = Success 200 (length l, l)
    ∧ Sorted byStart l
    ∧ NoDup l
    ∧ ∀ id r,
        (id, r) ∈ l ↔
        reservations db !! id = Some r
        ∧ Reservation.room r = roomId
        ∧ Reservation.active (Reservation.status r) = true
        ∧ (∀ d, date = Some d →
                d <= Reservation.reservationDate r < nextDay d).
Proof.
  eexists. split; [reflexivity|].
  destruct (sorted_find byStart (calendarQuery nextDay roomId date) (reservations db))
    as (Hs & Hn & He).
  split; [done|]. split; [done|].
  intros id r. rewrite He. unfold calendarQuery.
  rewrite !andb_true_iff, bool_decide_eq_true.
  rewrite (date_window_true date
             (λ d, (d <=? Reservation.reservationDate r)
                   && (Reservation.reservationDate r <? nextDay d))
             (λ d, d <= Reservation.reservationDate r < nextDay d)).
  - tauto.
  - intros d. rewrite andb_true_iff, Z.leb_le, Z.ltb_lt. tauto.
Qed.

(** X17: What the conflict checker finds is on the calendar: when a proposal for
    a room and a date is refused, the calendar of that room for that date
    shows a reservation of that date that overlaps it; and every reservation
    the calendar shows, dated that very date and overlapping the proposal,
    makes the checker refuse it, unless it is the excluded one. *)
Theorem conflict_is_on_calendar nextDay db roomId date startTime endTime excludeId :
  date < nextDay date →
  ∃ l,
    roomReservations nextDay roomId (Some date) db = Success 200 (length l, l)
    ∧ (checkBookingConflict db roomId date startTime endTime excludeId = true ↔
       ∃ id existing,
         (id, existing) ∈ l
         ∧ Reservation.reservationDate existing = date
         ∧ excludeId ≠ Some id
         ∧ overlaps startTime endTime existing = true).
Proof.
  intros Hday. eexists. split; [reflexivity|].
  rewrite checkBookingConflict_true. split.
  - intros (id & existing & Hl & Hq & Ho).
    apply conflictQuery_true in Hq as (Hroom & Hdate & Hact & Hex).
    exists id, existing. split; [|done].
    apply (proj2 (elem_of_sorted_find byStart _ _ _ _)).
    split; [done|]. unfold calendarQuery.
    rewrite (bool_decide_eq_true_2 _ Hroom), Hact, Hdate. simpl.
    apply andb_true_iff. split; [apply Z.leb_le; lia|by apply Z.ltb_lt].
  - intros (id & existing & Hin & Hdate & Hex & Ho).
    apply (proj1 (elem_of_sorted_find byStart _ _ _ _)) in Hin as [Hl Hq].
    unfold calendarQuery in Hq.
    rewrite !andb_true_iff, bool_decide_eq_true in Hq. destruct Hq as [[Hroom Hact] _].
    exists id, existing. split; [done|]. split; [by apply conflictQuery_true|done].
Qed.

Lemma conflict_is_on_calendar_witness :
  ∃ l,
    roomReservations (λ d, d + 86400000) 7 (Some Sample.day) Sample.booked
    = Success 200 (length l, l)
    ∧ (0%nat, Scenario.afternoon) ∈ l.
Proof.
  edestruct (conflict_is_on_calendar (λ d, d + 86400000) Sample.booked 7 Sample.day
               "15:00" "17:00" None) as (l & H1 & H2); [lia|].
  exists l. split; [exact H1|].
  destruct H2 as [H2 _]. destruct H2 as (id & existing & Hin & _); [vm_compute; reflexivity|].
  injection H1 as _ <-. vm_compute. left.
Defined.

(** X21: The sign-in history of a user holds exactly the sign-ins of that user,
    and of no other, that have the status and the sign-in time the query
    names; each once, the latest first. *)
Theorem signInHistory_spec userId status from to db :
  ∃ l,
    signInHistory userId status from to db = Success 200 (length l, l)
    ∧ Sorted latestFirst l
    ∧ NoDup l
    ∧ ∀ id s,
        (id, s) ∈ l ↔
        signIns db !! id = Some s
        ∧ SignIn.user s = userId
        ∧ (∀ st, status = Some st → st ≠ "" → signInStatusName (SignIn.status s) = st)
        ∧ (∀ f, from = Some f → f <= SignIn.signInTime s)
        ∧ (∀ t, to = Some t → SignIn.signInTime s <= t).
Proof.
  eexists. split; [reflexivity|].
  destruct (sorted_find latestFirst (historyQuery userId status from to) (signIns db))
    as (Hs & Hn & He).
  split; [done|]. split; [done|].
  intros id s. rewrite He. unfold historyQuery.
  rewrite !andb_true_iff, bool_decide_eq_true, status_filter_true.
  rewrite (date_window_true from (λ f, f <=? SignIn.signInTime s)
             (λ f, f <= SignIn.signInTime s)) by (intros; apply Z.leb_le).
  rewrite (date_window_true to (λ t, SignIn.signInTime s <=? t)
             (λ t, SignIn.signInTime s <= t)) by (intros; apply Z.leb_le).
  tauto.
Qed.

(** ** The token of a request *)

Lemma str_app_nil_r s : s +:+ "" = s.
Proof.
  induction s as [|c s IH]; [done|].
  change (String c s +:+ "") with (String c (s +:+ "")). by rewrite IH.
Qed.

Lemma rev_app_rev_app a cur acc :
  String.rev_app (String.rev_app a cur) acc = String.rev_app cur (a +:+ acc).
Proof.
  revert cur. induction a as [|c a IH]; intros cur; [done|].
  change (String c a +:+ acc) with (String c (a +:+ acc)).
  cbn [String.rev_app]. by rewrite IH.
Qed.

Lemma rev_rev_app a : String.rev (String.rev_app a "") = a.
Proof.
  unfold String.rev. rewrite rev_app_rev_app. cbn [String.rev_app].
  apply str_app_nil_r.
Qed.

Lemma split_go_piece sep cur a :
  noneOf sep a = true →
  Js.split_go sep cur a = [String.rev (String.rev_app a cur)].
Proof.
  revert cur. induction a as [|c a IH]; intros cur Ha; [done|].
  cbn [noneOf] in Ha. apply andb_true_iff in Ha as [Hc Ha].
  apply negb_true_iff in Hc. cbn [Js.split_go String.rev_app]. rewrite Hc. by apply IH.
Qed.

Lemma split_go_pieces sep cur a rest :
  noneOf sep a = true →
  Js.split_go sep cur (a +:+ String sep rest)
  = String.rev (String.rev_app a cur) :: Js.split_go sep EmptyString rest.
Proof.
  revert cur. induction a as [|c a IH]; intros cur Ha.
  - change ("" +:+ String sep rest) with (String sep rest).
    cbn [Js.split_go String.rev_app]. by rewrite Ascii.eqb_refl.
  - cbn [noneOf] in Ha. apply andb_true_iff in Ha as [Hc Ha].
    apply negb_true_iff in Hc.
    change (String c a +:+ String sep rest) with (String c (a +:+ String sep rest)).
    cbn [Js.split_go String.rev_app]. rewrite Hc. by apply IH.
Qed.

Lemma split_piece sep a : noneOf sep a = true → Js.split sep a = [a].
Proof. intros H. unfold Js.split. by rewrite split_go_piece, rev_rev_app. Qed.

Lemma split_pieces sep a rest :
  noneOf sep a = true → Js.split sep (a +:+ String sep rest) = a :: Js.split sep rest.
Proof. intros H. unfold Js.split. by rewrite split_go_pieces, rev_rev_app. Qed.

(** X22: The middleware takes as token what stands between the first and the
    second space of the Authorization header, whatever stands before the
    first space: the scheme is not looked at.  A request without the header,
    with a header without a space or with nothing after the first space is
    answered 401 'No token provided' whatever the verifier would say; any
    other is passed on exactly when the verifier accepts the token. *)
Theorem authMiddleware_token {U} (verify : string → option U) :
  authMiddleware verify None = Rejected 401 "No token provided"
  ∧ (∀ header, noneOf " " header = true →
       authMiddleware verify (Some header) = Rejected 401 "No token provided")
  ∧ (∀ scheme, noneOf " " scheme = true →
       authMiddleware verify (Some (scheme +:+ " ")) = Rejected 401 "No token provided")
  ∧ (∀ scheme token, noneOf " " scheme = true → noneOf " " token = true →
       token ≠ "" →
       (authMiddleware verify (Some (scheme +:+ " " +:+ token))
        = match verify token with
          | Some decoded => Next decoded
          | None => Rejected 401 "Invalid or expired token"
          end)
       ∧ ∀ rest,
           authMiddleware verify (Some (scheme +:+ " " +:+ token +:+ " " +:+ rest))
           = authMiddleware verify (Some (scheme +:+ " " +:+ token))).
Proof.
  split; [done|]. split; [|split].
  - intros header H. unfold authMiddleware. by rewrite split_piece.
  - intros scheme H. unfold authMiddleware.
    change (scheme +:+ " ") with (scheme +:+ String " " "").
    by rewrite split_pieces.
  - intros scheme token Hs Ht Hne.
    assert (authMiddleware verify (Some (scheme +:+ " " +:+ token))
            = match verify token with
              | Some decoded => Next decoded
              | None => Rejected 401 "Invalid or expired token"
              end) as E.
    { unfold authMiddleware.
      change (scheme +:+ " " +:+ token) with (scheme +:+ String " " token).
      rewrite split_pieces, split_piece by done. simpl.
      by rewrite (required_str_Some token Hne). }
    split; [done|]. intros rest. rewrite E.
    unfold authMiddleware.
    change (scheme +:+ " " +:+ token +:+ " " +:+ rest)
      with (scheme +:+ String " " (token +:+ String " " rest)).
    rewrite !split_pieces by done. simpl.
    by rewrite (required_str_Some token Hne).
Qed.

Lemma authMiddleware_token_witness :
  authMiddleware (λ t, if String.eqb t "abc" then Some 1%nat else None)
    (Some "Basic abc")
  = Next 1%nat.
Proof.
  destruct (authMiddleware_token (λ t, if String.eqb t "abc" then Some 1%nat else None))
    as (_ & _ & _ & H).
  destruct (H "Basic" "abc") as [E _]; [reflexivity | reflexivity | discriminate |].
  exact E.
Defined.

(** ** The reservation grid *)

Lemma checkIfBooked_true {D} (toDateString : D → string) reservations b r d t :
  checkIfBooked toDateString reservations b r d t = true
  ↔ Slot.mk b r (toDateString d) t ∈ reservations.
Proof.
  unfold checkIfBooked. rewrite existsb_exists. split.
  - intros ([b' r' d' t'] & Hin & Hq). simpl in Hq.
    rewrite !andb_true_iff, !String.eqb_eq in Hq. destruct Hq as [[[-> ->] ->] ->].
    by apply list_elem_of_In.
  - intros Hin. eexists. split; [by apply list_elem_of_In|].
    simpl. by rewrite !String.eqb_refl.
Qed.

Lemma reserveSlot_other {D} (toDateString : D → string) reservations b r d t
    b' r' d' t' :
  (b', r', toDateString d', t') ≠ (b, r, toDateString d, t) →
  checkIfBooked toDateString
    (reserveSlot toDateString reservations b r d t) b' r' d' t'
  = checkIfBooked toDateString reservations b' r' d' t'.
Proof.
  intros Hne.
  apply eq_true_iff_eq. rewrite !checkIfBooked_true. unfold reserveSlot.
  rewrite elem_of_app, list_elem_of_singleton. split; [|auto].
  intros [H|H]; [done|]. injection H as -> -> Hd ->. by rewrite Hd in Hne.
Qed.

(** X23: After [reserveSlot] the slot is booked, on every date that prints as the
    same day, and every other cell of the grid is as it was. *)
Theorem reserveSlot_books {D} (toDateString : D → string) reservations b r d t :
  (∀ d', toDateString d' = toDateString d →
     checkIfBooked toDateString
       (reserveSlot toDateString reservations b r d t) b r d' t = true)
  ∧ (∀ b' r' d' t',
       (b', r', toDateString d', t') ≠ (b, r, toDateString d, t) →
       checkIfBooked toDateString
         (reserveSlot toDateString reservations b r d t) b' r' d' t'
       = checkIfBooked toDateString reservations b' r' d' t').
Proof.
  split.
  - intros d' Hd. apply checkIfBooked_true. unfold reserveSlot. rewrite Hd.
    apply elem_of_app. right. by apply list_elem_of_singleton.
  - intros b' r' d' t'. apply reserveSlot_other.
Qed.

Lemma reserveSlot_books_witness :
  checkIfBooked id (reserveSlot id [] "Ciruti" "Room 6B" "Tue Nov 03 2026" "09:00")
    "Ciruti" "Room 6B" "Tue Nov 03 2026" "09:00" = true
  ∧ checkIfBooked id (reserveSlot id [] "Ciruti" "Room 6B" "Tue Nov 03 2026" "09:00")
      "Ciruti" "Room 6C" "Tue Nov 03 2026" "09:00" = false.
Proof.
  destruct (reserveSlot_books id [] "Ciruti" "Room 6B" "Tue Nov 03 2026" "09:00")
    as [Hb Ho].
  split; [apply Hb; reflexivity|].
  rewrite Ho; [reflexivity | discriminate].
Defined.

(** X24: A click on a cell of the grid books at most that cell, never twice: the
    list of bookings stays free of duplicates, and what was booked stays
    booked. *)
Theorem clickCell_keeps {D} (toDateString : D → string) confirm reservations b r d t :
  (NoDup reservations →
   NoDup (clickCell toDateString confirm reservations b r d t))
  ∧ (∀ b' r' d' t',
       checkIfBooked toDateString reservations b' r' d' t' = true →
       checkIfBooked toDateString
         (clickCell toDateString confirm reservations b r d t) b' r' d' t' = true)
  ∧ (∀ b' r' d' t',
       (b', r', toDateString d', t') ≠ (b, r, toDateString d, t) →
       checkIfBooked toDateString
         (clickCell toDateString confirm reservations b r d t) b' r' d' t'
       = checkIfBooked toDateString reservations b' r' d' t').
Proof.
  unfold clickCell.
  destruct (checkIfBooked toDateString reservations b r d t) eqn:Hb; [done|].
  destruct confirm; [|done].
  assert (Slot.mk b r (toDateString d) t ∉ reservations) as Hnin.
  { intros Hin. apply checkIfBooked_true in Hin. congruence. }
  split; [|split].
  - intros Hnd. unfold reserveSlot. apply NoDup_app. split; [done|].
    split; [|apply NoDup_singleton].
    intros x Hx Hx'. apply list_elem_of_singleton in Hx'. by subst.
  - intros b' r' d' t' H. apply checkIfBooked_true. apply checkIfBooked_true in H.
    unfold reserveSlot. apply elem_of_app. by left.
  - intros b' r' d' t'. apply reserveSlot_other.
Qed.

Lemma clickCell_keeps_witness :
  NoDup (clickCell id true [Slot.mk "Ciruti" "Room 6B" "Tue Nov 03 2026" "09:00"]
           "Ciruti" "Room 6C" "Tue Nov 03 2026" "09:00")
  ∧ checkIfBooked id
      (clickCell id true [Slot.mk "Ciruti" "Room 6B" "Tue Nov 03 2026" "09:00"]
         "Ciruti" "Room 6C" "Tue Nov 03 2026" "09:00")
      "Ciruti" "Room 6B" "Tue Nov 03 2026" "09:00" = true.
Proof.
  destruct (clickCell_keeps id true
              [Slot.mk "Ciruti" "Room 6B" "Tue Nov 03 2026" "09:00"]
              "Ciruti" "Room 6C" "Tue Nov 03 2026" "09:00") as (Hnd & Hk & _).
  split.
  - apply Hnd. apply NoDup_singleton.
  - apply Hk. reflexivity.
Defined.

Lemma updateReservation_frame_witness :
  ∃ r',
    reservations (updateReservation 0 1 "student" Scenario.stretch Sample.booked).1
      !! 0%nat = Some r'
    ∧ Reservation.startTime r' = "16:00"
    ∧ Reservation.endTime r' = "19:00"
    ∧ Reservation.duration r' = Js.of_Z 120.
Proof.
  destruct (updateReservation_frame 0 1 "student" Scenario.stretch Sample.booked)
    as (_ & _ & _ & _ & _ & H).
  destruct (H Scenario.afternoon) as (r' & Hr' & Hsame); [vm_compute; reflexivity|].
  exists r'. split; [exact Hr'|].
  destruct Hsame as (_ & _ & _ & _ & Hd & _).
  split; [|split; [|exact Hd]];
    vm_compute in Hr'; injection Hr' as <-; reflexivity.
Defined.

(** ** Slots taken and freed *)

Lemma num_lt_minutes s t :
  wellFormed s → wellFormed t → Js.num_lt (minutes s) (minutes t) = negb (Js.le t s).
Proof.
  intros Ws Wt. rewrite <- (num_le_minutes t s) by done.
  destruct (wellFormed_minutes s Ws) as (ms & ? & ->).
  destruct (wellFormed_minutes t Wt) as (mt & ? & ->).
  rewrite num_le_lt by (apply of_Z_not_NaN; lia). by rewrite negb_involutive.
Qed.

(** Between reservations written as documented, the loop's test is the
    intersection of the intervals of minutes. *)
Lemma overlaps_documented startTime endTime existing :
  wellFormed startTime → wellFormed endTime →
  wellFormed (Reservation.startTime existing) →
  wellFormed (Reservation.endTime existing) →
  overlaps startTime endTime existing = true ↔
  Js.num_lt (minutes (Reservation.startTime existing)) (minutes endTime) = true
  ∧ Js.num_lt (minutes startTime) (minutes (Reservation.endTime existing)) = true.
Proof.
  intros W1 W2 W3 W4. rewrite !num_lt_minutes by done.
  unfold overlaps, Js.ge, Js.le.
  rewrite negb_true_iff, orb_false_iff, !negb_true_iff. done.
Qed.

(** X10: A reservation that has just been created with a YYYY-MM-DD date and
    HH:MM times blocks its slot: every proposal written so for its room and
    calendar date whose interval of minutes intersects its own is a
    conflict, except for an update of the reservation itself. *)
Theorem created_blocks_overlaps userId body db db' code id r date startTime endTime :
  createReservation userId body db = (db', Success code (id, r)) →
  asDocumented r →
  dateOnly date → wellFormed startTime → wellFormed endTime →
  calendarDay date = calendarDay (Reservation.reservationDate r) →
  Js.num_lt (minutes (Reservation.startTime r)) (minutes endTime) = true →
  Js.num_lt (minutes startTime) (minutes (Reservation.endTime r)) = true →
  checkBookingConflict db' (Reservation.room r) date startTime endTime None = true
  ∧ ∀ other, other ≠ id →
      checkBookingConflict db' (Reservation.room r) date startTime endTime (Some other)
      = true.
Proof.
  intros H (Hd & Ws & We) Hdate Wst Wet Hday H1 H2.
  assert (Reservation.status r = Reservation.pending) as Hst.
  { unfold createReservation, saveReservation in H. repeat case_match; by simplify_eq. }
  apply createReservation_stored in H as [Hr _].
  apply (dateOnly_calendarDay _ _ Hdate Hd) in Hday.
  assert (overlaps startTime endTime r = true) as Hov
    by (apply overlaps_documented; [done..|by split]).
  split; [|intros other Hne]; apply checkBookingConflict_true; exists id, r;
    (split; [done|]); (split; [|done]); apply conflictQuery_true;
    rewrite Hst; repeat split; congruence.
Qed.

Lemma created_blocks_overlaps_witness :
  checkBookingConflict Sample.booked 7 Sample.day "15:00" "17:00" None = true.
Proof.
  edestruct (created_blocks_overlaps 1 (Sample.booking "14:00" "16:00") Sample.campus
               Sample.booked 201 0 Scenario.afternoon Sample.day "15:00" "17:00")
    as [H _].
  - vm_compute. reflexivity.
  - split; [reflexivity|].
    split; [apply (wellFormed_clock 1 4 0 0); lia|apply (wellFormed_clock 1 6 0 0); lia].
  - reflexivity.
  - apply (wellFormed_clock 1 5 0 0); lia.
  - apply (wellFormed_clock 1 7 0 0); lia.
  - reflexivity.
  - vm_compute. reflexivity.
  - vm_compute. reflexivity.
  - exact H.
Defined.

(** ** Double booking, for requests written as documented *)

Lemma clash_doubleBooked db i j :
  documented db → clash db i j ↔ doubleBooked db i j.
Proof.
  intros Hdoc.
  split; intros (r1 & r2 & Hij & H1 & H2 & Hroom & Hdate & Ha1 & Ha2 & Hov);
    destruct (Hdoc _ _ H1) as (D1 & S1 & E1), (Hdoc _ _ H2) as (D2 & S2 & E2);
    exists r1, r2; repeat split; try done.
  - by apply dateOnly_calendarDay.
  - apply overlaps_documented; [done..|]. by destruct Hov.
  - by rewrite Hdate.
  - by apply (overlaps_documented _ _ r2) in Hov as [? _].
  - by apply (overlaps_documented _ _ r2) in Hov as [_ ?].
Qed.

Lemma documented_insert db db' k x :
  documented db → reservations db' = <[k := x]> (reservations db) → asDocumented x →
  documented db'.
Proof.
  intros Hdoc Hdb' Hx id r Hr. rewrite Hdb' in Hr.
  destruct (decide (id = k)) as [->|Hne].
  - rewrite lookup_insert_eq in Hr. by simplify_eq.
  - rewrite lookup_insert_ne in Hr by done. by eapply Hdoc.
Qed.

Lemma documented_same db db' :
  documented db → reservations db' = reservations db → documented db'.
Proof. intros Hdoc Hdb' id r Hr. rewrite Hdb' in Hr. by eapply Hdoc. Qed.

Lemma createReservation_documented userId body db :
  documentedRequest (CreateReservation userId body) → documented db →
  documented (createReservation userId body db).1.
Proof.
  intros (Hd & Hs & He) Hdoc. unfold createReservation, saveReservation.
  destruct (CreateBody.reservationDate body) as [date|] eqn:Hdate;
    [|by repeat case_match].
  destruct (required_str (CreateBody.startTime body)) as [st|] eqn:Hst;
    [|by repeat case_match].
  destruct (required_str (CreateBody.endTime body)) as [et|] eqn:Het;
    [|by repeat case_match].
  apply required_str_inv in Hst as [Hst _], Het as [Het _].
  repeat case_match; simpl; try done. simplify_eq.
  eapply documented_insert; [done|reflexivity|].
  split; [|split]; simpl; auto.
Qed.

Lemma updateTimes_documented db id p r r1 :
  documentedRequest (UpdateReservation id 0 "" p) → asDocumented r →
  updateTimes db id p r = inr r1 → asDocumented r1.
Proof.
  intros (Hs & He) (D & S & E). unfold updateTimes.
  destruct (_ || _); [|by intros [= <-]].
  destruct (checkBookingConflict _ _ _ _ _ _); [done|].
  intros [= <-].
  destruct (required_str (Patch.startTime p)) as [st|] eqn:Hst,
           (required_str (Patch.endTime p)) as [et|] eqn:Het;
    try apply required_str_inv in Hst as [Hst _];
    try apply required_str_inv in Het as [Het _];
    split; [|split| |split| |split| |split]; simpl; auto.
Qed.

Lemma updateReservation_documented id userId role p db :
  documentedRequest (UpdateReservation id userId role p) → documented db →
  documented (updateReservation id userId role p db).1.
Proof.
  intros Hreq Hdoc. unfold updateReservation.
  destruct (reservations db !! id) as [r0|] eqn:Hr0; [|done].
  destruct (unauthorized _ _ _); [done|].
  destruct (negb _ && negb _); [done|].
  destruct (updateTimes db id p r0) as [msg|r1] eqn:Ht; [done|].
  apply (updateTimes_documented _ _ _ _ _ Hreq (Hdoc _ _ Hr0)) in Ht.
  assert (∀ r2, asDocumented r2 →
            documented
              (match saveReservation id (updateNotesStatus p r2) db with
               | Some db' => (db', Success 200 (updateNotesStatus p r2))
               | None => (db, Failure InternalError "Error updating reservation")
               end).1) as Hsave.
  { intros r2 (D & S & E). unfold saveReservation.
    destruct (Reservation.validate _); [|done]. simpl.
    destruct (updateNotesStatus_keeps p r2) as (_ & K2 & K3 & K4).
    eapply documented_insert; [done|reflexivity|].
    unfold asDocumented. by rewrite K2, K3, K4. }
  destruct (required_num (Patch.numberOfPeople p)) as [n|].
  - destruct (rooms db !! Reservation.room r1); [|done].
    destruct (_ <? _); [done|].
    by apply (Hsave (ReservationSet.numberOfPeople n r1)).
  - by apply Hsave.
Qed.

Lemma cancelReservation_documented id userId role reason now db :
  documented db → documented (cancelReservation id userId role reason now db).1.
Proof.
  intros Hdoc. unfold cancelReservation, saveReservation.
  destruct (reservations db !! id) as [r0|] eqn:Hr0; [|done].
  repeat case_match; simpl; try done. simplify_eq.
  eapply documented_insert; [done|reflexivity|]. exact (Hdoc _ _ Hr0).
Qed.

Lemma checkOut_documented userId id notes now db :
  documented db → documented (checkOut userId id notes now db).1.
Proof.
  intros Hdoc. unfold checkOut, saveRoom, saveReservation.
  repeat case_match; simpl; try done; simplify_eq;
    try (by eapply documented_same).
  eapply documented_insert; [done|reflexivity|].
  match goal with H : reservations _ !! _ = Some ?t |- asDocumented _ =>
    simpl in H; exact (Hdoc _ _ H) end.
Qed.

Lemma handle_documented now req db :
  documentedRequest req → documented db → documented (handle now req db).
Proof.
  intros Hreq Hdoc. destruct req; simpl.
  - by apply createReservation_documented.
  - by apply updateReservation_documented.
  - by apply cancelReservation_documented.
  - eapply documented_same; [done|apply checkIn_reservations].
  - by apply checkOut_documented.
Qed.

Lemma run_documented reqs db :
  documented db → noDoubleBooking db → allChecked reqs db →
  Forall (λ r, documentedRequest r.2) reqs →
  documented (run reqs db) ∧ noDoubleBooking (run reqs db).
Proof.
  revert db. induction reqs as [|[now req] rest IH]; intros db Hdoc Hno Hall Hreqs;
    [done|].
  destruct Hall as [Hreq Hrest]. apply Forall_cons in Hreqs as [Hd Hds]. simpl in *.
  apply IH; [by apply handle_documented|by apply noDoubleBooking_preserved|done..].
Qed.

(** X2: Among reservations with YYYY-MM-DD dates and HH:MM times, a run of
    requests written so, whose updates are all checked ones, started without
    double booking, ends without double booking: no two pending or confirmed
    reservations of a room on one calendar day have intersecting intervals
    of minutes. *)
Theorem run_noClash reqs db :
  documented db → noClash db → allChecked reqs db →
  Forall (λ r, documentedRequest r.2) reqs →
  documented (run reqs db) ∧ noClash (run reqs db).
Proof.
  intros Hdoc Hno Hall Hreqs.
  destruct (run_documented reqs db) as [Hdoc' Hno']; [done| |done..|].
  - intros i j H. apply (Hno i j). by apply clash_doubleBooked.
  - split; [done|]. intros i j H. apply (Hno' i j). by apply clash_doubleBooked.
Qed.

Lemma run_noClash_witness :
  noClash
    (run [(1000, CreateReservation 1 (Sample.booking "14:00" "16:00"));
          (1500, UpdateReservation 0 1 "student" Scenario.move);
          (3000, CreateReservation 2 (Sample.booking "14:00" "16:00"))] Sample.campus).
Proof.
  assert (wellFormed "14:00" ∧ wellFormed "16:00" ∧ wellFormed "18:00") as (W14 & W16 & W18).
  { split; [apply (wellFormed_clock 1 4 0 0); lia|].
    split; [apply (wellFormed_clock 1 6 0 0); lia|apply (wellFormed_clock 1 8 0 0); lia]. }
  apply run_noClash.
  - intros id r H. simpl in H. rewrite lookup_empty in H. discriminate.
  - intros i j (r1 & r2 & _ & H & _). simpl in H. rewrite lookup_empty in H. discriminate.
  - simpl. split; [exact I|]. split; [intros r _; right; reflexivity|].
    split; exact I.
  - repeat apply Forall_cons_2; [| |..|apply Forall_nil_2]; simpl.
    + split; [by intros d [= <-]|]. split; intros t [= <-]; done.
    + split; intros t [= <-]; done.
    + split; [by intros d [= <-]|]. split; intros t [= <-]; done.
Defined.

(** Without the premise on the requests two plain creates book a room twice:
    the same hours dated one second apart on the same day, or 9:00-15:00
    beside 14:00-16:00. *)
Example clash_by_instant :
  clash
    (run [(1000, CreateReservation 1 (Sample.booking "14:00" "16:00"));
          (3000, CreateReservation 2
                   (CreateBody.mk (Some 7%nat) (Some 3%nat) (Some (Sample.day + 1000))
                      (Some "14:00") (Some "16:00") (Some "studying") (Some 2) None))]
       Sample.campus) 0 1.
Proof.
  eexists _, _. split; [done|].
  split; [vm_compute; reflexivity|]. split; [vm_compute; reflexivity|].
  repeat split; vm_compute; reflexivity.
Qed.

Example clash_by_spelling :
  clash
    (run [(1000, CreateReservation 1 (Sample.booking "14:00" "16:00"));
          (3000, CreateReservation 2 (Sample.booking "9:00" "15:00"))]
       Sample.campus) 0 1.
Proof.
  eexists _, _. split; [done|].
  split; [vm_compute; reflexivity|]. split; [vm_compute; reflexivity|].
  repeat split; vm_compute; reflexivity.
Qed.

(** X11: A cancelled reservation frees its slot: after a cancellation the
    checker answers for every proposal what it answered before with the
    cancelled reservation excluded. *)
Theorem cancel_frees_slot id userId role reason now db db' code r'
    roomId date startTime endTime :
  cancelReservation id userId role reason now db = (db', Success code r') →
  checkBookingConflict db' roomId date startTime endTime None
  = checkBookingConflict db roomId date startTime endTime (Some id).
Proof.
  intros H.
  assert (reservations db' = <[id := r']> (reservations db)
          ∧ Reservation.active (Reservation.status r') = false) as [Hdb' Hst].
  { unfold cancelReservation, saveReservation in H. repeat case_match; by simplify_eq. }
  apply eq_true_iff_eq. rewrite !checkBookingConflict_true. rewrite Hdb'.
  split; intros (j & existing & Hl & Hq & Ho); exists j, existing;
    apply conflictQuery_true in Hq as (Hroom & Hdate & Hact & Hex).
  - destruct (decide (j = id)) as [->|Hne].
    + rewrite lookup_insert_eq in Hl. simplify_eq. congruence.
    + rewrite lookup_insert_ne in Hl by done. split; [done|]. split; [|done].
      apply conflictQuery_true. repeat split; congruence.
  - assert (j ≠ id) as Hne by congruence.
    rewrite lookup_insert_ne by done. split; [done|]. split; [|done].
    by apply conflictQuery_true.
Qed.

Lemma cancel_frees_slot_witness :
  checkBookingConflict Sample.cancelledOnce 7 Sample.day "15:00" "17:00" None
  = checkBookingConflict Sample.booked 7 Sample.day "15:00" "17:00" (Some 0%nat).
Proof.
  eapply (cancel_frees_slot 0 1 "student" None 2000 Sample.booked Sample.cancelledOnce).
  vm_compute. reflexivity.
Defined.

(** ** Stored documents pass their validators *)

Lemma allValid_reservation db id r :
  allValid db → Reservation.validate r = true →
  allValid (mkDb (<[id := r]> (reservations db)) (signIns db) (rooms db) (buildings db)).
Proof.
  intros [Hres Hrooms] Hv. split; [|done]. simpl. intros j x Hj.
  destruct (decide (j = id)) as [->|Hne].
  - rewrite lookup_insert_eq in Hj. by simplify_eq.
  - rewrite lookup_insert_ne in Hj by done. by eapply Hres.
Qed.

Lemma allValid_room now db id room signIns' :
  allValid db → Room.validate room = true →
  allValid (mkDb (reservations db) signIns'
              (<[id := Room.pre_save now room]> (rooms db)) (buildings db)).
Proof.
  intros [Hres Hrooms] Hv. split; [done|]. simpl. intros j x Hj.
  destruct (decide (j = id)) as [->|Hne].
  - rewrite lookup_insert_eq in Hj. by simplify_eq.
  - rewrite lookup_insert_ne in Hj by done. by eapply Hrooms.
Qed.

Lemma allValid_signIns db signIns' :
  allValid db → allValid (mkDb (reservations db) signIns' (rooms db) (buildings db)).
Proof. by intros [Hres Hrooms]. Qed.

Lemma saveReservation_allValid id r db db' :
  allValid db → saveReservation id r db = Some db' → allValid db'.
Proof.
  unfold saveReservation. intros Hv H.
  destruct (Reservation.validate r) eqn:E; [|done]. injection H as <-.
  by apply allValid_reservation.
Qed.

Lemma saveRoom_allValid now id room db db' :
  allValid db → saveRoom now id room db = Some db' → allValid db'.
Proof.
  unfold saveRoom. intros Hv H.
  destruct (Room.validate room) eqn:E; [|done]. injection H as <-.
  by apply allValid_room.
Qed.

(** X9: The five routes never store a reservation or a room that fails the
    validators of its schema: a database whose documents pass them is left
    so by every request, whatever its answer. *)
Theorem handle_allValid now req db : allValid db → allValid (handle now req db).
Proof.
  intros Hv. destruct req as [u b|i u ro p|i u ro re|u b|u i n]; simpl.
  - unfold createReservation. repeat case_match; simpl; try done.
    by eapply saveReservation_allValid.
  - unfold updateReservation. repeat case_match; simpl; try done;
      by eapply saveReservation_allValid.
  - unfold cancelReservation. repeat case_match; simpl; try done.
    by eapply saveReservation_allValid.
  - unfold checkIn. repeat case_match; simpl; try done;
      try (by apply allValid_signIns).
    eapply saveRoom_allValid; [|done]. by apply allValid_signIns.
  - unfold checkOut. repeat case_match; simpl; try done;
      try (by apply allValid_signIns).
    + eapply saveReservation_allValid; [|done].
      eapply saveRoom_allValid; [|done]. by apply allValid_signIns.
    + eapply saveRoom_allValid; [|done]. by apply allValid_signIns.
    + eapply saveRoom_allValid; [|done]. by apply allValid_signIns.
Qed.

Lemma handle_allValid_witness :
  allValid (handle 5000 (CheckIn 1 (Sample.arrival 0)) Sample.booked).
Proof.
  apply handle_allValid. split.
  - intros id r Hr.
    assert (reservations Sample.booked = {[0%nat := Scenario.afternoon]}) as E
      by (vm_compute; reflexivity).
    rewrite E in Hr. apply lookup_singleton_Some in Hr as [_ <-]. reflexivity.
  - intros id room Hr.
    assert (rooms Sample.booked = {[7%nat := Sample.room7]}) as E
      by (vm_compute; reflexivity).
    rewrite E in Hr. apply lookup_singleton_Some in Hr as [_ <-]. reflexivity.
Defined.
